(** * pkg/model/assets.go: the asset, exchange-symbol and exchange-pair
      repositories of the relational data-access layer

    The Go methods of [RelDB] and [DB] are embedded as Rocq functions over an
    explicit model of what they talk to:

    - the relational store ([PG]): three tables as lists of rows in storage
      order, the list of statements issued so far, and the transport failures
      still to come;
    - the key-value cache ([Redis]): a finite map, with the commands issued;
    - the time-series store: the answer of the one query the file sends.

    A Go function returning [(v, err)] is a Rocq function returning a pair
    whose error component is an [option error]; [None] is Go's [nil].  Go may
    return a partly filled value next to a non-nil error, and the embedding
    keeps that value. *)

From Stdlib Require Import ZArith Ascii String DecimalString DecimalZ.
From stdpp Require Import base tactics option list strings gmap.

Local Open Scope string_scope.
Local Open Scope list_scope.
Local Open Scope Z_scope.

(** ** Go values used by the file *)

Inductive numkind := ErrSyntax | ErrRange.

Inductive error :=
| ErrNoRows                                    (* pgx.ErrNoRows *)
| ErrConn                                      (* the store or the cache cannot be reached *)
| ErrSQLSyntax                                 (* the engine rejects the statement text *)
| ErrInvalidUUID                               (* the engine: invalid input syntax for type uuid *)
| ErrUniqueViolation                           (* the engine: duplicate key value *)
| ErrColumnCount                               (* Scan: destinations and columns differ in number *)
| ScanArgError (column : nat)                  (* pgx.ScanArgError *)
| NumError (func num : string) (kind : numkind)  (* *strconv.NumError *)
| errors_New (text : string).                  (* errors.New(text) *)

#[global] Instance error_eq_dec : EqDecision error.
Proof. unfold EqDecision, Decision. repeat decide equality. Defined.

(** [uint8(x)] and [uint32(x)] on an integer: the low bits. *)
Definition uint8 (x : Z) : Z := x mod 256.
Definition uint32 (x : Z) : Z := x mod 4294967296.

(** ** strconv *)

(** The value of a decimal digit, [ch - '0'] when it is at most 9. *)
Definition digit_value (ch : ascii) : option Z :=
  let n := Z.of_N (N_of_ascii ch) in
  if (48 <=? n) && (n <=? 57) then Some (n - 48) else None.

Fixpoint parse_digits (s : string) (n : Z) : option Z :=
  match s with
  | EmptyString => Some n
  | String ch rest =>
      match digit_value ch with
      | Some d => parse_digits rest (n * 10 + d)
      | None => None
      end
  end.

Definition maxInt : Z := 9223372036854775807.
Definition minInt : Z := -9223372036854775808.

(** [strconv.Atoi] on a 64-bit platform: an optional sign, then one or more
    decimal digits; the value has to fit an [int]. *)
Definition Atoi (s : string) : Z * option error :=
  let '(neg, body) :=
    match s with
    | String "-" rest => (true, rest)
    | String "+" rest => (false, rest)
    | _ => (false, s)
    end in
  match body with
  | EmptyString => (0, Some (NumError "Atoi" s ErrSyntax))
  | _ =>
      match parse_digits body 0 with
      | None => (0, Some (NumError "Atoi" s ErrSyntax))
      | Some n =>
          let v := if neg then - n else n in
          if (v <? minInt) then (minInt, Some (NumError "Atoi" s ErrRange))
          else if (maxInt <? v) then (maxInt, Some (NumError "Atoi" s ErrRange))
          else (v, None)
      end
  end.

(** [strconv.Itoa], also what the verb [%d] prints. *)
Definition Itoa (z : Z) : string := NilZero.string_of_int (Z.to_int z).

(** [strings.Split(s, " ")]. *)
Fixpoint Split_space (s : string) : list string :=
  match s with
  | EmptyString => [EmptyString]
  | String ch rest =>
      if Ascii.eqb ch " " then EmptyString :: Split_space rest
      else match Split_space rest with
           | field :: fields => String ch field :: fields
           | [] => [String ch EmptyString]
           end
  end.

(** ** package dia: the value objects *)

Record Asset := mkAsset {
  Symbol : string;
  Name : string;
  Address : string;
  Decimals : Z;          (* uint8 *)
  Blockchain : string
}.

Definition Asset_zero : Asset := mkAsset "" "" "" 0 "".

Definition set_Symbol (v : string) (a : Asset) : Asset :=
  mkAsset v (Name a) (Address a) (Decimals a) (Blockchain a).
Definition set_Name (v : string) (a : Asset) : Asset :=
  mkAsset (Symbol a) v (Address a) (Decimals a) (Blockchain a).
Definition set_Address (v : string) (a : Asset) : Asset :=
  mkAsset (Symbol a) (Name a) v (Decimals a) (Blockchain a).
Definition set_Decimals (v : Z) (a : Asset) : Asset :=
  mkAsset (Symbol a) (Name a) (Address a) v (Blockchain a).
Definition set_Blockchain (v : string) (a : Asset) : Asset :=
  mkAsset (Symbol a) (Name a) (Address a) (Decimals a) v.

#[global] Instance Asset_eq_dec : EqDecision Asset.
Proof. solve_decision. Defined.

#[global] Instance Asset_countable : Countable Asset.
Proof.
  refine (inj_countable'
    (fun a => (Symbol a, Name a, Address a, Decimals a, Blockchain a))
    (fun t => let '(s, n, ad, d, b) := t in mkAsset s n ad d b) _).
  intros []. reflexivity.
Defined.

Record Pair := mkPair {
  QuoteToken : Asset;
  BaseToken : Asset
}.

Record ExchangePair := mkExchangePair {
  EP_Symbol : string;
  ForeignName : string;
  Exchange : string;
  Verified : bool;
  UnderlyingPair : Pair
}.

Definition Pair_zero : Pair := mkPair Asset_zero Asset_zero.
Definition ExchangePair_zero : ExchangePair :=
  mkExchangePair "" "" "" false Pair_zero.

(** ** The relational store

    A column value is NULL, a text, an identifier of type uuid (kept as its
    text) or a boolean.  Identifiers are taken as the text the engine prints
    for them; the engine's own checks on the uuid type are not part of the
    model. *)

Inductive cell :=
| CNull
| CText (s : string)
| CUuid (id : string)
| CBool (b : bool).

Definition RawRow := list cell.

Definition text_cell (v : option string) : cell :=
  match v with Some s => CText s | None => CNull end.
Definition uuid_cell (v : option string) : cell :=
  match v with Some id => CUuid id | None => CNull end.

(** Table asset.  The text columns are read with per-row error handling by
    this file, so a row may hold NULL in any of them. *)
Record AssetRow := mkAssetRow {
  asset_id : string;
  asset_symbol : option string;
  asset_name : option string;
  asset_address : option string;
  asset_decimals : option string;
  asset_blockchain : option string
}.

(** Table exchangesymbol. *)
Record ExchangeSymbolRow := mkExchangeSymbolRow {
  es_symbol : string;
  es_exchange : string;
  es_verified : bool;
  es_asset_id : option string
}.

(** Table exchangepair. *)
Record ExchangePairRow := mkExchangePairRow {
  ep_symbol : string;
  ep_foreignname : string;
  ep_exchange : string;
  ep_verified : bool;
  ep_id_quotetoken : option string;
  ep_id_basetoken : option string
}.

Record Tables := mkTables {
  assetTable : list AssetRow;
  exchangesymbolTable : list ExchangeSymbolRow;
  exchangepairTable : list ExchangePairRow
}.

Inductive AssetCol :=
| col_asset_id | col_symbol | col_name | col_address | col_decimals | col_blockchain.

Definition asset_cell (c : AssetCol) (r : AssetRow) : cell :=
  match c with
  | col_asset_id => CUuid (asset_id r)
  | col_symbol => text_cell (asset_symbol r)
  | col_name => text_cell (asset_name r)
  | col_address => text_cell (asset_address r)
  | col_decimals => text_cell (asset_decimals r)
  | col_blockchain => text_cell (asset_blockchain r)
  end.

(** What an update of table exchangepair sets. *)
Inductive PairSet :=
| set_id_basetoken (id : string)
| set_id_quotetoken (id : string)
| set_verified (v : bool).

(** The statements of the file.  A statement with [$n] placeholders carries
    its arguments; a statement built with [fmt.Sprintf] carries the values
    printed into its text. *)
Inductive Stmt :=
(* select <cols> from asset [where c=$1 and ...] [LIMIT $k OFFSET $l] *)
| SelectAsset (cols : list AssetCol) (conds : list (AssetCol * string))
              (page : option (Z * Z))
(* IdentifyAsset: "select <cols> from asset where " and then the conjuncts
   c='value' printed one after the other *)
| SelectAssetText (cols : list AssetCol) (conds : list (AssetCol * string))
(* insert into exchangesymbol (symbol,exchange) select $1,$2
   where not exists (select 1 from exchangesymbol where symbol=$1 and exchange=$2) *)
| InsertExchangeSymbol (symbol exchange : string)
(* update exchangesymbol set verified=true,asset_id=$1 where symbol=$2 and exchange=$3 *)
| UpdateExchangeSymbol (assetID symbol exchange : string)
(* select asset_id, verified from exchangesymbol where symbol=$1 and exchange=$2 *)
| SelectExchangeSymbol (symbol exchange : string)
(* select symbol,verified,id_quotetoken,id_basetoken from exchangepair
   where exchange=$1 and foreignname=$2 *)
| SelectExchangePair (exchange foreignname : string)
(* insert into exchangepair (symbol,foreignname,exchange) select $1,$2,$3
   where not exists (select 1 from exchangepair
                     where symbol=$1 and foreignname=$2 and exchange=$3) *)
| InsertExchangePair (symbol foreignname exchange : string)
(* update exchangepair set <column>='<value>'
   where foreignname='<foreignname>' and exchange='<exchange>' *)
| UpdateExchangePairText (what : PairSet) (foreignname exchange : string).

(** *** Values of type uuid

    Columns asset_id, id_quotetoken and id_basetoken are of type uuid.  The
    engine reads a text handed to such a column the way PostgreSQL does:
    sixteen bytes of two hexadecimal digits each, in either case, a hyphen
    allowed after every second byte, the whole optionally in braces; it
    gives the value back in one form, lower case and hyphenated 8-4-4-4-12.
    A text it cannot read is an error of the statement. *)

Definition hex_digit (ch : ascii) : bool :=
  let n := Z.of_nat (nat_of_ascii ch) in
  ((48 <=? n) && (n <=? 57)) || ((65 <=? n) && (n <=? 70)) || ((97 <=? n) && (n <=? 102)).

Definition to_lower (ch : ascii) : ascii :=
  let n := nat_of_ascii ch in
  if (65 <=? Z.of_nat n) && (Z.of_nat n <=? 90) then ascii_of_nat (n + 32) else ch.

(** The bytes [i], [i+1], ... of a uuid, [n] of them, read from [src]: their
    digits in lower case and what follows them. *)
Fixpoint uuid_digits (n i : nat) (src : string) : option (string * string) :=
  match n with
  | O => Some ("", src)
  | S n' =>
      match src with
      | String c1 (String c2 rest) =>
          if hex_digit c1 && hex_digit c2 then
            let rest :=
              match rest with
              | String "-" rest' => if Nat.odd i && Nat.ltb i 15 then rest' else rest
              | _ => rest
              end in
            match uuid_digits n' (S i) rest with
            | Some (digits, after) =>
                Some (String (to_lower c1) (String (to_lower c2) digits), after)
            | None => None
            end
          else None
      | _ => None
      end
  end.

Definition uuid_out (digits : string) : string :=
  substring 0 8 digits +:+ "-" +:+ substring 8 4 digits +:+ "-" +:+ substring 12 4 digits
  +:+ "-" +:+ substring 16 4 digits +:+ "-" +:+ substring 20 12 digits.

Definition uuid_in (s : string) : option string :=
  let '(braces, src) :=
    match s with
    | String "{" rest => (true, rest)
    | _ => (false, s)
    end in
  match uuid_digits 16 0 src with
  | Some (digits, after) =>
      if String.eqb after (if braces then "}" else "") then Some (uuid_out digits) else None
  | None => None
  end.

(** *** The engine *)

(** [column = value] on a cell; NULL equals nothing. *)
Definition cell_is (c : cell) (v : string) : bool :=
  match c with
  | CText s => String.eqb s v
  | CUuid id => String.eqb id v
  | _ => false
  end.

Definition asset_where (conds : list (AssetCol * string)) (r : AssetRow) : bool :=
  forallb (fun cv => cell_is (asset_cell (fst cv) r) (snd cv)) conds.

Definition project (cols : list AssetCol) (r : AssetRow) : RawRow :=
  List.map (fun c => asset_cell c r) cols.

(** [LIMIT] and [OFFSET] cut the rows in the order in which the engine
    yields them for the statement.  The statements of the file have no
    [ORDER BY]: the order of the list is that of one statement, and nothing
    below relates the order of two. *)
Definition limit_offset (page : option (Z * Z)) (rows : list AssetRow) : list AssetRow :=
  match page with
  | None => rows
  | Some (limit, offset) => take (Z.to_nat limit) (drop (Z.to_nat offset) rows)
  end.

Definition select_asset (cols : list AssetCol) (conds : list (AssetCol * string))
    (page : option (Z * Z)) (t : Tables) : list RawRow :=
  List.map (project cols) (limit_offset page (List.filter (asset_where conds) (assetTable t))).

(** A value printed between quotes stays one literal as long as it holds no
    quote itself.  With a quote in it the text is no longer the statement the
    code meant; the model stops there with the engine's syntax error, and no
    result below is about such values. *)
Fixpoint has_quote (s : string) : bool :=
  match s with
  | EmptyString => false
  | String ch rest => Ascii.eqb ch "'" || has_quote rest
  end.

Definition literals_ok (vs : list string) : bool := forallb (fun v => negb (has_quote v)) vs.

Definition es_key (symbol exchange : string) (r : ExchangeSymbolRow) : bool :=
  String.eqb (es_symbol r) symbol && String.eqb (es_exchange r) exchange.

Definition ep_triple (symbol foreignname exchange : string) (r : ExchangePairRow) : bool :=
  String.eqb (ep_symbol r) symbol && String.eqb (ep_foreignname r) foreignname
  && String.eqb (ep_exchange r) exchange.

Definition ep_key (foreignname exchange : string) (r : ExchangePairRow) : bool :=
  String.eqb (ep_foreignname r) foreignname && String.eqb (ep_exchange r) exchange.

Definition es_verify (assetID : string) (r : ExchangeSymbolRow) : ExchangeSymbolRow :=
  mkExchangeSymbolRow (es_symbol r) (es_exchange r) true (Some assetID).

Definition ep_set (what : PairSet) (r : ExchangePairRow) : ExchangePairRow :=
  match what with
  | set_id_basetoken id =>
      mkExchangePairRow (ep_symbol r) (ep_foreignname r) (ep_exchange r)
        (ep_verified r) (ep_id_quotetoken r) (Some id)
  | set_id_quotetoken id =>
      mkExchangePairRow (ep_symbol r) (ep_foreignname r) (ep_exchange r)
        (ep_verified r) (Some id) (ep_id_basetoken r)
  | set_verified v =>
      mkExchangePairRow (ep_symbol r) (ep_foreignname r) (ep_exchange r)
        v (ep_id_quotetoken r) (ep_id_basetoken r)
  end.

Definition PairSet_literal (what : PairSet) : string :=
  match what with
  | set_id_basetoken id => id
  | set_id_quotetoken id => id
  | set_verified v => if v then "true" else "false"
  end.

(** [update ... where p]: every row with [p] is rewritten, in place. *)
Definition update_where {A} (p : A -> bool) (f : A -> A) (rows : list A) : list A :=
  List.map (fun r => if p r then f r else r) rows.

Definition count_where {A} (p : A -> bool) (rows : list A) : Z :=
  Z.of_nat (length (List.filter p rows)).

(** The answer of the engine to a statement it has received: an error, or
    the new tables, the rows of the result and the command tag.  The engine
    reads the identifier of [VerifyExchangeSymbol], which the caller
    supplies, with [uuid_in], and keeps (foreignname, exchange) unique in
    table exchangepair, as [GetExchangePair] expects.  The identifiers that
    [SetExchangePair] prints into its updates are values read from column
    asset_id; they are taken as read. *)
Definition run (q : Stmt) (t : Tables) : error + (Tables * list RawRow * string) :=
  match q with
  | SelectAsset cols conds page =>
      let rows := select_asset cols conds page t in
      inr (t, rows, "SELECT " +:+ Itoa (Z.of_nat (length rows)))
  | SelectAssetText cols conds =>
      match conds with
      | [] => inl ErrSQLSyntax                 (* the text ends in "where " *)
      | _ =>
          if literals_ok (List.map snd conds) then
            let rows := select_asset cols conds None t in
            inr (t, rows, "SELECT " +:+ Itoa (Z.of_nat (length rows)))
          else inl ErrSQLSyntax
      end
  | InsertExchangeSymbol symbol exchange =>
      if existsb (es_key symbol exchange) (exchangesymbolTable t) then
        inr (t, [], "INSERT 0 0")
      else
        inr (mkTables (assetTable t)
               (exchangesymbolTable t ++ [mkExchangeSymbolRow symbol exchange false None])
               (exchangepairTable t),
             [], "INSERT 0 1")
  | UpdateExchangeSymbol assetID symbol exchange =>
      match uuid_in assetID with
      | None => inl ErrInvalidUUID             (* $1 is of type uuid *)
      | Some id =>
          inr (mkTables (assetTable t)
                 (update_where (es_key symbol exchange) (es_verify id) (exchangesymbolTable t))
                 (exchangepairTable t),
               [],
               "UPDATE " +:+ Itoa (count_where (es_key symbol exchange) (exchangesymbolTable t)))
      end
  | SelectExchangeSymbol symbol exchange =>
      let rows := List.map (fun r => [uuid_cell (es_asset_id r); CBool (es_verified r)])
                    (List.filter (es_key symbol exchange) (exchangesymbolTable t)) in
      inr (t, rows, "SELECT " +:+ Itoa (Z.of_nat (length rows)))
  | SelectExchangePair exchange foreignname =>
      let rows := List.map (fun r => [CText (ep_symbol r); CBool (ep_verified r);
                                      uuid_cell (ep_id_quotetoken r);
                                      uuid_cell (ep_id_basetoken r)])
                    (List.filter (ep_key foreignname exchange) (exchangepairTable t)) in
      inr (t, rows, "SELECT " +:+ Itoa (Z.of_nat (length rows)))
  | InsertExchangePair symbol foreignname exchange =>
      if existsb (ep_triple symbol foreignname exchange) (exchangepairTable t) then
        inr (t, [], "INSERT 0 0")
      else if existsb (ep_key foreignname exchange) (exchangepairTable t) then
        inl ErrUniqueViolation                 (* (foreignname, exchange) is unique *)
      else
        inr (mkTables (assetTable t) (exchangesymbolTable t)
               (exchangepairTable t ++
                  [mkExchangePairRow symbol foreignname exchange false None None]),
             [], "INSERT 0 1")
  | UpdateExchangePairText what foreignname exchange =>
      if literals_ok [PairSet_literal what; foreignname; exchange] then
        inr (mkTables (assetTable t) (exchangesymbolTable t)
               (update_where (ep_key foreignname exchange) (ep_set what) (exchangepairTable t)),
             [],
             "UPDATE " +:+ Itoa (count_where (ep_key foreignname exchange) (exchangepairTable t)))
      else inl ErrSQLSyntax
  end.

(** *** The client

    [faults] lists what the transport does to the statements to come, first
    the next one: [true] loses it with [ErrConn], [false] and the end of the
    list let it through.  [issued] records every statement handed to the
    client, oldest first. *)
Record PG := mkPG {
  tables : Tables;
  issued : list Stmt;
  faults : list bool
}.

Definition next_fault (fs : list bool) : bool :=
  match fs with f :: _ => f | [] => false end.

Definition send (q : Stmt) (pg : PG) : option error * list RawRow * string * PG :=
  let sent t := mkPG t (issued pg ++ [q]) (tail (faults pg)) in
  if next_fault (faults pg) then (Some ErrConn, [], "", sent (tables pg))
  else match run q (tables pg) with
       | inl e => (Some e, [], "", sent (tables pg))
       | inr (t, rows, tag) => (None, rows, tag, sent t)
       end.

(** [pgx.Rows]: the rows not yet fetched, the values of the current row and
    whether the cursor is closed.  [RawValues] gives the column values of the
    current row: none before the first [Next], and still those of the last row
    fetched once [Next] has answered false. *)
Record Rows := mkRows {
  pending : list RawRow;
  values : RawRow;
  closed : bool
}.

Definition RawValues (rows : Rows) : RawRow := values rows.

Definition Next (rows : Rows) : bool * Rows :=
  if closed rows then (false, rows)
  else match pending rows with
       | [] => (false, mkRows [] (values rows) true)
       | vals :: rest => (true, mkRows rest vals false)
       end.

(** [postgresClient.Query]: the cursor over the result, and the error. *)
Definition Query (q : Stmt) (pg : PG) : Rows * option error * PG :=
  let '(err, rows, _, pg') := send q pg in
  (mkRows rows [] (if err is Some _ then true else false), err, pg').

(** [postgresClient.Exec]: the command tag, and the error. *)
Definition Exec (q : Stmt) (pg : PG) : string * option error * PG :=
  let '(err, _, tag, pg') := send q pg in (tag, err, pg').

(** [postgresClient.QueryRow]: the first row of the result; [Scan] on it
    answers [ErrNoRows] when there is none. *)
Definition QueryRow (q : Stmt) (pg : PG) : RawRow * option error * PG :=
  let '(err, rows, _, pg') := send q pg in
  match err with
  | Some e => ([], Some e, pg')
  | None =>
      match rows with
      | [] => ([], Some ErrNoRows, pg')
      | vals :: _ => (vals, None, pg')
      end
  end.

(** *** Scan

    [Scan] assigns the destinations from left to right and stops at the first
    one that cannot take its value; the destinations before it keep what they
    were given.  On the cursor of a [Query] a failed [Scan] also closes the
    cursor, so that the next [Next] answers false. *)

(** into a [*string] *)
Definition assign_string (c : cell) : option string :=
  match c with
  | CText s => Some s
  | CUuid id => Some id
  | _ => None
  end.

(** into a [*bool] *)
Definition assign_bool (c : cell) : option bool :=
  match c with
  | CBool b => Some b
  | _ => None
  end.

(** into a [*pgtype.UUID], read back with [Value()]: [None] is the [nil] of a
    NULL, otherwise the text of the identifier as the column holds it; what
    the engine has read with [uuid_in] is held in lower case, hyphenated. *)
Definition assign_UUID (c : cell) : option (option string) :=
  match c with
  | CNull => Some None
  | CUuid id => Some (Some id)
  | _ => None
  end.

(** [Scan(&asset.Symbol, &asset.Name, &asset.Address, &decimals, &asset.Blockchain)] *)
Definition Scan_asset (vals : RawRow) (asset : Asset) (decimals : string)
  : Asset * string * option error :=
  match vals with
  | [c0; c1; c2; c3; c4] =>
      match assign_string c0 with
      | None => (asset, decimals, Some (ScanArgError 0))
      | Some v0 =>
      let asset := set_Symbol v0 asset in
      match assign_string c1 with
      | None => (asset, decimals, Some (ScanArgError 1))
      | Some v1 =>
      let asset := set_Name v1 asset in
      match assign_string c2 with
      | None => (asset, decimals, Some (ScanArgError 2))
      | Some v2 =>
      let asset := set_Address v2 asset in
      match assign_string c3 with
      | None => (asset, decimals, Some (ScanArgError 3))
      | Some v3 =>
      match assign_string c4 with
      | None => (asset, v3, Some (ScanArgError 4))
      | Some v4 => (set_Blockchain v4 asset, v3, None)
      end end end end end
  | _ => (asset, decimals, Some ErrColumnCount)
  end.

(** [Scan(&asset.Symbol, &asset.Name, &asset.Address, &decimals)] *)
Definition Scan_asset4 (vals : RawRow) (asset : Asset) (decimals : string)
  : Asset * string * option error :=
  match vals with
  | [c0; c1; c2; c3] =>
      match assign_string c0 with
      | None => (asset, decimals, Some (ScanArgError 0))
      | Some v0 =>
      let asset := set_Symbol v0 asset in
      match assign_string c1 with
      | None => (asset, decimals, Some (ScanArgError 1))
      | Some v1 =>
      let asset := set_Name v1 asset in
      match assign_string c2 with
      | None => (asset, decimals, Some (ScanArgError 2))
      | Some v2 =>
      let asset := set_Address v2 asset in
      match assign_string c3 with
      | None => (asset, decimals, Some (ScanArgError 3))
      | Some v3 => (asset, v3, None)
      end end end end
  | _ => (asset, decimals, Some ErrColumnCount)
  end.

(** ** The cache *)

Inductive RedisValue :=
| RAsset (a : Asset)
| RExchangePair (p : ExchangePair).

Inductive RedisCmd :=
| RSet (key : string) (v : RedisValue).

Record Redis := mkRedis {
  kv : gmap string RedisValue;
  commands : list RedisCmd;
  redis_faults : list bool
}.

(** [redisClient.Set(key, value, 0).Err()] *)
Definition redis_Set (key : string) (v : RedisValue) (r : Redis) : option error * Redis :=
  if next_fault (redis_faults r)
  then (Some ErrConn, mkRedis (kv r) (commands r ++ [RSet key v]) (tail (redis_faults r)))
  else (None, mkRedis (<[key := v]> (kv r)) (commands r ++ [RSet key v]) (tail (redis_faults r))).

(** ** RelDB *)

Record RelDB := mkRelDB {
  postgresClient : PG;
  redisClient : Redis;
  pagesize : Z            (* uint32 *)
}.

Definition with_pg (rdb : RelDB) (pg : PG) : RelDB :=
  mkRelDB pg (redisClient rdb) (pagesize rdb).
Definition with_redis (rdb : RelDB) (r : Redis) : RelDB :=
  mkRelDB (postgresClient rdb) r (pagesize rdb).

(** ** The time-series store *)

(** A value of type [interface{}] in a row of the answer. *)
Inductive iface :=
| INil
| IString (s : string)
| INumber (n : Z).

Record Row := mkRow { Values : list (list iface) }.
Record Result := mkResult { Series : list Row }.

(** [DB]: the client answers the one query of this file, which is fixed up
    to its lower time bound, with what [queryInfluxDB] returns for it. *)
Record DB := mkDB {
  influxClient : Z -> list Result * option error
}.

(** ** The methods *)

Definition asset_columns : list AssetCol :=
  [col_symbol; col_name; col_address; col_decimals; col_blockchain].

Section Repository.

(** The prefixes of the cache keys, constants of the package declared in
    another file. *)
Variable keyAssetCache : string.
Variable keyExchangePairCache : string.

(** [common.HexToAddress(s).Hex()] of go-ethereum: the canonical text of
    the address that [s] denotes. *)
Variable HexToAddress_Hex : string -> string.

(** What [Scan] stores into a [*uint8] destination for a cell, if it can;
    [pgx_uint8] below is what the driver does. *)
Variable assign_uint8 : cell -> option Z.

(** *** asset table *)

Definition GetAssetID (rdb : RelDB) (asset : Asset) : string * option error * RelDB :=
  let '(vals, err, pg) :=
    QueryRow (SelectAsset [col_asset_id]
                [(col_address, Address asset); (col_blockchain, Blockchain asset)] None)
             (postgresClient rdb) in
  let rdb := with_pg rdb pg in
  match err with
  | Some e => ("", Some e, rdb)
  | None =>
      match vals with
      | [c] =>
          match assign_string c with
          | Some ID => (ID, None, rdb)
          | None => ("", Some (ScanArgError 0), rdb)
          end
      | _ => ("", Some ErrColumnCount, rdb)
      end
  end.

Definition GetKeyAsset (rdb : RelDB) (asset : Asset) : string * option error * RelDB :=
  let '(ID, err, rdb) := GetAssetID rdb asset in
  match err with
  | Some e => ("", Some e, rdb)
  | None => (keyAssetCache +:+ ID, None, rdb)
  end.

Definition GetAssetByID (rdb : RelDB) (assetID : string) : Asset * option error * RelDB :=
  let '(vals, err, pg) :=
    QueryRow (SelectAsset asset_columns [(col_asset_id, assetID)] None)
             (postgresClient rdb) in
  let rdb := with_pg rdb pg in
  match err with
  | Some e => (Asset_zero, Some e, rdb)
  | None =>
      let '(asset, decimals, err) := Scan_asset vals Asset_zero "" in
      match err with
      | Some e => (asset, Some e, rdb)
      | None =>
          let '(decimalsInt, err) := Atoi decimals in
          match err with
          | Some e => (asset, Some e, rdb)
          | None => (set_Decimals (uint8 decimalsInt) asset, None, rdb)
          end
      end
  end.

(** One turn of the loop of [GetAllAssets] after its [Scan]: the error of
    [Scan] was only logged; [decimals] is parsed whatever it holds. *)
Definition GetAllAssets_body (blockchain : string) (asset : Asset) (decimals : string)
    (assets : list Asset) : list Asset :=
  let '(decimalsInt, err) := Atoi decimals in
  match err with
  | Some _ => assets                                     (* continue *)
  | None =>
      assets ++ [set_Blockchain blockchain (set_Decimals (uint8 decimalsInt) asset)]
  end.

(** The loop [for rows.Next()] of [GetAllAssets]; [decimals] is declared
    before the loop and lives across its turns. *)
Fixpoint GetAllAssets_rows (blockchain : string) (rows : list RawRow) (decimals : string)
    (assets : list Asset) : list Asset :=
  match rows with
  | [] => assets
  | vals :: rest =>
      let '(asset, decimals, err) := Scan_asset4 vals Asset_zero decimals in
      match err with
      | Some _ =>
          (* log.Error(err); the failed Scan has closed the cursor, so this
             is the last turn *)
          GetAllAssets_body blockchain asset decimals assets
      | None =>
          GetAllAssets_rows blockchain rest decimals
            (GetAllAssets_body blockchain asset decimals assets)
      end
  end.

Definition GetAllAssets (rdb : RelDB) (blockchain : string)
  : list Asset * option error * RelDB :=
  let '(rows, err, pg) :=
    Query (SelectAsset [col_symbol; col_name; col_address; col_decimals]
             [(col_blockchain, blockchain)] None)
          (postgresClient rdb) in
  let rdb := with_pg rdb pg in
  match err with
  | Some e => ([], Some e, rdb)
  | None => (GetAllAssets_rows blockchain (pending rows) "" [], None, rdb)
  end.

(** The loop of [GetAssetsBySymbolName]: the first row that does not scan
    or whose decimals do not parse ends the call with its error. *)
Fixpoint GetAssetsBySymbolName_rows (rows : list RawRow) (decimals : string)
    (assets : list Asset) : list Asset * option error :=
  match rows with
  | [] => (assets, None)
  | vals :: rest =>
      let '(asset, decimals, err) := Scan_asset vals Asset_zero decimals in
      match err with
      | Some e => (assets, Some e)
      | None =>
          let '(decimalsInt, err) := Atoi decimals in
          match err with
          | Some e => (assets, Some e)
          | None =>
              GetAssetsBySymbolName_rows rest decimals
                (assets ++ [set_Decimals (uint8 decimalsInt) asset])
          end
      end
  end.

Definition GetAssetsBySymbolName (rdb : RelDB) (symbol name : string)
  : list Asset * option error * RelDB :=
  let '(rows, err, pg) :=
    if String.eqb name "" then
      Query (SelectAsset asset_columns [(col_symbol, symbol)] None) (postgresClient rdb)
    else if String.eqb symbol "" then
      Query (SelectAsset asset_columns [(col_name, name)] None) (postgresClient rdb)
    else
      Query (SelectAsset asset_columns [(col_symbol, symbol); (col_name, name)] None)
            (postgresClient rdb) in
  let rdb := with_pg rdb pg in
  match err with
  | Some e => ([], Some e, rdb)
  | None =>
      let '(assets, err) := GetAssetsBySymbolName_rows (pending rows) "" [] in
      (assets, err, rdb)
  end.

(** The conjuncts [IdentifyAsset] prints after "where ", in the order of
    its five tests; the variable [and] puts " and " between them. *)
Definition IdentifyAsset_conds (asset : Asset) : list (AssetCol * string) :=
  (if String.eqb (Symbol asset) "" then [] else [(col_symbol, Symbol asset)])
  ++ (if String.eqb (Name asset) "" then [] else [(col_name, Name asset)])
  ++ (if String.eqb (Address asset) "" then []
      else [(col_address, HexToAddress_Hex (Address asset))])
  ++ (if Decimals asset =? 0 then [] else [(col_decimals, Itoa (Decimals asset))])
  ++ (if String.eqb (Blockchain asset) "" then []
      else [(col_blockchain, Blockchain asset)]).

(** The loop of [IdentifyAsset]: a row that does not scan ends the call, a
    row whose decimals do not parse is logged and left out. *)
Fixpoint IdentifyAsset_rows (rows : list RawRow) (decimals : string)
    (assets : list Asset) : list Asset * option error :=
  match rows with
  | [] => (assets, None)
  | vals :: rest =>
      let '(asset, decimals, err) := Scan_asset vals Asset_zero decimals in
      match err with
      | Some e => (assets, Some e)
      | None =>
          let '(intDecimals, err) := Atoi decimals in
          match err with
          | Some _ => IdentifyAsset_rows rest decimals assets      (* continue *)
          | None =>
              IdentifyAsset_rows rest decimals
                (assets ++ [set_Decimals (uint8 intDecimals) asset])
          end
      end
  end.

Definition IdentifyAsset (rdb : RelDB) (asset : Asset)
  : list Asset * option error * RelDB :=
  let '(rows, err, pg) :=
    Query (SelectAssetText asset_columns (IdentifyAsset_conds asset))
          (postgresClient rdb) in
  let rdb := with_pg rdb pg in
  match err with
  | Some e => ([], Some e, rdb)
  | None =>
      let '(assets, err) := IdentifyAsset_rows (pending rows) "" [] in
      (assets, err, rdb)
  end.

(** *** exchangesymbol table *)

Definition SetExchangeSymbol (rdb : RelDB) (exchange symbol : string)
  : option error * RelDB :=
  let '(_, err, pg) := Exec (InsertExchangeSymbol symbol exchange) (postgresClient rdb) in
  (err, with_pg rdb pg).

(** [None] is a run-time panic: [respSlice[1]] out of range. *)
Definition VerifyExchangeSymbol (rdb : RelDB) (exchange symbol assetID : string)
  : option (bool * option error * RelDB) :=
  let '(resp, err, pg) :=
    Exec (UpdateExchangeSymbol assetID symbol exchange) (postgresClient rdb) in
  let rdb := with_pg rdb pg in
  match err with
  | Some e => Some (false, Some e, rdb)
  | None =>
      let respSlice := Split_space resp in
      match respSlice !! 1%nat with
      | None => None
      | Some numUpdates =>
          let success := if String.eqb numUpdates "0" then false else true in
          Some (success, None, rdb)
      end
  end.

Definition GetExchangeSymbolAssetID (rdb : RelDB) (exchange symbol : string)
  : string * bool * option error * RelDB :=
  let '(vals, err, pg) :=
    QueryRow (SelectExchangeSymbol symbol exchange) (postgresClient rdb) in
  let rdb := with_pg rdb pg in
  match err with
  | Some e => ("", false, Some e, rdb)
  | None =>
      match vals with
      | [c0; c1] =>
          match assign_UUID c0 with
          | None => ("", false, Some (ScanArgError 0), rdb)
          | Some val =>
              match assign_bool c1 with
              | None => ("", false, Some (ScanArgError 1), rdb)
              | Some verified =>
                  match val with
                  | Some assetID => (assetID, verified, None, rdb)
                  | None => ("", verified, None, rdb)
                  end
              end
          end
      | _ => ("", false, Some ErrColumnCount, rdb)
      end
  end.

(** *** exchangepair table *)

Definition GetExchangePair (rdb : RelDB) (exchange foreignname : string)
  : ExchangePair * option error * RelDB :=
  let '(vals, err, pg) :=
    QueryRow (SelectExchangePair exchange foreignname) (postgresClient rdb) in
  let rdb := with_pg rdb pg in
  match err with
  | Some e => (ExchangePair_zero, Some e, rdb)
  | None =>
      match vals with
      | [c0; c1; c2; c3] =>
          match assign_string c0 with
          | None => (ExchangePair_zero, Some (ScanArgError 0), rdb)
          | Some symbol =>
          match assign_bool c1 with
          | None => (ExchangePair_zero, Some (ScanArgError 1), rdb)
          | Some verified =>
          match assign_UUID c2 with
          | None => (ExchangePair_zero, Some (ScanArgError 2), rdb)
          | Some val1 =>
          match assign_UUID c3 with
          | None => (ExchangePair_zero, Some (ScanArgError 3), rdb)
          | Some val2 =>
              (* Decode uuids and fetch corresponding assets *)
              let '(quotetoken, err, rdb) :=
                match val1 with
                | Some id => GetAssetByID rdb id
                | None => (Asset_zero, None, rdb)
                end in
              match err with
              | Some e => (ExchangePair_zero, Some e, rdb)
              | None =>
                  let '(basetoken, err, rdb) :=
                    match val2 with
                    | Some id => GetAssetByID rdb id
                    | None => (Asset_zero, None, rdb)
                    end in
                  match err with
                  | Some e => (ExchangePair_zero, Some e, rdb)
                  | None =>
                      (mkExchangePair symbol foreignname exchange verified
                         (mkPair quotetoken basetoken), None, rdb)
                  end
              end
          end end end end
      | _ => (ExchangePair_zero, Some ErrColumnCount, rdb)
      end
  end.

Definition SetExchangePairCache (rdb : RelDB) (exchange : string) (pair : ExchangePair)
  : option error * RelDB :=
  let key := keyExchangePairCache +:+ exchange +:+ "_" +:+ ForeignName pair in
  let '(err, r) := redis_Set key (RExchangePair pair) (redisClient rdb) in
  (err, with_redis rdb r).

Definition SetExchangePair (rdb : RelDB) (exchange : string) (pair : ExchangePair)
    (cache : bool) : option error * RelDB :=
  let '(_, err, pg) :=
    Exec (InsertExchangePair (EP_Symbol pair) (ForeignName pair) exchange)
         (postgresClient rdb) in
  let rdb := with_pg rdb pg in
  match err with
  | Some e => (Some e, rdb)
  | None =>
      (* the two errors of GetAssetID are logged, the IDs are then empty *)
      let '(basetokenID, _, rdb) := GetAssetID rdb (BaseToken (UnderlyingPair pair)) in
      let '(quotetokenID, _, rdb) := GetAssetID rdb (QuoteToken (UnderlyingPair pair)) in
      let '(err, rdb) :=
        if String.eqb basetokenID "" then (None, rdb)
        else
          let '(_, err, pg) :=
            Exec (UpdateExchangePairText (set_id_basetoken basetokenID)
                    (ForeignName pair) exchange) (postgresClient rdb) in
          (err, with_pg rdb pg) in
      match err with
      | Some e => (Some e, rdb)
      | None =>
          let '(err, rdb) :=
            if String.eqb quotetokenID "" then (None, rdb)
            else
              let '(_, err, pg) :=
                Exec (UpdateExchangePairText (set_id_quotetoken quotetokenID)
                        (ForeignName pair) exchange) (postgresClient rdb) in
              (err, with_pg rdb pg) in
          match err with
          | Some e => (Some e, rdb)
          | None =>
              let '(_, err, pg) :=
                Exec (UpdateExchangePairText (set_verified (Verified pair))
                        (ForeignName pair) exchange) (postgresClient rdb) in
              let rdb := with_pg rdb pg in
              match err with
              | Some e => (Some e, rdb)
              | None =>
                  if cache then
                    (* the error of the cache is logged *)
                    let '(_, rdb) := SetExchangePairCache rdb exchange pair in
                    (None, rdb)
                  else (None, rdb)
              end
          end
      end
  end.

(** *** general methods *)

(** [Scan(&asset.Symbol, &asset.Name, &asset.Address, &asset.Decimals, &asset.Blockchain)] *)
Definition Scan_asset_page (vals : RawRow) (asset : Asset) : Asset * option error :=
  match vals with
  | [c0; c1; c2; c3; c4] =>
      match assign_string c0 with
      | None => (asset, Some (ScanArgError 0))
      | Some v0 =>
      let asset := set_Symbol v0 asset in
      match assign_string c1 with
      | None => (asset, Some (ScanArgError 1))
      | Some v1 =>
      let asset := set_Name v1 asset in
      match assign_string c2 with
      | None => (asset, Some (ScanArgError 2))
      | Some v2 =>
      let asset := set_Address v2 asset in
      match assign_uint8 c3 with
      | None => (asset, Some (ScanArgError 3))
      | Some v3 =>
      let asset := set_Decimals v3 asset in
      match assign_string c4 with
      | None => (asset, Some (ScanArgError 4))
      | Some v4 => (set_Blockchain v4 asset, None)
      end end end end end
  | _ => (asset, Some ErrColumnCount)
  end.

(** The loop of [GetPage] on the cursor [rows]: the assets, the error and
    the cursor as the loop leaves it. *)
Fixpoint GetPage_rows (pending : list RawRow) (values : RawRow) (assets : list Asset)
  : list Asset * option error * Rows :=
  match pending with
  | [] => (assets, None, mkRows [] values true)
  | vals :: rest =>
      let '(asset, err) := Scan_asset_page vals Asset_zero in
      match err with
      | Some e => (assets, Some e, mkRows rest vals true)
      | None => GetPage_rows rest vals (assets ++ [asset])
      end
  end.

Definition GetPage_query (limit offset : Z) : Stmt :=
  SelectAsset asset_columns [] (Some (limit, offset)).

Definition GetPage (rdb : RelDB) (pageNumber : Z)
  : list Asset * bool * option error * RelDB :=
  let pagesize := pagesize rdb in
  let skip := uint32 (pagesize * pageNumber) in
  let '(rows, err, pg) := Query (GetPage_query pagesize skip) (postgresClient rdb) in
  let rdb := with_pg rdb pg in
  match err with
  | Some e => ([], false, Some e, rdb)
  | None =>
      let '(assets, err, rows) := GetPage_rows (pending rows) (values rows) [] in
      match err with
      | Some e => (assets, false, Some e, rdb)
      | None =>
          (* Last page (or empty page) *)
          if Z.of_nat (length (RawValues rows)) <? pagesize then
            (assets, false, None, rdb)
          else
            let '(nextPageRows, err, pg) :=
              Query (GetPage_query pagesize (uint32 (skip + 1))) (postgresClient rdb) in
            let rdb := with_pg rdb pg in
            if Nat.eqb (length (RawValues nextPageRows)) 0 then
              (assets, false, err, rdb)
            else (assets, true, err, rdb)
      end
  end.

(** *** caching layer *)

Definition SetAssetCache (rdb : RelDB) (asset : Asset) : option error * RelDB :=
  let '(key, err, rdb) := GetKeyAsset rdb asset in
  (* fmt.Printf("cache asset %s with key %s") *)
  match err with
  | Some e => (Some e, rdb)
  | None =>
      let '(err, r) := redis_Set key (RAsset asset) (redisClient rdb) in
      (err, with_redis rdb r)
  end.

End Repository.

(** *** volumes in the time-series store *)

(** The loop over [res[0].Series[0].Values]; [asset] is declared before the
    loop.  [None] is a run-time panic: an index out of range, or a value that
    is not a string where the code asserts one. *)
Fixpoint GetAssetsWithVOLInflux_values (vals : list (list iface)) (asset : Asset)
    (uniqueMap : gset Asset) (quotedAssets : list Asset) : option (list Asset) :=
  match vals with
  | [] => Some quotedAssets
  | val :: rest =>
      match val !! 1%nat with
      | None => None
      | Some INil => GetAssetsWithVOLInflux_values rest asset uniqueMap quotedAssets
      | Some v1 =>
          match val !! 2%nat with
          | None => None
          | Some INil => GetAssetsWithVOLInflux_values rest asset uniqueMap quotedAssets
          | Some v2 =>
              match v1, v2 with
              | IString address, IString blockchain =>
                  let asset := set_Blockchain blockchain (set_Address address asset) in
                  if decide (asset ∈ uniqueMap) then
                    GetAssetsWithVOLInflux_values rest asset uniqueMap quotedAssets
                  else
                    GetAssetsWithVOLInflux_values rest asset ({[asset]} ∪ uniqueMap)
                      (quotedAssets ++ [asset])
              | _, _ => None
              end
          end
      end
  end.

Definition GetAssetsWithVOLInflux (datastore : DB) (timeInit : Z)
  : option (list Asset * option error) :=
  let '(res, err) := influxClient datastore timeInit in
  match err with
  | Some e => Some ([], Some e)
  | None =>
      match res with
      | result :: _ =>
          match Series result with
          | series :: _ =>
              match Values series with
              | _ :: _ =>
                  match GetAssetsWithVOLInflux_values (Values series) Asset_zero ∅ [] with
                  | Some quotedAssets => Some (quotedAssets, None)
                  | None => None
                  end
              | [] => Some ([], Some (errors_New "no recent assets with volume in influx"))
              end
          | [] => Some ([], Some (errors_New "no recent asset with volume in influx"))
          end
      | [] => Some ([], Some (errors_New "no recent asset with volume in influx"))
      end
  end.

(** * Vocabulary of the properties *)

(** The client after a statement that went through. *)
Definition sent (q : Stmt) (t : Tables) (pg : PG) : PG :=
  mkPG t (issued pg ++ [q]) [].

(** ** Rows and the assets they hold *)

(** The asset a row of table asset holds: its five columns, with the text of
    decimals read the way every reader of the file reads it.  A row with a
    NULL, or whose decimals are not an integer, holds none. *)
Definition row_asset (r : AssetRow) : option Asset :=
  match asset_symbol r, asset_name r, asset_address r, asset_decimals r, asset_blockchain r with
  | Some s, Some n, Some a, Some d, Some b =>
      match Atoi d with
      | (v, None) => Some (mkAsset s n a (uint8 v) b)
      | (_, Some _) => None
      end
  | _, _, _, _, _ => None
  end.

Definition has_symbol (symbol : string) (r : AssetRow) : bool :=
  cell_is (asset_cell col_symbol r) symbol.
Definition has_name (name : string) (r : AssetRow) : bool :=
  cell_is (asset_cell col_name r) name.

(** ** Sample stores *)

Definition row_wbtc : AssetRow :=
  mkAssetRow "id-wbtc" (Some "WBTC") (Some "Wrapped BTC")
    (Some "0x2260FAC5E5542a773Aa44fBCfeDf7C193bc2C599") (Some "8") (Some "Ethereum").
Definition row_usdc : AssetRow :=
  mkAssetRow "id-usdc" (Some "USDC") (Some "USD Coin")
    (Some "0xA0b86991c6218b36c1d19D4a2e9Eb0cE3606eB48") (Some "6") (Some "Ethereum").
Definition row_btc : AssetRow :=
  mkAssetRow "id-btc" (Some "BTC") (Some "Bitcoin")
    (Some "0x0000000000000000000000000000000000000000") (Some "8") (Some "Bitcoin").
Definition row_dai : AssetRow :=
  mkAssetRow "6b175474-e890-44c4-8da9-8b954eedeac4" (Some "DAI") (Some "Dai Stablecoin")
    (Some "0x6B175474E89094C44Da98b954EedeAC495271d0F") (Some "18") (Some "Ethereum").
Definition row_weth : AssetRow :=
  mkAssetRow "c02aaa39-b223-4e8d-8a0e-5c4f27ead908" (Some "WETH") (Some "Wrapped Ether")
    (Some "0xC02aaA39b223FE8D0A0e5C4F27eAD9083C756Cc2") (Some "18") (Some "Ethereum").

Definition wbtc : Asset :=
  mkAsset "WBTC" "Wrapped BTC" "0x2260FAC5E5542a773Aa44fBCfeDf7C193bc2C599" 8 "Ethereum".
Definition usdc : Asset :=
  mkAsset "USDC" "USD Coin" "0xA0b86991c6218b36c1d19D4a2e9Eb0cE3606eB48" 6 "Ethereum".
Definition btc : Asset :=
  mkAsset "BTC" "Bitcoin" "0x0000000000000000000000000000000000000000" 8 "Bitcoin".

Definition no_redis : Redis := mkRedis ∅ [] [].

(** A store with the given tables, nothing issued yet and no failure ahead;
    pages of two assets. *)
Definition store (assets : list AssetRow) (symbols : list ExchangeSymbolRow)
    (pairs : list ExchangePairRow) : RelDB :=
  mkRelDB (mkPG (mkTables assets symbols pairs) [] []) no_redis 2.

Definition three_assets : RelDB := store [row_wbtc; row_usdc; row_btc] [] [].

(** ** The filter of IdentifyAsset, in the words of its description *)

(** A row is kept when each field of the candidate that is set agrees with
    its column: symbol, name, address in canonical form, decimals when not
    zero (as the decimal text), blockchain. *)
Definition identified_by (hex : string -> string) (candidate : Asset) (r : AssetRow) : bool :=
  (String.eqb (Symbol candidate) "" || has_symbol (Symbol candidate) r)
  && (String.eqb (Name candidate) "" || has_name (Name candidate) r)
  && (String.eqb (Address candidate) ""
      || cell_is (asset_cell col_address r) (hex (Address candidate)))
  && ((Decimals candidate =? 0)
      || cell_is (asset_cell col_decimals r) (Itoa (Decimals candidate)))
  && (String.eqb (Blockchain candidate) ""
      || cell_is (asset_cell col_blockchain r) (Blockchain candidate)).

(** No column of the row is NULL. *)
Definition row_complete (r : AssetRow) : Prop :=
  is_Some (asset_symbol r) /\ is_Some (asset_name r) /\ is_Some (asset_address r)
  /\ is_Some (asset_decimals r) /\ is_Some (asset_blockchain r).

(** A value that can be printed between quotes. *)
Definition plain (s : string) : Prop := has_quote s = false.

(** ** Presence of a pair in table exchangesymbol *)

Definition es_present (symbol exchange : string) (table : list ExchangeSymbolRow) : Prop :=
  exists r, In r table /\ es_symbol r = symbol /\ es_exchange r = exchange.


(** ** Presence of an asset in table asset *)

Definition asset_stored (address blockchain : string) (table : list AssetRow) : Prop :=
  exists r, In r table /\ asset_address r = Some address
            /\ asset_blockchain r = Some blockchain.

(** An identifier that names an asset: some row of table asset has it. *)
Definition names_asset (id : string) (table : list AssetRow) : Prop :=
  exists r, In r table /\ asset_id r = id.

(** Statements that only read. *)
Definition read_only (q : Stmt) : bool :=
  match q with
  | SelectAsset _ _ _ | SelectAssetText _ _
  | SelectExchangeSymbol _ _ | SelectExchangePair _ _ => true
  | _ => false
  end.

(** ** Links of an exchange pair *)

(** The asset of an identifier: the one held by the first row of table asset
    with that identifier. *)
Definition asset_of_id (table : list AssetRow) (id : string) : option Asset :=
  match List.filter (asset_where [(col_asset_id, id)]) table with
  | r :: _ => row_asset r
  | [] => None
  end.

(** What a link of a pair row stands for: the zero value when the link is
    NULL, otherwise the asset of the identifier, when there is one. *)
Definition linked_asset (table : list AssetRow) (link : option string) : option Asset :=
  match link with
  | None => Some Asset_zero
  | Some id => asset_of_id table id
  end.

(** The statement that resolves a link: none for NULL. *)
Definition lookup_of (link : option string) : list Stmt :=
  match link with
  | None => []
  | Some id => [SelectAsset asset_columns [(col_asset_id, id)] None]
  end.

(** ** Rows of one blockchain *)

Definition on_chain (blockchain : string) (r : AssetRow) : bool :=
  cell_is (asset_cell col_blockchain r) blockchain.

(** The four columns [GetAllAssets] reads are not NULL. *)
Definition row_scans (r : AssetRow) : Prop :=
  is_Some (asset_symbol r) /\ is_Some (asset_name r) /\ is_Some (asset_address r)
  /\ is_Some (asset_decimals r).

(** The asset [GetAllAssets] makes of a row: its blockchain is the argument
    of the call; a row whose decimals are not an integer gives none. *)
Definition chain_asset (blockchain : string) (r : AssetRow) : option Asset :=
  match asset_symbol r, asset_name r, asset_address r, asset_decimals r with
  | Some s, Some n, Some a, Some d =>
      match Atoi d with
      | (v, None) => Some (mkAsset s n a (uint8 v) blockchain)
      | (_, Some _) => None
      end
  | _, _, _, _ => None
  end.

Definition row_bad_decimals : AssetRow :=
  mkAssetRow "id-bad" (Some "BAD") (Some "Bad decimals") (Some "0xBAD") (Some "n/a")
    (Some "Ethereum").
Definition row_null_name : AssetRow :=
  mkAssetRow "id-null" (Some "NUL") None (Some "0x00") (Some "18") (Some "Ethereum").
Definition row_null_decimals : AssetRow :=
  mkAssetRow "id-nodec" (Some "NOD") (Some "No decimals") (Some "0x0D") None
    (Some "Ethereum").

(** What [GetAllAssets] has of a row that does not scan: the columns before
    the first NULL are assigned, the fields after it keep their zero
    value. *)
Definition scanned_part (r : AssetRow) : Asset :=
  match asset_symbol r with
  | None => Asset_zero
  | Some s =>
      match asset_name r with
      | None => mkAsset s "" "" 0 ""
      | Some n =>
          match asset_address r with
          | None => mkAsset s n "" 0 ""
          | Some a => mkAsset s n a 0 ""
          end
      end
  end.

(** The text the variable [decimals] of [GetAllAssets] holds after the rows
    [before], starting from [decimals]: that of the last row that has one. *)
Definition decimals_after (decimals : string) (before : list AssetRow) : string :=
  fold_left (fun d r => default d (asset_decimals r)) before decimals.

(** What the loop appends at a row that does not scan: when the decimals it
    still holds are an integer, an asset of the columns scanned and of these
    decimals. *)
Definition half_read (blockchain decimals : string) (r : AssetRow) : list Asset :=
  match Atoi decimals with
  | (v, None) => [set_Blockchain blockchain (set_Decimals (uint8 v) (scanned_part r))]
  | (_, Some _) => []
  end.

(** ** The answer of the time-series store *)

(** The values of the first series of the first result; none when there is
    no result or no series. *)
Definition volume_values (res : list Result) : list (list iface) :=
  match res with
  | result :: _ =>
      match Series result with
      | series :: _ => Values series
      | [] => []
      end
  | [] => []
  end.

(** The condition "no recent volume data": one of the two errors the method
    makes for it. *)
Definition NoRecentVolumeData (e : error) : Prop :=
  e = errors_New "no recent asset with volume in influx"
  \/ e = errors_New "no recent assets with volume in influx".

(** A row as the store sends it for this query: the time, then address and
    blockchain, each a string or nil. *)
Definition tag_value (v : iface) : bool :=
  match v with
  | INil | IString _ => true
  | INumber _ => false
  end.

Definition value_row_ok (val : list iface) : bool :=
  match val !! 1%nat, val !! 2%nat with
  | Some v1, Some v2 => tag_value v1 && tag_value v2
  | _, _ => false
  end.

(** The (address, blockchain) pair of a row, as an asset with no other field
    set; none when one of the two is nil. *)
Definition quoted_pair (val : list iface) : option Asset :=
  match val !! 1%nat, val !! 2%nat with
  | Some (IString address), Some (IString blockchain) =>
      Some (mkAsset "" "" address 0 blockchain)
  | _, _ => None
  end.

(** Deduplication in first-seen order: an element is kept when it did not
    occur earlier. *)
Fixpoint first_seen {A} `{EqDecision A} (earlier l : list A) : list A :=
  match l with
  | [] => []
  | x :: l =>
      if decide (x ∈ earlier) then first_seen earlier l
      else x :: first_seen (x :: earlier) l
  end.

(** A store that answers with one series of four rows, and one that answers
    with no series. *)
Definition sample_volumes : DB :=
  mkDB (fun _ =>
    ([mkResult [mkRow [
        [INumber 1; IString "0xA"; IString "Ethereum"; INumber 10];
        [INumber 2; IString "0xB"; IString "Ethereum"; INumber 5];
        [INumber 3; IString "0xA"; IString "Ethereum"; INumber 7];
        [INumber 4; INil; IString "Ethereum"; INumber 1]]]], None)).

Definition no_volumes : DB := mkDB (fun _ => ([mkResult []], None)).

(** The driver's conversion into a [*uint8] destination.  pgx takes the
    value of an integer column into it.  Column decimals is of type text, as
    the methods that read it into a string and [SetAsset], which writes the
    printed number, show; a text, a uuid, a boolean or NULL is not
    assignable to [*uint8]. *)
Definition pgx_uint8 (c : cell) : option Z :=
  match c with
  | CNull | CText _ | CUuid _ | CBool _ => None
  end.

(** The rows of the page after page [pageNumber]. *)
Definition next_page (rdb : RelDB) (pageNumber : Z) : list RawRow :=
  select_asset asset_columns []
    (Some (pagesize rdb, uint32 (pagesize rdb * pageNumber) + pagesize rdb))
    (tables (postgresClient rdb)).

(** No two rows of table exchangesymbol for one pair. *)
Definition es_unique (table : list ExchangeSymbolRow) : Prop :=
  forall symbol exchange, count_where (es_key symbol exchange) table <= 1.

(** * Further methods of the file *)

(** ** GetAsset and its lookup table

    [assetCache] is a variable of the package, a map from keys to assets that
    [GetAsset] reads and fills; the methods that use it take it and give it
    back. *)

Definition GetAsset_key (address blockchain : string) : string :=
  "GetAsset_" +:+ address +:+ "_" +:+ blockchain.

Definition GetAsset (assetCache : gmap string Asset) (rdb : RelDB)
    (address blockchain : string)
  : Asset * option error * RelDB * gmap string Asset :=
  let assetKey := GetAsset_key address blockchain in
  match assetCache !! assetKey with
  | Some cachedAsset => (cachedAsset, None, rdb, assetCache)
  | None =>
      let '(vals, err, pg) :=
        QueryRow (SelectAsset asset_columns
                    [(col_address, address); (col_blockchain, blockchain)] None)
                 (postgresClient rdb) in
      let rdb := with_pg rdb pg in
      match err with
      | Some e => (Asset_zero, Some e, rdb, assetCache)
      | None =>
          let '(asset, decimals, err) := Scan_asset vals Asset_zero "" in
          match err with
          | Some e => (asset, Some e, rdb, assetCache)
          | None =>
              let '(decimalsInt, err) := Atoi decimals in
              match err with
              | Some e => (asset, Some e, rdb, assetCache)
              | None =>
                  let asset := set_Decimals (uint8 decimalsInt) asset in
                  (asset, None, rdb, <[assetKey := asset]> assetCache)
              end
          end
      end
  end.

(** The values [SetAsset] hands to its insert, as the row they make under
    the identifier the table gives it: the decimals go in as
    [strconv.Itoa(int(asset.Decimals))]. *)
Definition SetAsset_row (id : string) (asset : Asset) : AssetRow :=
  mkAssetRow id (Some (Symbol asset)) (Some (Name asset)) (Some (Address asset))
    (Some (Itoa (Decimals asset))) (Some (Blockchain asset)).

(** ** GetAssets *)

(** The loop of [GetAssets]; [decimals] is declared in the loop. *)
Fixpoint GetAssets_rows (rows : list RawRow) (assets : list Asset)
  : list Asset * option error :=
  match rows with
  | [] => (assets, None)
  | vals :: rest =>
      let '(asset, decimals, err) := Scan_asset vals Asset_zero "" in
      match err with
      | Some e => (assets, Some e)
      | None =>
          let '(decimalsInt, err) := Atoi decimals in
          match err with
          | Some e => (assets, Some e)
          | None => GetAssets_rows rest (assets ++ [set_Decimals (uint8 decimalsInt) asset])
          end
      end
  end.

Definition GetAssets (rdb : RelDB) (symbol : string) : list Asset * option error * RelDB :=
  let '(rows, err, pg) :=
    Query (SelectAsset asset_columns [(col_symbol, symbol)] None) (postgresClient rdb) in
  let rdb := with_pg rdb pg in
  match err with
  | Some e => ([], Some e, rdb)
  | None =>
      let '(assets, err) := GetAssets_rows (pending rows) [] in
      (assets, err, rdb)
  end.

(** ** GetFiatAssetBySymbol *)

(** [Scan(&asset.Name, &asset.Address, &decimals)] *)
Definition Scan_fiat (vals : RawRow) (asset : Asset) (decimals : string)
  : Asset * string * option error :=
  match vals with
  | [c0; c1; c2] =>
      match assign_string c0 with
      | None => (asset, decimals, Some (ScanArgError 0))
      | Some v0 =>
      let asset := set_Name v0 asset in
      match assign_string c1 with
      | None => (asset, decimals, Some (ScanArgError 1))
      | Some v1 =>
      let asset := set_Address v1 asset in
      match assign_string c2 with
      | None => (asset, decimals, Some (ScanArgError 2))
      | Some v2 => (asset, v2, None)
      end end end
  | _ => (asset, decimals, Some ErrColumnCount)
  end.

Definition GetFiatAssetBySymbol (rdb : RelDB) (symbol : string)
  : Asset * option error * RelDB :=
  let '(vals, err, pg) :=
    QueryRow (SelectAsset [col_name; col_address; col_decimals]
                [(col_symbol, symbol); (col_blockchain, "Fiat")] None)
             (postgresClient rdb) in
  let rdb := with_pg rdb pg in
  match err with
  | Some e => (Asset_zero, Some e, rdb)
  | None =>
      let '(asset, decimals, err) := Scan_fiat vals Asset_zero "" in
      match err with
      | Some e => (asset, Some e, rdb)
      | None =>
          let '(decimalsInt, err) := Atoi decimals in
          match err with
          | Some e => (asset, Some e, rdb)
          | None =>
              (set_Blockchain "Fiat"
                 (set_Symbol symbol (set_Decimals (uint8 decimalsInt) asset)),
               None, rdb)
          end
      end
  end.

(** ** GetByLimit *)

(** [Scan(&assetID, &asset.Symbol, &asset.Name, &asset.Address, &decimals,
    &asset.Blockchain)] *)
Definition Scan_id_asset (vals : RawRow) (assetID : string) (asset : Asset)
    (decimals : string) : string * Asset * string * option error :=
  match vals with
  | [c0; c1; c2; c3; c4; c5] =>
      match assign_string c0 with
      | None => (assetID, asset, decimals, Some (ScanArgError 0))
      | Some v0 =>
      match assign_string c1 with
      | None => (v0, asset, decimals, Some (ScanArgError 1))
      | Some v1 =>
      let asset := set_Symbol v1 asset in
      match assign_string c2 with
      | None => (v0, asset, decimals, Some (ScanArgError 2))
      | Some v2 =>
      let asset := set_Name v2 asset in
      match assign_string c3 with
      | None => (v0, asset, decimals, Some (ScanArgError 3))
      | Some v3 =>
      let asset := set_Address v3 asset in
      match assign_string c4 with
      | None => (v0, asset, decimals, Some (ScanArgError 4))
      | Some v4 =>
      match assign_string c5 with
      | None => (v0, asset, v4, Some (ScanArgError 5))
      | Some v5 => (v0, set_Blockchain v5 asset, v4, None)
      end end end end end end
  | _ => (assetID, asset, decimals, Some ErrColumnCount)
  end.

(** The loop of [GetByLimit]. *)
Fixpoint GetByLimit_rows (rows : list RawRow) (assets : list Asset) (assetIds : list string)
  : list Asset * list string * option error :=
  match rows with
  | [] => (assets, assetIds, None)
  | vals :: rest =>
      let '(assetID, asset, decimals, err) := Scan_id_asset vals "" Asset_zero "" in
      match err with
      | Some e => (assets, assetIds, Some e)
      | None =>
          let '(decimalsInt, err) := Atoi decimals in
          match err with
          | Some e => (assets, assetIds, Some e)
          | None =>
              GetByLimit_rows rest
                (assets ++ [set_Decimals (uint8 decimalsInt) asset])
                (assetIds ++ [assetID])
          end
      end
  end.

Definition GetByLimit (rdb : RelDB) (limit skip : Z)
  : list Asset * list string * option error * RelDB :=
  let '(rows, err, pg) :=
    Query (SelectAsset (col_asset_id :: asset_columns) [] (Some (limit, skip)))
          (postgresClient rdb) in
  let rdb := with_pg rdb pg in
  match err with
  | Some e => ([], [], Some e, rdb)
  | None =>
      let '(assets, assetIds, err) := GetByLimit_rows (pending rows) [] [] in
      (assets, assetIds, err, rdb)
  end.

(** ** Vocabulary of the further properties *)

Fixpoint has_underscore (s : string) : bool :=
  match s with
  | EmptyString => false
  | String ch rest => Ascii.eqb ch "_" || has_underscore rest
  end.

(** The error that reading a row of table asset gives, if any: that of
    [Scan] on its five columns, or that of [Atoi] on its decimals. *)
Definition row_error (r : AssetRow) : option error :=
  let '(_, decimals, err) := Scan_asset (project asset_columns r) Asset_zero "" in
  match err with
  | Some e => Some e
  | None => snd (Atoi decimals)
  end.

(** The rows a statement with [LIMIT limit OFFSET skip] and no condition
    reads from table asset. *)
Definition window (limit skip : Z) (table : list AssetRow) : list AssetRow :=
  take (Z.to_nat limit) (drop (Z.to_nat skip) table).

(** Every row of table exchangesymbol for the pair is verified, and there is
    one. *)
Definition es_verified_pair (symbol exchange : string) (table : list ExchangeSymbolRow)
  : Prop :=
  es_present symbol exchange table
  /\ forall r, In r table -> es_symbol r = symbol -> es_exchange r = exchange ->
       es_verified r = true.

(** The identifier [GetAssetID] finds for an asset on a connection without
    failures: that of the first row with its address and blockchain, and the
    empty string when there is none. *)
Definition stored_id (table : list AssetRow) (asset : Asset) : string :=
  match List.filter (asset_where [(col_address, Address asset);
                                  (col_blockchain, Blockchain asset)]) table with
  | r :: _ => asset_id r
  | [] => ""
  end.

(** Table exchangepair holds one row for a pair (foreignname, exchange).
    The key is free for a symbol when no row has the key with another symbol:
    the conditional insert of [SetExchangePair] then either finds its row or
    adds it, and is not refused for a duplicate key. *)
Definition ep_key_free (symbol foreignname exchange : string)
    (table : list ExchangePairRow) : Prop :=
  forall r, In r table -> ep_foreignname r = foreignname -> ep_exchange r = exchange ->
    ep_symbol r = symbol.

(** Table exchangepair after the conditional insert of [SetExchangePair]. *)
Definition with_pair (symbol foreignname exchange : string) (table : list ExchangePairRow)
  : list ExchangePairRow :=
  if existsb (ep_triple symbol foreignname exchange) table then table
  else table ++ [mkExchangePairRow symbol foreignname exchange false None None].

(** One of the two updates of a link, made when the identifier is not empty. *)
Definition with_link (what : string -> PairSet) (id foreignname exchange : string)
    (table : list ExchangePairRow) : list ExchangePairRow :=
  if String.eqb id "" then table
  else update_where (ep_key foreignname exchange) (ep_set (what id)) table.



(** An asset agrees with a candidate of [IdentifyAsset] when it has the
    value of each field the candidate sets, the address in canonical
    form. *)
Definition agrees (hex : string -> string) (candidate a : Asset) : Prop :=
  (Symbol candidate <> "" -> Symbol a = Symbol candidate)
  /\ (Name candidate <> "" -> Name a = Name candidate)
  /\ (Address candidate <> "" -> Address a = hex (Address candidate))
  /\ (Decimals candidate <> 0 -> Decimals a = Decimals candidate)
  /\ (Blockchain candidate <> "" -> Blockchain a = Blockchain candidate).

(** A call that leaves the store as it was: the three tables and the cache
    after it are those before it. *)
Definition unchanged (rdb rdb' : RelDB) : Prop :=
  tables (postgresClient rdb') = tables (postgresClient rdb)
  /\ redisClient rdb' = redisClient rdb.

(** A row of values on which [GetAssetsWithVOLInflux] panics: it has no
    field 1; or field 1 is not nil and it has no field 2; or both fields are
    not nil and one of them is not a string. *)
Definition row_panics (val : list iface) : bool :=
  match val !! 1%nat with
  | None => true
  | Some INil => false
  | Some v1 =>
      match val !! 2%nat with
      | None => true
      | Some INil => false
      | Some v2 =>
          match v1, v2 with
          | IString _, IString _ => false
          | _, _ => true
          end
      end
  end.

(** * Properties *)

(** ** The client on a connection without failures *)

Lemma send_healthy q pg :
  faults pg = [] ->
  send q pg =
    match run q (tables pg) with
    | inl e => (Some e, [], "", sent q (tables pg) pg)
    | inr (t, rows, tag) => (None, rows, tag, sent q t pg)
    end.
Proof.
  intros H. unfold send, sent. rewrite H. simpl.
  destruct (run q (tables pg)) as [e|[[t rows] tag]]; reflexivity.
Qed.

Lemma Query_select_healthy cols conds page pg :
  faults pg = [] ->
  Query (SelectAsset cols conds page) pg =
    (mkRows (select_asset cols conds page (tables pg)) [] false, None,
     sent (SelectAsset cols conds page) (tables pg) pg).
Proof.
  intros H. unfold Query. rewrite send_healthy by exact H. reflexivity.
Qed.

Lemma GetAssetsBySymbolName_rows_holding rs decimals assets :
  Forall (fun r => is_Some (row_asset r)) rs ->
  GetAssetsBySymbolName_rows (List.map (project asset_columns) rs) decimals assets
  = (assets ++ omap row_asset rs, None).
Proof.
  intros H. revert decimals assets.
  induction H as [|r rs [a Ha] _ IH]; intros decimals assets.
  - simpl. by rewrite app_nil_r.
  - unfold row_asset in Ha. cbn [List.map GetAssetsBySymbolName_rows omap list_omap].
    unfold row_asset.
    destruct r as [id [s|] [n|] [ad|] [d|] [b|]]; simpl in Ha; try discriminate.
    cbn. destruct (Atoi d) as [v [e|]] eqn:Hd; try discriminate.
    injection Ha as <-. rewrite IH. cbn. by rewrite <- app_assoc.
Qed.

Lemma filter_asset_where_1 c v rows :
  List.filter (asset_where [(c, v)]) rows
  = List.filter (fun r => cell_is (asset_cell c r) v) rows.
Proof.
  apply List.filter_ext. intros r. unfold asset_where. simpl.
  by rewrite andb_true_r.
Qed.

Lemma filter_asset_where_2 c1 v1 c2 v2 rows :
  List.filter (asset_where [(c1, v1); (c2, v2)]) rows
  = List.filter (fun r => cell_is (asset_cell c1 r) v1 && cell_is (asset_cell c2 r) v2) rows.
Proof.
  apply List.filter_ext. intros r. unfold asset_where. simpl.
  by rewrite andb_true_r.
Qed.

Lemma Forall_List_filter {A} (P : A -> Prop) (p : A -> bool) (l : list A) :
  Forall P l -> Forall P (List.filter p l).
Proof.
  induction 1 as [|x l Hx _ IH]; simpl; [constructor|].
  destruct (p x); [by constructor | exact IH].
Qed.

(** ** GetAssetsBySymbolName *)

(** C1, as amended.  On a connection without failures and a table whose rows
    all hold an asset, [GetAssetsBySymbolName symbol name] returns, without
    error and in storage order: for a non-empty symbol and an empty name
    exactly the assets with that symbol; for a non-empty name and an empty
    symbol exactly the assets with that name; for both non-empty exactly the
    assets with both; and for both empty exactly the assets whose symbol is
    the empty string. *)
Theorem GetAssetsBySymbolName_filters (rdb : RelDB) (symbol name : string) :
  faults (postgresClient rdb) = [] ->
  Forall (fun r => is_Some (row_asset r)) (assetTable (tables (postgresClient rdb))) ->
  let table := assetTable (tables (postgresClient rdb)) in
  let answer := fst (GetAssetsBySymbolName rdb symbol name) in
  (symbol <> "" -> name = "" ->
     answer = (omap row_asset (List.filter (has_symbol symbol) table), None)) /\
  (symbol = "" -> name <> "" ->
     answer = (omap row_asset (List.filter (has_name name) table), None)) /\
  (symbol <> "" -> name <> "" ->
     answer = (omap row_asset
                 (List.filter (fun r => has_symbol symbol r && has_name name r) table),
               None)) /\
  (symbol = "" -> name = "" ->
     answer = (omap row_asset (List.filter (has_symbol "") table), None)).
Proof.
  intros Hf Hrows table answer. subst table answer.
  assert (Hby : forall conds,
    Query (SelectAsset asset_columns conds None) (postgresClient rdb)
    = (mkRows (select_asset asset_columns conds None (tables (postgresClient rdb))) [] false,
       None, sent (SelectAsset asset_columns conds None) (tables (postgresClient rdb))
               (postgresClient rdb))).
  { intros conds. by apply Query_select_healthy. }
  assert (Hloop : forall conds,
    GetAssetsBySymbolName_rows
      (select_asset asset_columns conds None (tables (postgresClient rdb))) "" []
    = (omap row_asset (List.filter (asset_where conds)
                         (assetTable (tables (postgresClient rdb)))), None)).
  { intros conds. unfold select_asset, limit_offset.
    rewrite GetAssetsBySymbolName_rows_holding; [reflexivity|].
    by apply Forall_List_filter. }
  unfold GetAssetsBySymbolName.
  repeat split.
  - intros _ ->. cbn [String.eqb]. rewrite Hby. cbn [pending].
    rewrite Hloop, filter_asset_where_1. reflexivity.
  - intros -> Hn. destruct (String.eqb_spec name "") as [->|_]; [done|].
    cbn [String.eqb]. rewrite Hby. cbn [pending].
    rewrite Hloop, filter_asset_where_1. reflexivity.
  - intros Hs Hn. destruct (String.eqb_spec name "") as [->|_]; [done|].
    destruct (String.eqb_spec symbol "") as [->|_]; [done|].
    rewrite Hby. cbn [pending].
    rewrite Hloop, filter_asset_where_2. reflexivity.
  - intros -> ->. cbn [String.eqb]. rewrite Hby. cbn [pending].
    rewrite Hloop, filter_asset_where_1. reflexivity.
Qed.

Lemma GetAssetsBySymbolName_filters_witness :
  fst (GetAssetsBySymbolName three_assets "USDC" "") = ([usdc], None).
Proof.
  assert (Hrows : Forall (fun r => is_Some (row_asset r))
                    (assetTable (tables (postgresClient three_assets)))).
  { repeat constructor; eexists; reflexivity. }
  destruct (GetAssetsBySymbolName_filters three_assets "USDC" "" eq_refl Hrows)
    as [Hsymbol _].
  rewrite Hsymbol; [reflexivity | discriminate | reflexivity].
Defined.

(** C1 as stated fails: with both arguments empty the statement sent is the
    one by symbol, and a table of three named assets gives no row. *)
Lemma GetAssetsBySymbolName_both_empty_not_all :
  fst (GetAssetsBySymbolName three_assets "" "") = ([], None)
  /\ omap row_asset (assetTable (tables (postgresClient three_assets))) = [wbtc; usdc; btc].
Proof. split; reflexivity. Qed.

(** ** IdentifyAsset *)

Lemma string_of_uint_plain d : has_quote (NilEmpty.string_of_uint d) = false.
Proof. induction d; simpl; auto. Qed.

Lemma Itoa_plain z : plain (Itoa z).
Proof.
  unfold plain, Itoa, NilZero.string_of_int, NilZero.string_of_uint.
  destruct (Z.to_int z) as [d|d]; destruct d; simpl; auto using string_of_uint_plain.
Qed.

Lemma IdentifyAsset_conds_where hex candidate r :
  asset_where (IdentifyAsset_conds hex candidate) r = identified_by hex candidate r.
Proof.
  unfold asset_where, IdentifyAsset_conds, identified_by, has_symbol, has_name.
  rewrite !forallb_app.
  destruct (String.eqb (Symbol candidate) ""), (String.eqb (Name candidate) ""),
    (String.eqb (Address candidate) ""), (Decimals candidate =? 0),
    (String.eqb (Blockchain candidate) ""); simpl;
    rewrite ?andb_true_r, ?andb_assoc; reflexivity.
Qed.

Lemma IdentifyAsset_conds_plain hex candidate :
  plain (Symbol candidate) -> plain (Name candidate) ->
  plain (hex (Address candidate)) -> plain (Blockchain candidate) ->
  literals_ok (List.map snd (IdentifyAsset_conds hex candidate)) = true.
Proof.
  unfold plain, literals_ok, IdentifyAsset_conds. intros Hs Hn Ha Hb.
  rewrite !map_app, !forallb_app.
  pose proof (Itoa_plain (Decimals candidate)) as Hd. unfold plain in Hd.
  destruct (String.eqb (Symbol candidate) ""), (String.eqb (Name candidate) ""),
    (String.eqb (Address candidate) ""), (Decimals candidate =? 0),
    (String.eqb (Blockchain candidate) ""); simpl;
    rewrite ?Hs, ?Hn, ?Ha, ?Hb, ?Hd; reflexivity.
Qed.

Lemma IdentifyAsset_conds_nonempty hex candidate :
  Symbol candidate <> "" \/ Name candidate <> "" \/ Address candidate <> ""
  \/ Decimals candidate <> 0 \/ Blockchain candidate <> "" ->
  IdentifyAsset_conds hex candidate <> [].
Proof.
  unfold IdentifyAsset_conds. intros H.
  destruct (String.eqb_spec (Symbol candidate) ""); [|discriminate].
  destruct (String.eqb_spec (Name candidate) ""); [|discriminate].
  destruct (String.eqb_spec (Address candidate) ""); [|discriminate].
  destruct (Z.eqb_spec (Decimals candidate) 0); [|discriminate].
  destruct (String.eqb_spec (Blockchain candidate) ""); [|discriminate].
  tauto.
Qed.

Lemma IdentifyAsset_rows_complete rs decimals assets :
  Forall row_complete rs ->
  IdentifyAsset_rows (List.map (project asset_columns) rs) decimals assets
  = (assets ++ omap row_asset rs, None).
Proof.
  intros H. revert decimals assets.
  induction H as [|r rs Hr _ IH]; intros decimals assets.
  - simpl. by rewrite app_nil_r.
  - destruct Hr as ([s Hs] & [n Hn] & [a Ha] & [d Hd] & [b Hb]).
    destruct r as [id s' n' a' d' b']. simpl in Hs, Hn, Ha, Hd, Hb. subst.
    cbn [List.map IdentifyAsset_rows omap list_omap]. unfold row_asset. cbn.
    destruct (Atoi d) as [v [e|]]; rewrite IH; [reflexivity|].
    cbn. by rewrite <- app_assoc.
Qed.

(** C3, as amended.  [IdentifyAsset] filters by exactly the fields of the
    candidate that are set (symbol, name, address in canonical form, decimals
    when not zero, blockchain).  When at least one field is set, the values
    can be printed between quotes, the connection does not fail and no
    matching row holds a NULL, it returns without error the assets of all
    matching rows whose decimals are an integer, in storage order; with only
    the symbol set these are the assets with that symbol; and with decimals
    zero no condition of the statement is on the decimals column. *)
Theorem IdentifyAsset_filters (hex : string -> string) (rdb : RelDB) (candidate : Asset) :
  faults (postgresClient rdb) = [] ->
  Symbol candidate <> "" \/ Name candidate <> "" \/ Address candidate <> ""
  \/ Decimals candidate <> 0 \/ Blockchain candidate <> "" ->
  plain (Symbol candidate) -> plain (Name candidate) ->
  plain (hex (Address candidate)) -> plain (Blockchain candidate) ->
  Forall row_complete
    (List.filter (identified_by hex candidate) (assetTable (tables (postgresClient rdb)))) ->
  let table := assetTable (tables (postgresClient rdb)) in
  let '(assets, err, rdb') := IdentifyAsset hex rdb candidate in
  (assets, err) = (omap row_asset (List.filter (identified_by hex candidate) table), None)
  /\ (Name candidate = "" -> Address candidate = "" -> Decimals candidate = 0 ->
      Blockchain candidate = "" ->
      assets = omap row_asset (List.filter (has_symbol (Symbol candidate)) table))
  /\ (exists conds,
        issued (postgresClient rdb')
        = issued (postgresClient rdb) ++ [SelectAssetText asset_columns conds]
        /\ (Decimals candidate = 0 -> Forall (fun cv => fst cv <> col_decimals) conds)).
Proof.
  intros Hf Hset Hs Hn Ha Hb Hrows table.
  unfold IdentifyAsset, Query. rewrite send_healthy by exact Hf.
  cbn [run].
  pose proof (IdentifyAsset_conds_nonempty hex candidate Hset) as Hne.
  pose proof (IdentifyAsset_conds_plain hex candidate Hs Hn Ha Hb) as Hok.
  destruct (IdentifyAsset_conds hex candidate) as [|cv conds] eqn:Hconds; [done|].
  rewrite Hok. cbn [pending]. unfold select_asset, limit_offset.
  rewrite <- Hconds.
  rewrite (List.filter_ext _ _ (IdentifyAsset_conds_where hex candidate)).
  fold table.
  rewrite IdentifyAsset_rows_complete by exact Hrows. cbn [app].
  split; [reflexivity|]. split.
  - intros En Ea Ed Eb. f_equal. apply List.filter_ext. intros r.
    unfold identified_by. rewrite En, Ea, Ed, Eb. cbn.
    destruct (String.eqb_spec (Symbol candidate) "") as [E|_].
    + destruct Hset as [?|[?|[?|[?|?]]]]; congruence.
    + cbn. by rewrite !andb_true_r.
  - exists (IdentifyAsset_conds hex candidate). split; [by rewrite ?Hconds|].
    intros Ed. unfold IdentifyAsset_conds. rewrite Ed. cbn [Z.eqb].
    rewrite !Forall_app.
    destruct (String.eqb (Symbol candidate) ""), (String.eqb (Name candidate) ""),
      (String.eqb (Address candidate) ""), (String.eqb (Blockchain candidate) "");
      repeat split; repeat constructor; discriminate.
Qed.

Lemma IdentifyAsset_filters_witness :
  fst (IdentifyAsset (fun s => s) three_assets (mkAsset "" "" "" 8 "Ethereum"))
  = ([wbtc], None).
Proof.
  assert (Hrows : Forall row_complete
            (List.filter (identified_by (fun s => s) (mkAsset "" "" "" 8 "Ethereum"))
               (assetTable (tables (postgresClient three_assets))))).
  { vm_compute. repeat constructor; eexists; reflexivity. }
  assert (Hset : Decimals (mkAsset "" "" "" 8 "Ethereum") <> 0) by discriminate.
  pose proof (IdentifyAsset_filters (fun s => s) three_assets
                (mkAsset "" "" "" 8 "Ethereum")) as H.
  specialize (H eq_refl).
  specialize (H (or_intror (or_intror (or_intror (or_introl Hset))))).
  specialize (H eq_refl eq_refl eq_refl eq_refl Hrows).
  cbv zeta in H.
  destruct (IdentifyAsset _ three_assets _) as [[assets err] rdb'].
  destruct H as [H _]. exact H.
Defined.

(** C3 as stated fails twice.  For the candidate with every field at its
    default the text of the statement ends in "where ", the engine rejects
    it, and the call returns that error and no asset, whatever the table
    holds.  And a row that matches but whose decimals are not an integer is
    left out of the answer. *)
Lemma IdentifyAsset_not_all_matching :
  (fst (IdentifyAsset (fun s => s) three_assets Asset_zero) = ([], Some ErrSQLSyntax)
   /\ omap row_asset (assetTable (tables (postgresClient three_assets))) = [wbtc; usdc; btc])
  /\ (fst (IdentifyAsset (fun s => s) (store [row_bad_decimals; row_wbtc] [] [])
             (mkAsset "BAD" "" "" 0 "")) = ([], None)
      /\ List.filter (has_symbol "BAD") [row_bad_decimals; row_wbtc] = [row_bad_decimals]).
Proof. repeat split. Qed.

(** ** Lists of rows *)

Lemma count_where_app {A} (p : A -> bool) (l1 l2 : list A) :
  count_where p (l1 ++ l2) = count_where p l1 + count_where p l2.
Proof. unfold count_where. rewrite List.filter_app, length_app. lia. Qed.

Lemma count_where_nonneg {A} (p : A -> bool) (l : list A) : 0 <= count_where p l.
Proof. unfold count_where. lia. Qed.

Lemma existsb_false_count {A} (p : A -> bool) (l : list A) :
  existsb p l = false -> count_where p l = 0.
Proof.
  unfold count_where. induction l as [|x l IH]; simpl; [reflexivity|].
  destruct (p x); simpl; [discriminate | exact IH].
Qed.

Lemma existsb_true_count {A} (p : A -> bool) (l : list A) :
  existsb p l = true -> 1 <= count_where p l.
Proof.
  unfold count_where. induction l as [|x l IH]; simpl; [discriminate|].
  destruct (p x); simpl; [lia | exact IH].
Qed.

Lemma filter_update_where {A} (p : A -> bool) (f : A -> A) (l : list A) :
  (forall r, p (f r) = p r) ->
  List.filter p (update_where p f l) = List.map f (List.filter p l).
Proof.
  intros Hpf. unfold update_where. induction l as [|x l IH]; simpl; [reflexivity|].
  destruct (p x) eqn:Hx.
  - rewrite Hpf, Hx. simpl. by rewrite IH.
  - rewrite Hx. exact IH.
Qed.

Lemma es_key_spec symbol exchange r :
  es_key symbol exchange r = true <-> es_symbol r = symbol /\ es_exchange r = exchange.
Proof.
  unfold es_key. rewrite andb_true_iff, !String.eqb_eq. reflexivity.
Qed.

Lemma es_present_existsb symbol exchange table :
  es_present symbol exchange table <-> existsb (es_key symbol exchange) table = true.
Proof.
  unfold es_present. rewrite existsb_exists.
  split; intros (r & Hin & H); exists r; (split; [exact Hin|]); by apply es_key_spec.
Qed.

(** The statements of the file keep table exchangesymbol free of duplicate
    pairs; the empty table is. *)
Lemma count_update_where {A} (p q : A -> bool) (f : A -> A) (l : list A) :
  (forall r, q (f r) = q r) ->
  count_where q (update_where p f l) = count_where q l.
Proof.
  intros Hqf. unfold count_where, update_where. f_equal.
  induction l as [|x l IH]; simpl; [reflexivity|].
  destruct (p x); rewrite ?Hqf; destruct (q x); simpl; by rewrite IH.
Qed.

Lemma es_unique_nil : es_unique [].
Proof. intros symbol exchange. unfold count_where. simpl. lia. Qed.

Lemma run_es_unique q t t' rows tag :
  es_unique (exchangesymbolTable t) ->
  run q t = inr (t', rows, tag) ->
  es_unique (exchangesymbolTable t').
Proof.
  intros Hu. destruct q; cbn.
  - by intros [= <- _ _].
  - destruct conds; [discriminate|]. destruct (literals_ok _); [|discriminate].
    by intros [= <- _ _].
  - destruct (existsb (es_key symbol exchange) (exchangesymbolTable t)) eqn:Hex;
      intros [= <- _ _]; [exact Hu|]. cbn.
    intros symbol' exchange'. rewrite count_where_app.
    unfold count_where at 2. cbn.
    destruct (es_key symbol' exchange' (mkExchangeSymbolRow symbol exchange false None))
      eqn:Hk; cbn.
    + apply es_key_spec in Hk as [<- <-]. cbn.
      rewrite (existsb_false_count _ _ Hex). lia.
    + specialize (Hu symbol' exchange'). lia.
  - destruct (uuid_in assetID) as [id|]; [|discriminate].
    intros [= <- _ _]. cbn. intros symbol' exchange'.
    rewrite count_update_where; [apply Hu|]. by intros [].
  - by intros [= <- _ _].
  - by intros [= <- _ _].
  - destruct (existsb _ _); [by intros [= <- _ _]|].
    destruct (existsb _ _); [discriminate|]. by intros [= <- _ _].
  - match goal with |- (if ?b then _ else _) = _ -> _ => destruct b end;
      [|discriminate]. by intros [= <- _ _].
Qed.

(** ** SetExchangeSymbol *)

Lemma SetExchangeSymbol_healthy rdb exchange symbol :
  faults (postgresClient rdb) = [] ->
  SetExchangeSymbol rdb exchange symbol
  = (None,
     with_pg rdb
       (sent (InsertExchangeSymbol symbol exchange)
          (if existsb (es_key symbol exchange)
                (exchangesymbolTable (tables (postgresClient rdb)))
           then tables (postgresClient rdb)
           else mkTables (assetTable (tables (postgresClient rdb)))
                  (exchangesymbolTable (tables (postgresClient rdb))
                     ++ [mkExchangeSymbolRow symbol exchange false None])
                  (exchangepairTable (tables (postgresClient rdb))))
          (postgresClient rdb))).
Proof.
  intros Hf. unfold SetExchangeSymbol, Exec.
  rewrite send_healthy by exact Hf. cbn [run].
  destruct (existsb _ _); reflexivity.
Qed.

(** C5.  On a connection without failures and a table with at most one row
    for the pair, two calls of [SetExchangeSymbol] with the same arguments
    both return no error; the first adds the unverified row if the pair was
    absent and changes nothing otherwise; the second changes nothing; and the
    table then holds exactly one row for the pair. *)
Theorem SetExchangeSymbol_idempotent (rdb : RelDB) (exchange symbol : string) :
  faults (postgresClient rdb) = [] ->
  count_where (es_key symbol exchange) (exchangesymbolTable (tables (postgresClient rdb))) <= 1 ->
  let '(err1, rdb1) := SetExchangeSymbol rdb exchange symbol in
  let '(err2, rdb2) := SetExchangeSymbol rdb1 exchange symbol in
  err1 = None /\ err2 = None
  /\ exchangesymbolTable (tables (postgresClient rdb1))
     = (if existsb (es_key symbol exchange) (exchangesymbolTable (tables (postgresClient rdb)))
        then exchangesymbolTable (tables (postgresClient rdb))
        else exchangesymbolTable (tables (postgresClient rdb))
               ++ [mkExchangeSymbolRow symbol exchange false None])
  /\ tables (postgresClient rdb2) = tables (postgresClient rdb1)
  /\ count_where (es_key symbol exchange)
       (exchangesymbolTable (tables (postgresClient rdb2))) = 1.
Proof.
  intros Hf Hone.
  rewrite SetExchangeSymbol_healthy by exact Hf.
  rewrite SetExchangeSymbol_healthy by reflexivity.
  assert (Hnew : es_key symbol exchange (mkExchangeSymbolRow symbol exchange false None) = true).
  { apply es_key_spec. by split. }
  destruct (existsb (es_key symbol exchange)
              (exchangesymbolTable (tables (postgresClient rdb)))) eqn:Hex.
  - cbn. rewrite Hex. cbn.
    repeat split. apply existsb_true_count in Hex. lia.
  - cbn. rewrite existsb_app, Hex. cbn. rewrite Hnew. cbn.
    repeat split. rewrite count_where_app, (existsb_false_count _ _ Hex).
    unfold count_where. cbn. by rewrite Hnew.
Qed.

Lemma SetExchangeSymbol_idempotent_witness :
  let '(err1, rdb1) := SetExchangeSymbol three_assets "Binance" "BTC" in
  let '(err2, rdb2) := SetExchangeSymbol rdb1 "Binance" "BTC" in
  err1 = None /\ err2 = None
  /\ exchangesymbolTable (tables (postgresClient rdb2))
     = [mkExchangeSymbolRow "BTC" "Binance" false None].
Proof.
  pose proof (SetExchangeSymbol_idempotent three_assets "Binance" "BTC" eq_refl) as H.
  assert (Hone : count_where (es_key "BTC" "Binance")
                   (exchangesymbolTable (tables (postgresClient three_assets))) <= 1)
    by (vm_compute; discriminate).
  specialize (H Hone).
  destruct (SetExchangeSymbol three_assets "Binance" "BTC") as [err1 rdb1] eqn:H1.
  destruct (SetExchangeSymbol rdb1 "Binance" "BTC") as [err2 rdb2] eqn:H2.
  destruct H as (E1 & E2 & _ & _ & _).
  split; [exact E1|]. split; [exact E2|].
  injection H1 as <- <-. injection H2 as <- <-. reflexivity.
Defined.

(** ** The command tag of an update *)

Lemma Split_space_digits d :
  Split_space (NilEmpty.string_of_uint d) = [NilEmpty.string_of_uint d].
Proof. induction d; simpl; rewrite ?IHd; reflexivity. Qed.

Lemma Itoa_nonneg_field z :
  0 <= z -> Split_space (Itoa z) = [Itoa z].
Proof.
  intros Hz. unfold Itoa, NilZero.string_of_int, NilZero.string_of_uint.
  destruct z as [|p|p]; [reflexivity| |lia].
  cbn [Z.to_int]. pose proof (DecimalPos.Unsigned.to_uint_nonnil p) as Hp.
  destruct (Pos.to_uint p) eqn:E; [done|..]; rewrite <- E; apply Split_space_digits.
Qed.

Lemma Itoa_zero z : Itoa z = "0" <-> z = 0.
Proof.
  split; [|by intros ->].
  intros H. apply DecimalZ.to_int_inj.
  change "0" with (NilZero.string_of_int (Z.to_int 0)) in H. unfold Itoa in H.
  assert (Hnil : forall x, Z.to_int x <> Decimal.Pos Decimal.Nil
                           /\ Z.to_int x <> Decimal.Neg Decimal.Nil).
  { intros [|p|p]; cbn; split; try discriminate;
      intros [= E]; by apply DecimalPos.Unsigned.to_uint_nonnil in E. }
  pose proof (NilZero.isi (Z.to_int z) (proj1 (Hnil z)) (proj2 (Hnil z))) as Hz.
  pose proof (NilZero.isi (Z.to_int 0) (proj1 (Hnil 0)) (proj2 (Hnil 0))) as H0.
  rewrite H in Hz. rewrite H0 in Hz. by injection Hz.
Qed.

Lemma update_tag_rows n :
  0 <= n -> Split_space ("UPDATE " +:+ Itoa n) !! 1%nat = Some (Itoa n).
Proof.
  intros Hn.
  change (Split_space ("UPDATE " +:+ Itoa n)) with ("UPDATE" :: Split_space (Itoa n)).
  by rewrite Itoa_nonneg_field.
Qed.

(** ** VerifyExchangeSymbol and GetExchangeSymbolAssetID *)

Lemma update_where_none {A} (p : A -> bool) (f : A -> A) (l : list A) :
  existsb p l = false -> update_where p f l = l.
Proof.
  unfold update_where. induction l as [|x l IH]; simpl; [reflexivity|].
  destruct (p x); simpl; [discriminate|]. intros H. by rewrite IH.
Qed.

Lemma VerifyExchangeSymbol_healthy rdb exchange symbol assetID id :
  faults (postgresClient rdb) = [] ->
  uuid_in assetID = Some id ->
  VerifyExchangeSymbol rdb exchange symbol assetID
  = Some (negb (count_where (es_key symbol exchange)
                  (exchangesymbolTable (tables (postgresClient rdb))) =? 0),
          None,
          with_pg rdb
            (sent (UpdateExchangeSymbol assetID symbol exchange)
               (mkTables (assetTable (tables (postgresClient rdb)))
                  (update_where (es_key symbol exchange) (es_verify id)
                     (exchangesymbolTable (tables (postgresClient rdb))))
                  (exchangepairTable (tables (postgresClient rdb))))
               (postgresClient rdb))).
Proof.
  intros Hf Hid. unfold VerifyExchangeSymbol, Exec.
  rewrite send_healthy by exact Hf. cbn [run]. rewrite Hid.
  rewrite update_tag_rows by apply count_where_nonneg.
  destruct (String.eqb_spec
              (Itoa (count_where (es_key symbol exchange)
                       (exchangesymbolTable (tables (postgresClient rdb))))) "0") as [E|E].
  - apply Itoa_zero in E. by rewrite E.
  - destruct (Z.eqb_spec (count_where (es_key symbol exchange)
                (exchangesymbolTable (tables (postgresClient rdb)))) 0) as [E0|_];
      [|reflexivity].
    exfalso. apply E. by rewrite E0.
Qed.

(** An identifier the engine cannot read as a uuid: the update is rejected,
    whether the pair has a row or not. *)
Lemma VerifyExchangeSymbol_invalid rdb exchange symbol assetID :
  faults (postgresClient rdb) = [] ->
  uuid_in assetID = None ->
  VerifyExchangeSymbol rdb exchange symbol assetID
  = Some (false, Some ErrInvalidUUID,
          with_pg rdb (sent (UpdateExchangeSymbol assetID symbol exchange)
                         (tables (postgresClient rdb)) (postgresClient rdb))).
Proof.
  intros Hf Hid. unfold VerifyExchangeSymbol, Exec.
  rewrite send_healthy by exact Hf. cbn [run]. by rewrite Hid.
Qed.

(** C4, as amended.  On a connection without failures and for an asset
    identifier that the engine reads as a uuid: for a pair with no row in
    table exchangesymbol, [VerifyExchangeSymbol] returns [(false, nil)] and
    leaves the tables as they are; for a pair with a row, verified before or
    not, and an identifier that names an asset of table asset, it returns
    [(true, nil)], and [GetExchangeSymbolAssetID] called next returns
    [verified = true], no error, and the identifier in the form the engine
    gives a uuid: lower case, hyphenated. *)
Theorem VerifyExchangeSymbol_reports (rdb : RelDB) (exchange symbol assetID id : string) :
  faults (postgresClient rdb) = [] ->
  uuid_in assetID = Some id ->
  let table := exchangesymbolTable (tables (postgresClient rdb)) in
  (~ es_present symbol exchange table ->
     exists rdb',
       VerifyExchangeSymbol rdb exchange symbol assetID = Some (false, None, rdb')
       /\ tables (postgresClient rdb') = tables (postgresClient rdb))
  /\ (es_present symbol exchange table ->
      names_asset id (assetTable (tables (postgresClient rdb))) ->
      exists rdb' rdb'',
        VerifyExchangeSymbol rdb exchange symbol assetID = Some (true, None, rdb')
        /\ GetExchangeSymbolAssetID rdb' exchange symbol = (id, true, None, rdb'')).
Proof.
  intros Hf Hid table. rewrite (VerifyExchangeSymbol_healthy _ _ _ _ id Hf Hid). fold table.
  split.
  - intros Hp. rewrite es_present_existsb in Hp. apply not_true_is_false in Hp.
    eexists. split.
    + by rewrite (existsb_false_count _ _ Hp).
    + cbn. fold table. rewrite (update_where_none _ _ _ Hp). subst table.
      by destruct (tables (postgresClient rdb)).
  - intros Hp _. rewrite es_present_existsb in Hp.
    pose proof (existsb_true_count _ _ Hp) as Hc.
    eexists. eexists. split.
    + destruct (Z.eqb_spec (count_where (es_key symbol exchange) table) 0); [lia|].
      reflexivity.
    + unfold GetExchangeSymbolAssetID, QueryRow.
      rewrite send_healthy by reflexivity. cbn [run tables with_pg postgresClient sent
        exchangesymbolTable].
      rewrite filter_update_where by reflexivity. fold table.
      unfold count_where in Hc.
      destruct (List.filter (es_key symbol exchange) table) as [|r rs]; [simpl in Hc; lia|].
      cbn. reflexivity.
Qed.

Lemma VerifyExchangeSymbol_reports_witness :
  (exists rdb',
     VerifyExchangeSymbol (store [row_dai] [mkExchangeSymbolRow "DAI" "Binance" false None] [])
       "Kraken" "DAI" "6B175474-E890-44C4-8DA9-8B954EEDEAC4" = Some (false, None, rdb'))
  /\ (exists rdb' rdb'',
        VerifyExchangeSymbol
          (store [row_dai] [mkExchangeSymbolRow "DAI" "Binance" false None] [])
          "Binance" "DAI" "6B175474-E890-44C4-8DA9-8B954EEDEAC4" = Some (true, None, rdb')
        /\ GetExchangeSymbolAssetID rdb' "Binance" "DAI"
           = ("6b175474-e890-44c4-8da9-8b954eedeac4", true, None, rdb'')).
Proof.
  split.
  - destruct (VerifyExchangeSymbol_reports
                (store [row_dai] [mkExchangeSymbolRow "DAI" "Binance" false None] [])
                "Kraken" "DAI" "6B175474-E890-44C4-8DA9-8B954EEDEAC4"
                "6b175474-e890-44c4-8da9-8b954eedeac4" eq_refl eq_refl)
      as [Habsent _].
    destruct Habsent as (rdb' & H & _).
    + intros (r & [<-|[]] & _ & E). discriminate E.
    + by exists rdb'.
  - destruct (VerifyExchangeSymbol_reports
                (store [row_dai] [mkExchangeSymbolRow "DAI" "Binance" false None] [])
                "Binance" "DAI" "6B175474-E890-44C4-8DA9-8B954EEDEAC4"
                "6b175474-e890-44c4-8da9-8b954eedeac4" eq_refl eq_refl)
      as [_ Hpresent].
    apply Hpresent.
    + eexists. split; [by left|]. by split.
    + exists row_dai. split; [by left|reflexivity].
Defined.

(** C4 as stated fails for identifiers in general.  A text that is not a
    uuid is rejected by the engine: the call returns [(false, err)] for a
    pair without a row, where the claim has [(false, nil)], and for a pair
    with a row, where it has [(true, nil)].  And a uuid supplied in upper
    case is read back in lower case, not as it was supplied. *)
Lemma VerifyExchangeSymbol_not_every_text :
  (fst (default (false, None, store [] [] [])
          (VerifyExchangeSymbol
             (store [row_dai] [mkExchangeSymbolRow "DAI" "Binance" false None] [])
             "Kraken" "DAI" "id-dai"))
   = (false, Some ErrInvalidUUID)
   /\ fst (default (true, None, store [] [] [])
             (VerifyExchangeSymbol
                (store [row_dai] [mkExchangeSymbolRow "DAI" "Binance" false None] [])
                "Binance" "DAI" "id-dai"))
      = (false, Some ErrInvalidUUID))
  /\ (exists rdb',
        VerifyExchangeSymbol
          (store [row_dai] [mkExchangeSymbolRow "DAI" "Binance" false None] [])
          "Binance" "DAI" "6B175474-E890-44C4-8DA9-8B954EEDEAC4" = Some (true, None, rdb')
        /\ fst (GetExchangeSymbolAssetID rdb' "Binance" "DAI")
           = ("6b175474-e890-44c4-8da9-8b954eedeac4", true, None)
        /\ "6b175474-e890-44c4-8da9-8b954eedeac4" <> "6B175474-E890-44C4-8DA9-8B954EEDEAC4").
Proof.
  split; [split; reflexivity|].
  eexists. split; [reflexivity|]. split; [reflexivity|discriminate].
Qed.

(** ** The client in general *)

Lemma send_issued q pg :
  issued (snd (send q pg)) = issued pg ++ [q].
Proof.
  unfold send. destruct (next_fault (faults pg)); [reflexivity|].
  destruct (run q (tables pg)) as [e|[[t rows] tag]]; reflexivity.
Qed.

Lemma run_read_only q t t' rows tag :
  read_only q = true -> run q t = inr (t', rows, tag) -> t' = t.
Proof.
  destruct q; try discriminate; intros _; cbn.
  - by intros [= <- _ _].
  - destruct conds; [discriminate|]. destruct (literals_ok _); [|discriminate].
    by intros [= <- _ _].
  - by intros [= <- _ _].
  - by intros [= <- _ _].
Qed.

Lemma send_read_only q pg :
  read_only q = true -> tables (snd (send q pg)) = tables pg.
Proof.
  intros Hq. unfold send. destruct (next_fault (faults pg)); [reflexivity|].
  destruct (run q (tables pg)) as [e|[[t rows] tag]] eqn:Hrun; [reflexivity|].
  cbn. by apply (run_read_only q _ _ rows tag).
Qed.

Lemma cell_is_text v s : cell_is (text_cell v) s = true <-> v = Some s.
Proof.
  destruct v as [x|]; cbn; [|by split].
  rewrite String.eqb_eq. split; congruence.
Qed.

Lemma asset_stored_filter address blockchain table :
  ~ asset_stored address blockchain table ->
  List.filter (asset_where [(col_address, address); (col_blockchain, blockchain)]) table = [].
Proof.
  intros Hno. rewrite filter_asset_where_2.
  induction table as [|r table IH]; [reflexivity|]. cbn [List.filter].
  destruct (cell_is (asset_cell col_address r) address
            && cell_is (asset_cell col_blockchain r) blockchain) eqn:E.
  - exfalso. apply Hno. exists r. apply andb_true_iff in E as [Ea Eb].
    cbn in Ea, Eb. apply cell_is_text in Ea, Eb. split; [by left|]. by split.
  - apply IH. intros (r' & Hin & H). apply Hno. exists r'. split; [by right|exact H].
Qed.

(** ** GetAssetID, GetKeyAsset and SetAssetCache *)

Lemma GetAssetID_unstored rdb asset :
  ~ asset_stored (Address asset) (Blockchain asset)
      (assetTable (tables (postgresClient rdb))) ->
  exists e rdb',
    GetAssetID rdb asset = ("", Some e, rdb')
    /\ redisClient rdb' = redisClient rdb
    /\ (faults (postgresClient rdb) = [] -> e = ErrNoRows).
Proof.
  intros Hno. unfold GetAssetID, QueryRow, send.
  destruct (faults (postgresClient rdb)) as [|[|] fs]; cbn [next_fault run].
  - unfold select_asset, limit_offset. rewrite asset_stored_filter by exact Hno.
    cbn. eexists. eexists. split; [reflexivity|]. by split.
  - eexists. eexists. split; [reflexivity|]. by split.
  - unfold select_asset, limit_offset. rewrite asset_stored_filter by exact Hno.
    cbn. eexists. eexists. split; [reflexivity|]. by split.
Qed.

(** C8.  For an asset whose (address, blockchain) has no row in table asset,
    the lookup of [GetAssetID] fails (with [ErrNoRows] when the connection
    does not), [GetKeyAsset] and [SetAssetCache] return that error, and the
    cache is left as it was: no command is sent to it. *)
Theorem SetAssetCache_unpersisted (keyAssetCache : string) (rdb : RelDB) (asset : Asset) :
  ~ asset_stored (Address asset) (Blockchain asset)
      (assetTable (tables (postgresClient rdb))) ->
  exists e rdb',
    GetKeyAsset keyAssetCache rdb asset = ("", Some e, rdb')
    /\ SetAssetCache keyAssetCache rdb asset = (Some e, rdb')
    /\ redisClient rdb' = redisClient rdb
    /\ (faults (postgresClient rdb) = [] -> e = ErrNoRows).
Proof.
  intros Hno. destruct (GetAssetID_unstored rdb asset Hno) as (e & rdb' & Hid & Hr & He).
  exists e, rdb'. unfold SetAssetCache, GetKeyAsset. rewrite Hid. by repeat split.
Qed.

Lemma SetAssetCache_unpersisted_witness :
  exists rdb',
    SetAssetCache "asset:" three_assets (mkAsset "DAI" "Dai" "0x6B17" 18 "Ethereum")
    = (Some ErrNoRows, rdb')
    /\ redisClient rdb' = no_redis.
Proof.
  destruct (SetAssetCache_unpersisted "asset:" three_assets
              (mkAsset "DAI" "Dai" "0x6B17" 18 "Ethereum")) as (e & rdb' & _ & H & Hr & He).
  - intros (r & Hin & Ha & _). cbn in Hin.
    destruct Hin as [<-|[<-|[<-|[]]]]; discriminate Ha.
  - exists rdb'. rewrite (He eq_refl) in H. by split.
Defined.

(** The cache is written only after the key was derived. *)
Lemma SetAssetCache_writes_with_key keyAssetCache rdb asset :
  redisClient (snd (SetAssetCache keyAssetCache rdb asset)) <> redisClient rdb ->
  exists ID rdb', GetAssetID rdb asset = (ID, None, rdb').
Proof.
  unfold SetAssetCache, GetKeyAsset, GetAssetID.
  destruct (QueryRow _ _) as [[vals [e|]] pg]; cbn; [congruence|].
  destruct vals as [|c [|]]; cbn; try congruence.
  destruct (assign_string c); cbn; [|congruence]. eauto.
Qed.

(** ** SetExchangePair *)

Lemma ep_key_spec foreignname exchange r :
  ep_key foreignname exchange r = true
  <-> ep_foreignname r = foreignname /\ ep_exchange r = exchange.
Proof.
  unfold ep_key. rewrite andb_true_iff, !String.eqb_eq. reflexivity.
Qed.

Lemma ep_set_foreignname what r : ep_foreignname (ep_set what r) = ep_foreignname r.
Proof. by destruct what. Qed.

Lemma ep_set_exchange what r : ep_exchange (ep_set what r) = ep_exchange r.
Proof. by destruct what. Qed.





Lemma GetAssetID_frame rdb asset :
  tables (postgresClient (snd (GetAssetID rdb asset))) = tables (postgresClient rdb)
  /\ redisClient (snd (GetAssetID rdb asset)) = redisClient rdb.
Proof.
  unfold GetAssetID, QueryRow.
  pose proof (send_read_only
    (SelectAsset [col_asset_id]
       [(col_address, Address asset); (col_blockchain, Blockchain asset)] None)
    (postgresClient rdb) eq_refl) as Ht.
  destruct (send _ _) as [[[err rows] tag] pg]. cbn in Ht.
  destruct err; [by split|]. destruct rows as [|vals rows]; [by split|].
  destruct vals as [|c [|]]; [by split| |by split].
  destruct (assign_string c); by split.
Qed.




(** ** GetAssetByID and GetExchangePair *)

Lemma GetAssetByID_linked rdb id a :
  faults (postgresClient rdb) = [] ->
  asset_of_id (assetTable (tables (postgresClient rdb))) id = Some a ->
  GetAssetByID rdb id
  = (a, None,
     with_pg rdb (sent (SelectAsset asset_columns [(col_asset_id, id)] None)
                    (tables (postgresClient rdb)) (postgresClient rdb))).
Proof.
  intros Hf Ha. unfold GetAssetByID, QueryRow.
  rewrite send_healthy by exact Hf. cbn [run]. unfold select_asset, limit_offset.
  unfold asset_of_id in Ha.
  destruct (List.filter _ _) as [|r rs]; [discriminate|].
  unfold row_asset in Ha.
  destruct r as [rid [s|] [n|] [ad|] [d|] [b|]]; cbn in Ha; try discriminate.
  cbn. destruct (Atoi d) as [v [e|]]; [discriminate|]. by injection Ha as <-.
Qed.

(** C7.  On a connection without failures, for the pair stored under
    (exchange, foreignname) and when each link that is not NULL has an asset,
    [GetExchangePair] returns without error the pair with its symbol and
    verified flag, where a NULL link gives the zero-value asset and any other
    link the asset of its identifier; the statements sent are the one that
    reads the pair and one lookup by identifier for each link that is not
    NULL, none for a NULL link. *)
Theorem GetExchangePair_links (rdb : RelDB) (exchange foreignname : string)
    (r : ExchangePairRow) (rest : list ExchangePairRow) (quote base : Asset) :
  faults (postgresClient rdb) = [] ->
  List.filter (ep_key foreignname exchange) (exchangepairTable (tables (postgresClient rdb)))
  = r :: rest ->
  linked_asset (assetTable (tables (postgresClient rdb))) (ep_id_quotetoken r) = Some quote ->
  linked_asset (assetTable (tables (postgresClient rdb))) (ep_id_basetoken r) = Some base ->
  exists rdb',
    GetExchangePair rdb exchange foreignname
    = (mkExchangePair (ep_symbol r) foreignname exchange (ep_verified r) (mkPair quote base),
       None, rdb')
    /\ issued (postgresClient rdb')
       = issued (postgresClient rdb) ++ [SelectExchangePair exchange foreignname]
         ++ lookup_of (ep_id_quotetoken r) ++ lookup_of (ep_id_basetoken r)
    /\ (ep_id_quotetoken r = None -> quote = Asset_zero)
    /\ (ep_id_basetoken r = None -> base = Asset_zero).
Proof.
  intros Hf Hrow Hq Hb. unfold GetExchangePair, QueryRow.
  rewrite send_healthy by exact Hf. cbn [run]. rewrite Hrow. cbn [List.map].
  destruct r as [sym fn ex ver [qid|] [bid|]]; cbn in Hq, Hb |- *.
  - rewrite (GetAssetByID_linked _ qid quote) by (reflexivity || exact Hq).
    rewrite (GetAssetByID_linked _ bid base) by (reflexivity || exact Hb).
    eexists. split; [reflexivity|]. cbn. rewrite <- !app_assoc. by repeat split.
  - rewrite (GetAssetByID_linked _ qid quote) by (reflexivity || exact Hq).
    injection Hb as <-.
    eexists. split; [reflexivity|]. cbn. rewrite <- !app_assoc. by repeat split.
  - rewrite (GetAssetByID_linked _ bid base) by (reflexivity || exact Hb).
    injection Hq as <-.
    eexists. split; [reflexivity|]. cbn. rewrite <- !app_assoc. by repeat split.
  - injection Hq as <-. injection Hb as <-.
    eexists. split; [reflexivity|]. cbn. by repeat split.
Qed.

Lemma GetExchangePair_links_witness :
  let rdb := store [row_wbtc; row_usdc]
               [] [mkExchangePairRow "WBTC" "WBTC-USDC" "Uniswap" true None (Some "id-wbtc")] in
  exists rdb',
    GetExchangePair rdb "Uniswap" "WBTC-USDC"
    = (mkExchangePair "WBTC" "WBTC-USDC" "Uniswap" true (mkPair Asset_zero wbtc), None, rdb')
    /\ issued (postgresClient rdb')
       = [SelectExchangePair "Uniswap" "WBTC-USDC";
          SelectAsset asset_columns [(col_asset_id, "id-wbtc")] None].
Proof.
  intros rdb.
  destruct (GetExchangePair_links rdb "Uniswap" "WBTC-USDC"
              (mkExchangePairRow "WBTC" "WBTC-USDC" "Uniswap" true None (Some "id-wbtc"))
              [] Asset_zero wbtc eq_refl eq_refl eq_refl eq_refl)
    as (rdb' & Hcall & Hissued & _).
  exists rdb'. split; [exact Hcall | exact Hissued].
Defined.

(** When a link that is not NULL has no asset, the lookup fails and
    [GetExchangePair] returns its error with the zero-value pair. *)
Lemma GetAssetByID_unlinked rdb id :
  faults (postgresClient rdb) = [] ->
  asset_of_id (assetTable (tables (postgresClient rdb))) id = None ->
  exists asset e,
    GetAssetByID rdb id
    = (asset, Some e,
       with_pg rdb (sent (SelectAsset asset_columns [(col_asset_id, id)] None)
                      (tables (postgresClient rdb)) (postgresClient rdb))).
Proof.
  intros Hf Ha. unfold GetAssetByID, QueryRow.
  rewrite send_healthy by exact Hf. cbn [run]. unfold select_asset, limit_offset.
  unfold asset_of_id in Ha.
  destruct (List.filter _ _) as [|r rs]; [by eexists; eexists|].
  unfold row_asset in Ha.
  destruct r as [rid [s|] [n|] [ad|] [d|] [b|]]; cbn in Ha |- *;
    try (by eexists; eexists).
  destruct (Atoi d) as [v [e|]]; [by eexists; eexists|discriminate].
Qed.

Lemma GetExchangePair_unlinked rdb exchange foreignname r rest :
  faults (postgresClient rdb) = [] ->
  List.filter (ep_key foreignname exchange) (exchangepairTable (tables (postgresClient rdb)))
  = r :: rest ->
  linked_asset (assetTable (tables (postgresClient rdb))) (ep_id_quotetoken r) = None
  \/ linked_asset (assetTable (tables (postgresClient rdb))) (ep_id_basetoken r) = None ->
  exists e rdb', GetExchangePair rdb exchange foreignname = (ExchangePair_zero, Some e, rdb').
Proof.
  intros Hf Hrow Hlink. unfold GetExchangePair, QueryRow.
  rewrite send_healthy by exact Hf. cbn [run]. rewrite Hrow. cbn [List.map].
  destruct r as [sym fn ex ver [qid|] [bid|]]; cbn in Hlink |- *.
  - destruct (asset_of_id (assetTable (tables (postgresClient rdb))) qid) as [q|] eqn:Hq.
    + destruct Hlink as [?|Hb]; [discriminate|].
      rewrite (GetAssetByID_linked _ qid q) by (reflexivity || exact Hq).
      match goal with
      | |- context [GetAssetByID ?r bid] =>
          destruct (GetAssetByID_unlinked r bid eq_refl Hb) as (a & e & ->)
      end.
      by eexists; eexists.
    + match goal with
      | |- context [GetAssetByID ?r qid] =>
          destruct (GetAssetByID_unlinked r qid eq_refl Hq) as (a & e & ->)
      end.
      by eexists; eexists.
  - destruct Hlink as [Hq|?]; [|discriminate].
    match goal with
    | |- context [GetAssetByID ?r qid] =>
        destruct (GetAssetByID_unlinked r qid eq_refl Hq) as (a & e & ->)
    end.
    by eexists; eexists.
  - destruct Hlink as [?|Hb]; [discriminate|].
    match goal with
    | |- context [GetAssetByID ?r bid] =>
        destruct (GetAssetByID_unlinked r bid eq_refl Hb) as (a & e & ->)
    end.
    by eexists; eexists.
  - destruct Hlink; discriminate.
Qed.

(** ** GetAllAssets *)

Lemma GetAllAssets_body_blockchain blockchain asset decimals assets :
  Forall (fun a => Blockchain a = blockchain) assets ->
  Forall (fun a => Blockchain a = blockchain)
    (GetAllAssets_body blockchain asset decimals assets).
Proof.
  intros H. unfold GetAllAssets_body. destruct (Atoi decimals) as [v [e|]]; [exact H|].
  apply Forall_app. split; [exact H|]. by constructor.
Qed.

Lemma GetAllAssets_rows_blockchain blockchain rows decimals assets :
  Forall (fun a => Blockchain a = blockchain) assets ->
  Forall (fun a => Blockchain a = blockchain)
    (GetAllAssets_rows blockchain rows decimals assets).
Proof.
  revert decimals assets. induction rows as [|vals rows IH]; intros decimals assets H.
  - exact H.
  - cbn [GetAllAssets_rows].
    destruct (Scan_asset4 vals Asset_zero decimals) as [[asset decimals'] [e|]].
    + by apply GetAllAssets_body_blockchain.
    + apply IH. by apply GetAllAssets_body_blockchain.
Qed.

(** [Scan] on a row that scans, and on one that does not: there the columns
    before the NULL are assigned and [decimals] keeps what it held. *)
Lemma Scan_asset4_scans r decimals :
  row_scans r ->
  exists s n a d,
    asset_symbol r = Some s /\ asset_name r = Some n /\ asset_address r = Some a
    /\ asset_decimals r = Some d
    /\ Scan_asset4 (project [col_symbol; col_name; col_address; col_decimals] r)
         Asset_zero decimals
       = (mkAsset s n a 0 "", d, None).
Proof.
  intros ([s Hs] & [n Hn] & [a Ha] & [d Hd]). exists s, n, a, d.
  destruct r as [id s' n' a' d' b']. cbn in Hs, Hn, Ha, Hd. subst. by repeat split.
Qed.

Lemma Scan_asset4_fails r decimals :
  ~ row_scans r ->
  exists e,
    Scan_asset4 (project [col_symbol; col_name; col_address; col_decimals] r)
      Asset_zero decimals
    = (scanned_part r, decimals, Some e).
Proof.
  intros Hno. destruct r as [id [s|] [n|] [a|] [d|] b]; cbn; try by eexists.
  exfalso. apply Hno. by repeat split.
Qed.

Lemma row_scans_dec r : {row_scans r} + {~ row_scans r}.
Proof.
  destruct r as [id [s|] [n|] [a|] [d|] b];
    try (left; by repeat split);
    right; intros (Hs & Hn & Ha & Hd); cbn in *;
    by (apply is_Some_None in Hs || apply is_Some_None in Hn
        || apply is_Some_None in Ha || apply is_Some_None in Hd).
Qed.

Lemma GetAllAssets_rows_read blockchain rs :
  forall decimals assets,
  exists k,
    Forall row_scans (take k rs)
    /\ match rs !! k with
       | None =>
           GetAllAssets_rows blockchain
             (List.map (project [col_symbol; col_name; col_address; col_decimals]) rs)
             decimals assets
           = assets ++ omap (chain_asset blockchain) rs
       | Some r =>
           ~ row_scans r
           /\ GetAllAssets_rows blockchain
                (List.map (project [col_symbol; col_name; col_address; col_decimals]) rs)
                decimals assets
              = assets ++ omap (chain_asset blockchain) (take k rs)
                ++ half_read blockchain (decimals_after decimals (take k rs)) r
       end.
Proof.
  induction rs as [|r rs IH]; intros decimals assets.
  - exists 0%nat. split; [constructor|]. cbn. by rewrite app_nil_r.
  - destruct (row_scans_dec r) as [Hr|Hr].
    + destruct (Scan_asset4_scans r decimals Hr) as (s & n & a & d & Hs & Hn & Ha & Hd & E).
      destruct (IH d (GetAllAssets_body blockchain (mkAsset s n a 0 "") d assets))
        as (k & Hk & Hrest).
      exists (S k). cbn [take lookup list_lookup]. split; [by constructor|].
      cbn [List.map GetAllAssets_rows]. rewrite E.
      assert (Hbody : GetAllAssets_body blockchain (mkAsset s n a 0 "") d assets
                      = assets ++ omap (chain_asset blockchain) [r]).
      { unfold GetAllAssets_body. cbn. unfold chain_asset. rewrite Hs, Hn, Ha, Hd.
        destruct (Atoi d) as [v [e|]]; [by rewrite app_nil_r|reflexivity]. }
      assert (Hd' : decimals_after decimals (r :: take k rs) = decimals_after d (take k rs))
        by (unfold decimals_after; cbn; by rewrite Hd).
      change (r :: rs) with ([r] ++ rs).
      change (r :: take k rs) with ([r] ++ take k rs) at 1.
      destruct (rs !! k) as [r'|].
      * destruct Hrest as [Hr' Hrest]. split; [exact Hr'|].
        rewrite Hrest, Hbody, Hd'. rewrite omap_app. by rewrite <- !app_assoc.
      * rewrite Hrest, Hbody. rewrite omap_app. by rewrite <- app_assoc.
    + exists 0%nat. split; [constructor|]. cbn [lookup list_lookup take].
      split; [exact Hr|]. cbn [List.map GetAllAssets_rows].
      destruct (Scan_asset4_fails r decimals Hr) as (e & ->).
      unfold GetAllAssets_body, half_read, decimals_after. cbn.
      destruct (Atoi decimals) as [v [e'|]]; [by rewrite app_nil_r|reflexivity].
Qed.

(** C10.  What [GetAllAssets] does with rows it cannot use, when its query
    goes through.  It returns a nil error in every case, and every asset it
    returns has the argument as its blockchain.  A row whose decimals are
    not an integer is left out and the rows after it are read.  A row that
    does not scan is logged, and it is the last one read: the assets
    returned are those of the rows before it whose decimals are an integer
    and, when the decimals the loop still holds from the row before are
    an integer, one more asset made of the columns that were scanned and of
    those decimals; the rows after it are not returned. *)
Theorem GetAllAssets_drops_rows (rdb : RelDB) (blockchain : string) :
  faults (postgresClient rdb) = [] ->
  let rows := List.filter (on_chain blockchain) (assetTable (tables (postgresClient rdb))) in
  let '(assets, err, _) := GetAllAssets rdb blockchain in
  err = None
  /\ Forall (fun a => Blockchain a = blockchain) assets
  /\ exists k,
       Forall row_scans (take k rows)
       /\ match rows !! k with
          | None => assets = omap (chain_asset blockchain) rows
          | Some r =>
              ~ row_scans r
              /\ assets = omap (chain_asset blockchain) (take k rows)
                          ++ half_read blockchain (decimals_after "" (take k rows)) r
          end.
Proof.
  intros Hf rows. unfold GetAllAssets.
  rewrite Query_select_healthy by exact Hf. cbn [pending].
  split; [reflexivity|]. split; [by apply GetAllAssets_rows_blockchain|].
  unfold select_asset, limit_offset. rewrite filter_asset_where_1.
  change (List.filter _ (assetTable (tables (postgresClient rdb)))) with rows.
  destruct (GetAllAssets_rows_read blockchain rows "" []) as (k & Hk & Hrows).
  exists k. split; [exact Hk|].
  destruct (rows !! k) as [r|]; [|exact Hrows].
  destruct Hrows as [Hr Hrows]. split; [exact Hr|exact Hrows].
Qed.

Lemma GetAllAssets_drops_rows_witness :
  fst (GetAllAssets (store [row_wbtc; row_bad_decimals; row_btc; row_usdc] [] []) "Ethereum")
  = ([wbtc; usdc], None)
  /\ fst (GetAllAssets (store [row_wbtc; row_null_decimals; row_usdc] [] []) "Ethereum")
     = ([wbtc; mkAsset "NOD" "No decimals" "0x0D" 8 "Ethereum"], None).
Proof.
  split.
  - pose proof (GetAllAssets_drops_rows
                  (store [row_wbtc; row_bad_decimals; row_btc; row_usdc] [] []) "Ethereum"
                  eq_refl) as H.
    cbv zeta in H. destruct (GetAllAssets _ _) as [[assets err] rdb'].
    destruct H as (He & _ & k & Hk & H). rewrite He.
    destruct k as [|[|[|[|k]]]]; cbn in H.
    + destruct H as [H _]. exfalso. apply H. vm_compute. repeat split; by eexists.
    + destruct H as [H _]. exfalso. apply H. vm_compute. repeat split; by eexists.
    + destruct H as [H _]. exfalso. apply H. vm_compute. repeat split; by eexists.
    + by rewrite H.
    + by rewrite H.
  - pose proof (GetAllAssets_drops_rows
                  (store [row_wbtc; row_null_decimals; row_usdc] [] []) "Ethereum"
                  eq_refl) as H.
    cbv zeta in H. destruct (GetAllAssets _ _) as [[assets err] rdb'].
    destruct H as (He & _ & k & Hk & H). rewrite He.
    destruct k as [|[|k]]; cbn in H, Hk.
    + destruct H as [H _]. exfalso. apply H. vm_compute. repeat split; by eexists.
    + destruct H as [_ H]. by rewrite H.
    + exfalso. apply Forall_cons in Hk as [_ Hk]. apply Forall_cons in Hk as [Hk _].
      destruct Hk as (_ & _ & _ & Hd). by apply is_Some_None in Hd.
Defined.

(** C10 as stated fails: after a row that does not scan the call does not
    return the remaining assets.  Here the second of three rows has no
    decimals: the call returns nil, the first asset, an asset with the
    symbol, name and address of the second row and the decimals of the
    first, and not the third asset. *)
Lemma GetAllAssets_loses_rows :
  fst (GetAllAssets (store [row_wbtc; row_null_decimals; row_usdc] [] []) "Ethereum")
  = ([wbtc; mkAsset "NOD" "No decimals" "0x0D" 8 "Ethereum"], None)
  /\ omap (chain_asset "Ethereum") [row_wbtc; row_null_decimals; row_usdc] = [wbtc; usdc].
Proof. split; reflexivity. Qed.

(** A row with another NULL: the columns after it stay at their zero
    value. *)
Example GetAllAssets_scan_error_logged :
  fst (GetAllAssets (store [row_wbtc; row_null_name; row_usdc] [] []) "Ethereum")
  = ([wbtc; mkAsset "NUL" "" "" 8 "Ethereum"], None).
Proof. reflexivity. Qed.

(** ** GetAssetsWithVOLInflux *)

Lemma first_seen_elem_of {A} `{EqDecision A} (earlier l : list A) (x : A) :
  x ∈ first_seen earlier l <-> x ∈ l /\ x ∉ earlier.
Proof.
  revert earlier. induction l as [|y l IH]; intros earlier; cbn.
  - rewrite elem_of_nil. tauto.
  - destruct (decide (y ∈ earlier)) as [Hy|Hy].
    + rewrite IH, elem_of_cons. split; [tauto|].
      intros [[->|Hx] Hn]; [contradiction|tauto].
    + rewrite !elem_of_cons, IH, not_elem_of_cons.
      destruct (decide (x = y)) as [->|Hxy]; tauto.
Qed.

Lemma first_seen_NoDup {A} `{EqDecision A} (earlier l : list A) :
  NoDup (first_seen earlier l).
Proof.
  revert earlier. induction l as [|y l IH]; intros earlier; cbn.
  - constructor.
  - destruct (decide (y ∈ earlier)); [apply IH|].
    constructor; [|apply IH]. rewrite first_seen_elem_of, not_elem_of_cons. tauto.
Qed.

Lemma GetAssetsWithVOLInflux_values_first_seen vals :
  forall asset (uniqueMap : gset Asset) (seen quotedAssets : list Asset),
  Symbol asset = "" -> Name asset = "" -> Decimals asset = 0 ->
  (forall x, x ∈ uniqueMap <-> x ∈ seen) ->
  Forall (fun val => value_row_ok val = true) vals ->
  GetAssetsWithVOLInflux_values vals asset uniqueMap quotedAssets
  = Some (quotedAssets ++ first_seen seen (omap quoted_pair vals)).
Proof.
  induction vals as [|val vals IH]; intros asset uniqueMap seen quotedAssets Hs Hn Hd Hu Hok.
  - cbn. by rewrite app_nil_r.
  - apply Forall_cons in Hok as [Hval Hok].
    cbn [GetAssetsWithVOLInflux_values omap list_omap].
    unfold value_row_ok in Hval. unfold quoted_pair.
    destruct (val !! 1%nat) as [v1|]; [|discriminate].
    destruct (val !! 2%nat) as [v2|]; [|discriminate].
    destruct v1 as [|address|]; [by apply IH| |discriminate].
    destruct v2 as [|blockchain|]; [by apply IH| |discriminate].
    assert (Ha : set_Blockchain blockchain (set_Address address asset)
                 = mkAsset "" "" address 0 blockchain).
    { destruct asset; cbn in *. by subst. }
    rewrite Ha. cbn [first_seen].
    destruct (decide (mkAsset "" "" address 0 blockchain ∈ uniqueMap)) as [Hin|Hin];
      destruct (decide (mkAsset "" "" address 0 blockchain ∈ seen)) as [Hin'|Hin'];
      try (exfalso; apply Hu in Hin; done); try (exfalso; apply Hu in Hin'; done).
    + by apply IH.
    + rewrite (IH _ _ (mkAsset "" "" address 0 blockchain :: seen)); try done.
      * by rewrite <- app_assoc.
      * intros x. rewrite elem_of_union, elem_of_singleton, elem_of_cons, Hu. tauto.
Qed.

(** C6.  When the query itself succeeds: if the answer has no result, no
    series, or a first series without values, [GetAssetsWithVOLInflux]
    returns the error "no recent volume data" and no asset; otherwise, the
    rows being of the form the store gives them, it returns without error
    the (address, blockchain) pairs of the rows that have both, each once, in
    the order in which they are first seen. *)
Theorem GetAssetsWithVOLInflux_result (datastore : DB) (timeInit : Z) (res : list Result) :
  influxClient datastore timeInit = (res, None) ->
  (volume_values res = [] ->
     exists e, GetAssetsWithVOLInflux datastore timeInit = Some ([], Some e)
               /\ NoRecentVolumeData e)
  /\ (volume_values res <> [] ->
      Forall (fun val => value_row_ok val = true) (volume_values res) ->
      exists assets,
        GetAssetsWithVOLInflux datastore timeInit = Some (assets, None)
        /\ assets = first_seen [] (omap quoted_pair (volume_values res))
        /\ NoDup assets
        /\ (forall a, a ∈ assets <-> a ∈ omap quoted_pair (volume_values res))).
Proof.
  intros Hq. unfold GetAssetsWithVOLInflux, volume_values. rewrite Hq.
  destruct res as [|result rest].
  { split; [|done]. intros _. eexists. split; [reflexivity|]. by left. }
  destruct (Series result) as [|series rest'].
  { split; [|done]. intros _. eexists. split; [reflexivity|]. by left. }
  destruct (Values series) as [|val vals] eqn:Hv.
  { split; [|done]. intros _. eexists. split; [reflexivity|]. by right. }
  split; [done|]. intros _ Hok.
  rewrite (GetAssetsWithVOLInflux_values_first_seen _ _ _ [] []);
    [|reflexivity..| |exact Hok].
  - cbn [app]. eexists. split; [reflexivity|]. split; [reflexivity|]. split.
    + apply first_seen_NoDup.
    + intros a. rewrite first_seen_elem_of, elem_of_nil. tauto.
  - intros x. rewrite elem_of_empty, elem_of_nil. tauto.
Qed.

Lemma GetAssetsWithVOLInflux_result_witness :
  GetAssetsWithVOLInflux sample_volumes 0
  = Some ([mkAsset "" "" "0xA" 0 "Ethereum"; mkAsset "" "" "0xB" 0 "Ethereum"], None)
  /\ (exists e, GetAssetsWithVOLInflux no_volumes 0 = Some ([], Some e)
                /\ NoRecentVolumeData e).
Proof.
  split.
  - destruct (GetAssetsWithVOLInflux_result sample_volumes 0 _ eq_refl) as [_ H].
    destruct H as (assets & Hcall & Hassets & _).
    + discriminate.
    + repeat constructor.
    + rewrite Hcall, Hassets. reflexivity.
  - destruct (GetAssetsWithVOLInflux_result no_volumes 0 _ eq_refl) as [H _].
    apply H. reflexivity.
Defined.

(** ** GetPage *)

Lemma Query_RawValues q pg : RawValues (fst (fst (Query q pg))) = [].
Proof.
  unfold Query. destruct (send q pg) as [[[err rows] tag] pg']. reflexivity.
Qed.

Lemma Query_issued q pg : issued (snd (Query q pg)) = issued pg ++ [q].
Proof.
  pose proof (send_issued q pg) as H. unfold Query.
  by destruct (send q pg) as [[[err rows] tag] pg'].
Qed.

(** Whatever the store holds and whatever page is asked for, [GetPage]
    answers [hasNextPage = false]: the cursor of the second query is asked
    for its current row before any row was fetched. *)
Lemma GetPage_hasNextPage_false assign_uint8 rdb pageNumber :
  snd (fst (fst (GetPage assign_uint8 rdb pageNumber))) = false.
Proof.
  unfold GetPage.
  destruct (Query (GetPage_query _ _) (postgresClient rdb)) as [[rows [e|]] pg];
    [reflexivity|].
  destruct (GetPage_rows _ _ _ _) as [[assets [e|]] rows']; [reflexivity|].
  destruct (_ <? _); [reflexivity|].
  pose proof (Query_RawValues
    (GetPage_query (pagesize rdb) (uint32 (uint32 (pagesize rdb * pageNumber) + 1)))
    (postgresClient (with_pg rdb pg))) as Hraw.
  destruct (Query _ (postgresClient (with_pg rdb pg))) as [[nextPageRows err] pg'].
  cbn in Hraw. rewrite Hraw. reflexivity.
Qed.

(** The statements of a call: the query for the page, and at most one more,
    at offset + 1. *)
Lemma GetPage_issued assign_uint8 rdb pageNumber :
  let skip := uint32 (pagesize rdb * pageNumber) in
  let after := issued (postgresClient (snd (GetPage assign_uint8 rdb pageNumber))) in
  after = issued (postgresClient rdb) ++ [GetPage_query (pagesize rdb) skip]
  \/ after = issued (postgresClient rdb)
             ++ [GetPage_query (pagesize rdb) skip;
                 GetPage_query (pagesize rdb) (uint32 (skip + 1))].
Proof.
  intros skip after. subst skip after. unfold GetPage.
  pose proof (Query_issued
                (GetPage_query (pagesize rdb) (uint32 (pagesize rdb * pageNumber)))
                (postgresClient rdb)) as H1.
  destruct (Query (GetPage_query _ _) (postgresClient rdb)) as [[rows [e|]] pg];
    cbn [snd] in H1; [by left|].
  destruct (GetPage_rows _ _ _ _) as [[assets [e|]] rows']; [by left|].
  destruct (_ <? _); [by left|].
  pose proof (Query_issued
                (GetPage_query (pagesize rdb)
                   (uint32 (uint32 (pagesize rdb * pageNumber) + 1)))
                (postgresClient (with_pg rdb pg))) as H2.
  destruct (Query _ (postgresClient (with_pg rdb pg))) as [[nextPageRows err] pg'].
  cbn [snd] in H2. right.
  destruct (Nat.eqb _ _); cbn; rewrite H2; cbn; rewrite H1; by rewrite <- app_assoc.
Qed.

(** C2.  [GetPage] sends the query for the page and at most one more, at
    offset + 1.  But it answers [hasNextPage = false] in every case:
    whatever the store holds, whatever page is asked for and whatever the
    driver makes of column decimals.  So it does for the first page of a
    store of three assets read in pages of two, where the page after it
    holds an asset. *)
Theorem GetPage_misses_next_page (assign_uint8 : cell -> option Z) :
  (forall (rdb : RelDB) (pageNumber : Z),
     let '(_, hasNextPage, _, rdb') := GetPage assign_uint8 rdb pageNumber in
     let skip := uint32 (pagesize rdb * pageNumber) in
     hasNextPage = false
     /\ (issued (postgresClient rdb')
         = issued (postgresClient rdb) ++ [GetPage_query (pagesize rdb) skip]
         \/ issued (postgresClient rdb')
            = issued (postgresClient rdb)
              ++ [GetPage_query (pagesize rdb) skip;
                  GetPage_query (pagesize rdb) (uint32 (skip + 1))]))
  /\ pagesize three_assets = 2
  /\ next_page three_assets 0 = [project asset_columns row_btc].
Proof.
  split; [|split; reflexivity].
  intros rdb pageNumber.
  pose proof (GetPage_hasNextPage_false assign_uint8 rdb pageNumber) as Hfalse.
  pose proof (GetPage_issued assign_uint8 rdb pageNumber) as Hissued.
  destruct (GetPage assign_uint8 rdb pageNumber) as [[[assets hasNextPage] err] rdb'].
  cbn in Hfalse, Hissued. by split.
Qed.

(** With the driver's conversion the call on that store does not get as far
    as the second query: the first row does not scan. *)
Example GetPage_three_assets :
  let '(assets, hasNextPage, err, rdb') := GetPage pgx_uint8 three_assets 0 in
  assets = [] /\ hasNextPage = false /\ err = Some (ScanArgError 3)
  /\ issued (postgresClient rdb') = [GetPage_query 2 0].
Proof. vm_compute. repeat split. Qed.

(** ** The cursor *)

Lemma Next_fetches vals rest values :
  Next (mkRows (vals :: rest) values false) = (true, mkRows rest vals false).
Proof. reflexivity. Qed.

Lemma Next_at_end values :
  Next (mkRows [] values false) = (false, mkRows [] values true).
Proof. reflexivity. Qed.

Lemma Next_closed pending values :
  Next (mkRows pending values true) = (false, mkRows pending values true).
Proof. reflexivity. Qed.

(** ** The library functions on small inputs *)

Example Atoi_digits : Atoi "18" = (18, None).
Proof. reflexivity. Qed.

Example Atoi_signed : Atoi "-7" = (-7, None) /\ Atoi "+7" = (7, None).
Proof. split; reflexivity. Qed.

Example Atoi_rejects :
  snd (Atoi "") = Some (NumError "Atoi" "" ErrSyntax)
  /\ snd (Atoi "n/a") = Some (NumError "Atoi" "n/a" ErrSyntax)
  /\ snd (Atoi "-") = Some (NumError "Atoi" "-" ErrSyntax)
  /\ snd (Atoi "9223372036854775808")
     = Some (NumError "Atoi" "9223372036854775808" ErrRange).
Proof. repeat split. Qed.

Example uint8_wraps : uint8 264 = 8 /\ uint8 (-1) = 255.
Proof. split; reflexivity. Qed.

Example Itoa_prints : Itoa 0 = "0" /\ Itoa 18 = "18" /\ Itoa 255 = "255".
Proof. repeat split. Qed.

Example Split_space_tag : Split_space "UPDATE 12" = ["UPDATE"; "12"].
Proof. reflexivity. Qed.

Example Split_space_empty : Split_space "" = [""].
Proof. reflexivity. Qed.

(** * Further properties *)

(** ** Decimals as text *)

Lemma Atoi_Itoa_uint8 d : 0 <= d < 256 -> Atoi (Itoa d) = (d, None).
Proof.
  intros Hd.
  assert (Hall : forallb (fun n => match Atoi (Itoa n) with
                                   | (v, None) => v =? n
                                   | (_, Some _) => false
                                   end) (seqZ 0 256) = true) by (vm_compute; reflexivity).
  rewrite forallb_forall in Hall.
  specialize (Hall d). destruct (Atoi (Itoa d)) as [v [e|]].
  - discriminate Hall. apply list_elem_of_In, elem_of_seqZ. lia.
  - f_equal. apply Z.eqb_eq, Hall. apply list_elem_of_In, elem_of_seqZ. lia.
Qed.

Lemma row_asset_SetAsset_row id asset :
  0 <= Decimals asset < 256 -> row_asset (SetAsset_row id asset) = Some asset.
Proof.
  intros Hd. unfold row_asset, SetAsset_row. cbn.
  rewrite (Atoi_Itoa_uint8 _ Hd). unfold uint8. rewrite Z.mod_small by lia.
  by destruct asset.
Qed.

(** ** GetAsset *)

Lemma GetAsset_miss assetCache rdb address blockchain r rest a :
  assetCache !! GetAsset_key address blockchain = None ->
  faults (postgresClient rdb) = [] ->
  List.filter (asset_where [(col_address, address); (col_blockchain, blockchain)])
    (assetTable (tables (postgresClient rdb))) = r :: rest ->
  row_asset r = Some a ->
  GetAsset assetCache rdb address blockchain
  = (a, None,
     with_pg rdb (sent (SelectAsset asset_columns
                          [(col_address, address); (col_blockchain, blockchain)] None)
                    (tables (postgresClient rdb)) (postgresClient rdb)),
     <[GetAsset_key address blockchain := a]> assetCache).
Proof.
  intros Hmiss Hf Hrow Ha. unfold GetAsset, QueryRow. rewrite Hmiss.
  rewrite send_healthy by exact Hf. cbn [run]. unfold select_asset, limit_offset.
  rewrite Hrow. unfold row_asset in Ha.
  destruct r as [rid [s|] [n|] [ad|] [d|] [b|]]; cbn in Ha; try discriminate.
  cbn. destruct (Atoi d) as [v [e|]]; [discriminate|]. by injection Ha as <-.
Qed.

Lemma GetAsset_hit assetCache rdb address blockchain a :
  assetCache !! GetAsset_key address blockchain = Some a ->
  GetAsset assetCache rdb address blockchain = (a, None, rdb, assetCache).
Proof. intros H. unfold GetAsset. by rewrite H. Qed.

(** X1.  Read-through.  On a miss, a connection without failures and a first
    row for (address, blockchain) that holds an asset, [GetAsset] sends one
    statement, returns that asset and enters it in the table of the package;
    from then on the same call returns the asset from there, with no
    statement, whatever the store holds or does by then. *)
Theorem GetAsset_read_through (assetCache : gmap string Asset) (rdb : RelDB)
    (address blockchain : string) (r : AssetRow) (rest : list AssetRow) (a : Asset) :
  assetCache !! GetAsset_key address blockchain = None ->
  faults (postgresClient rdb) = [] ->
  List.filter (asset_where [(col_address, address); (col_blockchain, blockchain)])
    (assetTable (tables (postgresClient rdb))) = r :: rest ->
  row_asset r = Some a ->
  exists rdb' assetCache',
    GetAsset assetCache rdb address blockchain = (a, None, rdb', assetCache')
    /\ issued (postgresClient rdb')
       = issued (postgresClient rdb)
         ++ [SelectAsset asset_columns
               [(col_address, address); (col_blockchain, blockchain)] None]
    /\ forall later : RelDB,
         GetAsset assetCache' later address blockchain = (a, None, later, assetCache').
Proof.
  intros Hmiss Hf Hrow Ha. eexists. eexists.
  split; [by apply (GetAsset_miss _ _ _ _ r rest a)|]. split; [reflexivity|].
  intros later. apply GetAsset_hit. apply lookup_insert_eq.
Qed.

Lemma GetAsset_read_through_witness :
  exists rdb' assetCache',
    GetAsset ∅ three_assets "0xA0b86991c6218b36c1d19D4a2e9Eb0cE3606eB48" "Ethereum"
    = (usdc, None, rdb', assetCache')
    /\ GetAsset assetCache' (store [] [] []) "0xA0b86991c6218b36c1d19D4a2e9Eb0cE3606eB48"
         "Ethereum"
       = (usdc, None, store [] [] [], assetCache').
Proof.
  destruct (GetAsset_read_through ∅ three_assets
              "0xA0b86991c6218b36c1d19D4a2e9Eb0cE3606eB48" "Ethereum"
              row_usdc [] usdc) as (rdb' & cache' & Hcall & _ & Hlater);
    [apply lookup_empty | reflexivity | reflexivity | reflexivity |].
  exists rdb', cache'. split; [exact Hcall | apply Hlater].
Defined.

(** X2.  What a call leaves in the table of the package: after a call that
    returns no error the key of its arguments holds the asset returned and no
    other key has changed; after a call that returns an error the table is
    as it was. *)
Theorem GetAsset_table_after (assetCache : gmap string Asset) (rdb : RelDB)
    (address blockchain : string) :
  let '(asset, err, _, assetCache') := GetAsset assetCache rdb address blockchain in
  (err = None ->
     assetCache' !! GetAsset_key address blockchain = Some asset
     /\ forall key, key <> GetAsset_key address blockchain ->
          assetCache' !! key = assetCache !! key)
  /\ (err <> None -> assetCache' = assetCache).
Proof.
  unfold GetAsset.
  destruct (assetCache !! GetAsset_key address blockchain) as [cached|] eqn:Hc.
  { split; [|done]. intros _. by split. }
  destruct (QueryRow _ _) as [[vals [e|]] pg]; [by split|].
  destruct (Scan_asset vals Asset_zero "") as [[asset decimals] [e|]]; [by split|].
  destruct (Atoi decimals) as [v [e|]]; [by split|].
  split; [|done]. intros _. split; [apply lookup_insert_eq|].
  intros key Hkey. by apply lookup_insert_ne.
Qed.

(** X3.  A pair (address, blockchain) that is neither in the table of the
    package nor in table asset: on a connection without failures [GetAsset]
    returns [ErrNoRows] with the zero-value asset and enters nothing. *)
Theorem GetAsset_unstored (assetCache : gmap string Asset) (rdb : RelDB)
    (address blockchain : string) :
  assetCache !! GetAsset_key address blockchain = None ->
  faults (postgresClient rdb) = [] ->
  ~ asset_stored address blockchain (assetTable (tables (postgresClient rdb))) ->
  exists rdb',
    GetAsset assetCache rdb address blockchain
    = (Asset_zero, Some ErrNoRows, rdb', assetCache).
Proof.
  intros Hmiss Hf Hno. unfold GetAsset, QueryRow. rewrite Hmiss.
  rewrite send_healthy by exact Hf. cbn [run]. unfold select_asset, limit_offset.
  rewrite asset_stored_filter by exact Hno. by eexists.
Qed.

Lemma GetAsset_unstored_witness :
  exists rdb', GetAsset ∅ three_assets "0x6B17" "Ethereum"
               = (Asset_zero, Some ErrNoRows, rdb', ∅).
Proof.
  apply GetAsset_unstored; [apply lookup_empty | reflexivity |].
  intros (r & Hin & Ha & _). cbn in Hin.
  destruct Hin as [<-|[<-|[<-|[]]]]; discriminate Ha.
Defined.

(** *** The keys of the table *)

Lemma append_nil_l t : "" +:+ t = t.
Proof. reflexivity. Qed.

Lemma append_cons_l c s t : String c s +:+ t = String c (s +:+ t).
Proof. reflexivity. Qed.

Lemma underscore_split s1 s2 t1 t2 :
  has_underscore s1 = false -> has_underscore s2 = false ->
  s1 +:+ "_" +:+ t1 = s2 +:+ "_" +:+ t2 -> s1 = s2 /\ t1 = t2.
Proof.
  revert s2. induction s1 as [|c s1 IH]; intros [|c' s2] H1 H2 E;
    repeat (rewrite append_nil_l in E || rewrite append_cons_l in E); cbn in H1, H2.
  - by injection E as <-.
  - injection E as <- _. discriminate H2.
  - injection E as -> _. discriminate H1.
  - injection E as <- E. apply orb_false_iff in H1 as [_ H1], H2 as [_ H2].
    destruct (IH s2 H1 H2 E) as [<- <-]. done.
Qed.

(** X4.  Addresses without an underscore give every pair (address,
    blockchain) a key of its own. *)
Theorem GetAsset_key_unambiguous (address1 blockchain1 address2 blockchain2 : string) :
  has_underscore address1 = false -> has_underscore address2 = false ->
  GetAsset_key address1 blockchain1 = GetAsset_key address2 blockchain2 ->
  address1 = address2 /\ blockchain1 = blockchain2.
Proof.
  intros H1 H2 E. unfold GetAsset_key in E.
  repeat (rewrite append_nil_l in E || rewrite append_cons_l in E). injection E as E.
  by apply underscore_split.
Qed.

Lemma GetAsset_key_unambiguous_witness :
  has_underscore "0xA0b8" = false
  /\ GetAsset_key "0xA0b8" "Ethereum" = "GetAsset_0xA0b8_Ethereum"
  /\ ("0xA0b8" = "0xA0b8" /\ "Ethereum" = "Ethereum").
Proof.
  split; [reflexivity|]. split; [reflexivity|].
  apply (GetAsset_key_unambiguous "0xA0b8" "Ethereum" "0xA0b8" "Ethereum");
    reflexivity.
Defined.

(** X5.  Two pairs with the same key share their entry: once a call for the
    first has returned an asset, every call for the second returns that
    asset, with no statement. *)
Theorem GetAsset_shared_key (assetCache assetCache' : gmap string Asset) (rdb rdb' : RelDB)
    (address1 blockchain1 address2 blockchain2 : string) (asset : Asset) :
  GetAsset_key address1 blockchain1 = GetAsset_key address2 blockchain2 ->
  GetAsset assetCache rdb address1 blockchain1 = (asset, None, rdb', assetCache') ->
  forall later : RelDB,
    GetAsset assetCache' later address2 blockchain2 = (asset, None, later, assetCache').
Proof.
  intros Hkey Hcall later. apply GetAsset_hit. rewrite <- Hkey.
  unfold GetAsset in Hcall.
  destruct (assetCache !! GetAsset_key address1 blockchain1) as [cached|] eqn:Hc.
  { by injection Hcall as <- _ <-. }
  destruct (QueryRow _ _) as [[vals [e|]] pg]; [discriminate|].
  destruct (Scan_asset vals Asset_zero "") as [[a decimals] [e|]]; [discriminate|].
  destruct (Atoi decimals) as [v [e|]]; [discriminate|].
  injection Hcall as <- _ <-. apply lookup_insert_eq.
Qed.

(** An address with an underscore: the call for ("0xA_B", "C") is answered
    with the asset stored for ("0xA", "B_C"). *)
Lemma GetAsset_shared_key_witness :
  let rdb := store [mkAssetRow "id-1" (Some "ONE") (Some "One") (Some "0xA") (Some "18")
                      (Some "B_C")] [] [] in
  exists rdb' assetCache',
    GetAsset ∅ rdb "0xA" "B_C" = (mkAsset "ONE" "One" "0xA" 18 "B_C", None, rdb', assetCache')
    /\ GetAsset assetCache' rdb' "0xA_B" "C"
       = (mkAsset "ONE" "One" "0xA" 18 "B_C", None, rdb', assetCache').
Proof.
  intros rdb.
  destruct (GetAsset ∅ rdb "0xA" "B_C") as [[[asset err] rdb'] cache'] eqn:Hcall.
  assert (Hres : (asset, err) = (mkAsset "ONE" "One" "0xA" 18 "B_C", None)).
  { unfold GetAsset in Hcall. rewrite lookup_empty in Hcall. cbn in Hcall.
    by injection Hcall as <- <- _ _. }
  injection Hres as -> ->.
  exists rdb', cache'. split; [reflexivity|].
  by apply (GetAsset_shared_key ∅ cache' rdb rdb' "0xA" "B_C" "0xA_B" "C").
Defined.

(** ** SetAsset and GetAsset *)

(** X6.  What [SetAsset] writes is read back unchanged, decimals zero
    included: when the first row for (address, blockchain) holds the values
    [SetAsset] inserts for an asset, [GetAsset] on a miss and a connection
    without failures returns that very asset. *)
Theorem SetAsset_read_back (assetCache : gmap string Asset) (rdb : RelDB)
    (id : string) (asset : Asset) (rest : list AssetRow) :
  0 <= Decimals asset < 256 ->
  assetCache !! GetAsset_key (Address asset) (Blockchain asset) = None ->
  faults (postgresClient rdb) = [] ->
  List.filter (asset_where [(col_address, Address asset); (col_blockchain, Blockchain asset)])
    (assetTable (tables (postgresClient rdb))) = SetAsset_row id asset :: rest ->
  exists rdb' assetCache',
    GetAsset assetCache rdb (Address asset) (Blockchain asset)
    = (asset, None, rdb', assetCache').
Proof.
  intros Hd Hmiss Hf Hrow. eexists. eexists.
  apply (GetAsset_miss _ _ _ _ (SetAsset_row id asset) rest asset); try done.
  by apply row_asset_SetAsset_row.
Qed.

Lemma SetAsset_read_back_witness :
  let sngls := mkAsset "SNGLS" "SingularDTV" "0xaeC2" 0 "Ethereum" in
  exists rdb' assetCache',
    GetAsset ∅ (store [row_wbtc; SetAsset_row "id-sngls" sngls] [] []) "0xaeC2" "Ethereum"
    = (sngls, None, rdb', assetCache').
Proof.
  intros sngls.
  apply (SetAsset_read_back ∅ _ "id-sngls" sngls []);
    [split; [reflexivity | reflexivity] | apply lookup_empty | reflexivity | reflexivity].
Defined.

(** ** GetAssets *)

Lemma Scan_asset_fresh vals asset decimals :
  let '(a1, d1, e1) := Scan_asset vals asset decimals in
  let '(a2, d2, e2) := Scan_asset vals asset "" in
  a1 = a2 /\ e1 = e2 /\ (e1 = None -> d1 = d2).
Proof.
  destruct vals as [|c0 [|c1 [|c2 [|c3 [|c4 [|c5 vals]]]]]]; cbn; try done.
  destruct (assign_string c0); [|done]. destruct (assign_string c1); [|done].
  destruct (assign_string c2); [|done]. destruct (assign_string c3); [|done].
  destruct (assign_string c4); done.
Qed.

Lemma GetAssetsBySymbolName_rows_fresh rows decimals assets :
  GetAssetsBySymbolName_rows rows decimals assets = GetAssets_rows rows assets.
Proof.
  revert decimals assets. induction rows as [|vals rows IH]; intros decimals assets;
    [reflexivity|].
  cbn [GetAssetsBySymbolName_rows GetAssets_rows].
  pose proof (Scan_asset_fresh vals Asset_zero decimals) as H.
  destruct (Scan_asset vals Asset_zero decimals) as [[a1 d1] e1].
  destruct (Scan_asset vals Asset_zero "") as [[a2 d2] e2].
  destruct H as (<- & <- & Hd). destruct e1 as [e|]; [reflexivity|].
  rewrite (Hd eq_refl). destruct (Atoi d2) as [v [e|]]; [reflexivity|]. apply IH.
Qed.

(** X7.  [GetAssets symbol] and [GetAssetsBySymbolName symbol ""] are the
    same call: the same query (the two texts differ by one space at the end)
    and the same answer, in every state of the store. *)
Theorem GetAssets_is_by_symbol (rdb : RelDB) (symbol : string) :
  GetAssets rdb symbol = GetAssetsBySymbolName rdb symbol "".
Proof.
  unfold GetAssets, GetAssetsBySymbolName. cbn [String.eqb].
  destruct (Query _ _) as [[rows [e|]] pg]; [reflexivity|].
  by rewrite GetAssetsBySymbolName_rows_fresh.
Qed.

Lemma row_asset_None_error r : row_asset r = None -> row_error r <> None.
Proof.
  unfold row_asset, row_error.
  destruct r as [id [s|] [n|] [a|] [d|] [b|]]; cbn; try done.
  destruct (Atoi d) as [v [e|]]; done.
Qed.

Lemma GetAssets_rows_read rs :
  forall assets,
  exists k,
    fst (GetAssets_rows (List.map (project asset_columns) rs) assets)
    = assets ++ omap row_asset (take k rs)
    /\ Forall (fun r => is_Some (row_asset r)) (take k rs)
    /\ match rs !! k with
       | None => snd (GetAssets_rows (List.map (project asset_columns) rs) assets) = None
       | Some r =>
           row_asset r = None
           /\ snd (GetAssets_rows (List.map (project asset_columns) rs) assets)
              = row_error r
       end.
Proof.
  induction rs as [|r rs IH]; intros assets.
  - exists 0%nat. cbn. by rewrite app_nil_r.
  - destruct (row_asset r) as [a|] eqn:Ha.
    + destruct (IH (assets ++ [a])) as (k & Hassets & Hall & Hk).
      exists (S k).
      assert (Hstep : GetAssets_rows (List.map (project asset_columns) (r :: rs)) assets
                      = GetAssets_rows (List.map (project asset_columns) rs) (assets ++ [a])).
      { unfold row_asset in Ha.
        destruct r as [id [s|] [n|] [ad|] [d|] [b|]]; cbn in Ha; try discriminate.
        cbn. destruct (Atoi d) as [v [e|]]; [discriminate|]. by injection Ha as <-. }
      rewrite Hstep. cbn [take lookup list_lookup omap list_omap]. rewrite Ha.
      split; [by rewrite Hassets, <- app_assoc|]. split; [|exact Hk].
      constructor; [by rewrite Ha|exact Hall].
    + exists 0%nat. cbn [take lookup list_lookup omap list_omap].
      assert (Hstop : GetAssets_rows (List.map (project asset_columns) (r :: rs)) assets
                      = (assets, row_error r)).
      { unfold row_asset in Ha. unfold row_error.
        destruct r as [id [s|] [n|] [ad|] [d|] [b|]]; cbn in Ha |- *; try done.
        destruct (Atoi d) as [v [e|]]; [reflexivity|discriminate]. }
      rewrite Hstop. cbn. rewrite app_nil_r. by repeat split.
Qed.

(** X8.  Rows that cannot be read.  On a connection without failures
    [GetAssets] returns the assets of the rows with the symbol that come
    before the first one holding no asset (a NULL, or decimals that are not
    an integer), together with the error of that row; it returns a nil error
    when there is no such row, and then the assets of all the rows. *)
Theorem GetAssets_stops_at_unreadable (rdb : RelDB) (symbol : string) :
  faults (postgresClient rdb) = [] ->
  let matching := List.filter (has_symbol symbol) (assetTable (tables (postgresClient rdb))) in
  let '(assets, err, _) := GetAssets rdb symbol in
  exists k,
    assets = omap row_asset (take k matching)
    /\ Forall (fun r => is_Some (row_asset r)) (take k matching)
    /\ match matching !! k with
       | None => err = None
       | Some r => row_asset r = None /\ err = row_error r /\ err <> None
       end.
Proof.
  intros Hf matching. unfold GetAssets.
  rewrite Query_select_healthy by exact Hf. cbn [pending].
  unfold select_asset, limit_offset. rewrite filter_asset_where_1. fold matching.
  destruct (GetAssets_rows_read matching []) as (k & Hassets & Hall & Hk).
  destruct (GetAssets_rows _ []) as [assets err]. cbn in Hassets, Hk.
  exists k. split; [exact Hassets|]. split; [exact Hall|].
  destruct (matching !! k) as [r|]; [|exact Hk].
  destruct Hk as [Ha He]. split; [exact Ha|]. split; [exact He|].
  rewrite He. by apply row_asset_None_error.
Qed.

Lemma GetAssets_stops_at_unreadable_witness :
  let bad := mkAssetRow "id-w2" (Some "WBTC") (Some "Wrapped") (Some "0x22") (Some "eight")
               (Some "Polygon") in
  let late := mkAssetRow "id-w3" (Some "WBTC") (Some "Late") (Some "0x33") (Some "8")
                (Some "Tron") in
  fst (GetAssets (store [row_wbtc; row_usdc; bad; late] [] []) "WBTC")
  = ([wbtc], Some (NumError "Atoi" "eight" ErrSyntax)).
Proof.
  intros bad late.
  pose proof (GetAssets_stops_at_unreadable
                (store [row_wbtc; row_usdc; bad; late] [] []) "WBTC" eq_refl) as H.
  cbv zeta in H. destruct (GetAssets _ _) as [[assets err] rdb'].
  destruct H as (k & Hassets & Hall & Hk).
  destruct k as [|[|k]].
  - exfalso. cbn in Hk. destruct Hk as [Hk _]. discriminate Hk.
  - cbn in Hk. destruct Hk as (_ & -> & _). rewrite Hassets. reflexivity.
  - exfalso. apply Forall_cons in Hall as [_ Hall]. apply Forall_cons in Hall as [[a Ha] _].
    discriminate Ha.
Defined.

(** ** GetFiatAssetBySymbol *)

(** X9.  On a connection without failures, when the first row with the
    symbol on blockchain "Fiat" holds an asset, [GetFiatAssetBySymbol]
    returns that asset; its symbol is the argument and its blockchain is
    "Fiat". *)
Theorem GetFiatAssetBySymbol_first_row (rdb : RelDB) (symbol : string)
    (r : AssetRow) (rest : list AssetRow) (a : Asset) :
  faults (postgresClient rdb) = [] ->
  List.filter (asset_where [(col_symbol, symbol); (col_blockchain, "Fiat")])
    (assetTable (tables (postgresClient rdb))) = r :: rest ->
  row_asset r = Some a ->
  exists rdb',
    GetFiatAssetBySymbol rdb symbol = (a, None, rdb')
    /\ Symbol a = symbol /\ Blockchain a = "Fiat".
Proof.
  intros Hf Hrow Ha.
  assert (Hr : asset_symbol r = Some symbol /\ asset_blockchain r = Some "Fiat").
  { assert (Hin : In r (List.filter (asset_where [(col_symbol, symbol); (col_blockchain, "Fiat")])
                          (assetTable (tables (postgresClient rdb)))))
      by (rewrite Hrow; by left).
    apply filter_In in Hin as [_ Hw]. unfold asset_where in Hw. cbn in Hw.
    rewrite andb_true_r in Hw. apply andb_true_iff in Hw as [Hs Hb].
    by apply cell_is_text in Hs, Hb. }
  destruct Hr as [Hs Hb].
  unfold GetFiatAssetBySymbol, QueryRow.
  rewrite send_healthy by exact Hf. cbn [run]. unfold select_asset, limit_offset.
  rewrite Hrow. unfold row_asset in Ha.
  destruct r as [rid [s|] [n|] [ad|] [d|] [b|]]; cbn in Ha, Hs, Hb; try discriminate.
  injection Hs as ->. injection Hb as ->.
  cbn. destruct (Atoi d) as [v [e|]]; [discriminate|]. injection Ha as <-.
  eexists. by repeat split.
Qed.

Lemma GetFiatAssetBySymbol_first_row_witness :
  let eur := mkAsset "EUR" "Euro" "" 2 "Fiat" in
  exists rdb',
    GetFiatAssetBySymbol (store [row_wbtc; SetAsset_row "id-eur" eur] [] []) "EUR"
    = (eur, None, rdb').
Proof.
  intros eur.
  destruct (GetFiatAssetBySymbol_first_row
              (store [row_wbtc; SetAsset_row "id-eur" eur] [] []) "EUR"
              (SetAsset_row "id-eur" eur) [] eur eq_refl eq_refl eq_refl)
    as (rdb' & H & _).
  by exists rdb'.
Defined.

(** ** GetByLimit *)

Lemma GetByLimit_rows_lengths rows assets assetIds :
  length assets = length assetIds ->
  let '(assets', assetIds', _) := GetByLimit_rows rows assets assetIds in
  length assets' = length assetIds'.
Proof.
  revert assets assetIds. induction rows as [|vals rows IH]; intros assets assetIds H;
    [exact H|].
  cbn [GetByLimit_rows].
  destruct (Scan_id_asset vals "" Asset_zero "") as [[[assetID asset] decimals] [e|]];
    [exact H|].
  destruct (Atoi decimals) as [v [e|]]; [exact H|].
  apply IH. rewrite !length_app. cbn. lia.
Qed.

(** X10.  The two lists [GetByLimit] returns have the same length in every
    case, also when it returns an error part of the way: the identifier at a
    position belongs to the asset at that position. *)
Theorem GetByLimit_lengths (rdb : RelDB) (limit skip : Z) :
  let '(assets, assetIds, _, _) := GetByLimit rdb limit skip in
  length assets = length assetIds.
Proof.
  unfold GetByLimit. destruct (Query _ _) as [[rows [e|]] pg]; [reflexivity|].
  pose proof (GetByLimit_rows_lengths (pending rows) [] [] eq_refl) as H.
  by destruct (GetByLimit_rows (pending rows) [] []) as [[assets assetIds] err].
Qed.

Lemma GetByLimit_rows_holding rs assets assetIds :
  Forall (fun r => is_Some (row_asset r)) rs ->
  GetByLimit_rows (List.map (project (col_asset_id :: asset_columns)) rs) assets assetIds
  = (assets ++ omap row_asset rs, assetIds ++ List.map asset_id rs, None).
Proof.
  intros H. revert assets assetIds.
  induction H as [|r rs [a Ha] _ IH]; intros assets assetIds.
  - cbn. by rewrite !app_nil_r.
  - unfold row_asset in Ha. cbn [List.map GetByLimit_rows omap list_omap].
    unfold row_asset.
    destruct r as [id [s|] [n|] [ad|] [d|] [b|]]; cbn in Ha; try discriminate.
    cbn. destruct (Atoi d) as [v [e|]]; [discriminate|].
    rewrite IH. cbn. by rewrite <- !app_assoc.
Qed.

Lemma filter_asset_where_nil rows : List.filter (asset_where []) rows = rows.
Proof. induction rows as [|r rows IH]; [reflexivity|]. cbn. by rewrite IH. Qed.

Lemma GetByLimit_holding rdb limit skip :
  faults (postgresClient rdb) = [] ->
  Forall (fun r => is_Some (row_asset r))
    (window limit skip (assetTable (tables (postgresClient rdb)))) ->
  GetByLimit rdb limit skip
  = (omap row_asset (window limit skip (assetTable (tables (postgresClient rdb)))),
     List.map asset_id (window limit skip (assetTable (tables (postgresClient rdb)))),
     None,
     with_pg rdb (sent (SelectAsset (col_asset_id :: asset_columns) [] (Some (limit, skip)))
                    (tables (postgresClient rdb)) (postgresClient rdb))).
Proof.
  intros Hf Hrows. unfold GetByLimit.
  rewrite Query_select_healthy by exact Hf. cbn [pending].
  unfold select_asset, limit_offset. cbn [asset_where forallb List.filter].
  rewrite filter_asset_where_nil. fold (window limit skip (assetTable (tables (postgresClient rdb)))).
  by rewrite GetByLimit_rows_holding.
Qed.

Lemma length_omap_le {A B} (f : A -> option B) (l : list A) :
  (length (omap f l) <= length l)%nat.
Proof.
  induction l as [|x l IH]; cbn; [lia|]. destruct (f x); cbn; lia.
Qed.

(** X11.  On a connection without failures and rows that hold assets,
    [GetByLimit limit skip] returns, without error, the assets of the rows
    at positions [skip] to [skip + limit - 1] of table asset, in storage
    order and as far as there are rows, and the identifiers of the same
    rows. *)
Theorem GetByLimit_window (rdb : RelDB) (limit skip : Z) :
  faults (postgresClient rdb) = [] ->
  Forall (fun r => is_Some (row_asset r)) (assetTable (tables (postgresClient rdb))) ->
  let table := assetTable (tables (postgresClient rdb)) in
  let '(assets, assetIds, err, _) := GetByLimit rdb limit skip in
  err = None
  /\ assets = omap row_asset (window limit skip table)
  /\ assetIds = List.map asset_id (window limit skip table)
  /\ (length assets <= Z.to_nat limit)%nat.
Proof.
  intros Hf Hrows table.
  assert (Hw : Forall (fun r => is_Some (row_asset r)) (window limit skip table)).
  { unfold window. by apply Forall_take, Forall_drop. }
  rewrite (GetByLimit_holding rdb limit skip Hf Hw).
  split; [reflexivity|]. split; [reflexivity|]. split; [reflexivity|].
  etransitivity; [apply length_omap_le|].
  unfold window. rewrite length_take. lia.
Qed.

Lemma GetByLimit_window_witness :
  fst (GetByLimit three_assets 2 1) = ([usdc; btc], ["id-usdc"; "id-btc"], None).
Proof.
  assert (Hrows : Forall (fun r => is_Some (row_asset r))
                    (assetTable (tables (postgresClient three_assets)))).
  { repeat constructor; eexists; reflexivity. }
  pose proof (GetByLimit_window three_assets 2 1 eq_refl Hrows) as H.
  cbv zeta in H. destruct (GetByLimit three_assets 2 1) as [[[assets assetIds] err] rdb'].
  destruct H as (-> & -> & -> & _). reflexivity.
Defined.

(** ** Registration and verification of exchange symbols *)

Lemma GetExchangeSymbolAssetID_healthy rdb exchange symbol :
  faults (postgresClient rdb) = [] ->
  fst (GetExchangeSymbolAssetID rdb exchange symbol)
  = match List.filter (es_key symbol exchange)
            (exchangesymbolTable (tables (postgresClient rdb))) with
    | [] => ("", false, Some ErrNoRows)
    | r :: _ => (default "" (es_asset_id r), es_verified r, None)
    end.
Proof.
  intros Hf. unfold GetExchangeSymbolAssetID, QueryRow.
  rewrite send_healthy by exact Hf. cbn [run].
  destruct (List.filter _ _) as [|r rs]; [reflexivity|].
  cbn. by destruct (es_asset_id r).
Qed.

Lemma filter_none {A} (p : A -> bool) (l : list A) :
  existsb p l = false -> List.filter p l = [].
Proof.
  induction l as [|x l IH]; cbn; [reflexivity|].
  destruct (p x); cbn; [discriminate|exact IH].
Qed.

(** X13.  Registration and lookup.  On a connection without failures, a pair
    with no row in table exchangesymbol is not found by
    [GetExchangeSymbolAssetID] ([ErrNoRows]); once [SetExchangeSymbol] has
    registered it, the lookup returns no error, [verified = false] and the
    empty asset identifier. *)
Theorem SetExchangeSymbol_then_lookup (rdb : RelDB) (exchange symbol : string) :
  faults (postgresClient rdb) = [] ->
  ~ es_present symbol exchange (exchangesymbolTable (tables (postgresClient rdb))) ->
  fst (GetExchangeSymbolAssetID rdb exchange symbol) = ("", false, Some ErrNoRows)
  /\ (let '(err, rdb1) := SetExchangeSymbol rdb exchange symbol in
      err = None
      /\ fst (GetExchangeSymbolAssetID rdb1 exchange symbol) = ("", false, None)).
Proof.
  intros Hf Hno. rewrite es_present_existsb in Hno. apply not_true_is_false in Hno.
  split.
  - rewrite GetExchangeSymbolAssetID_healthy by exact Hf.
    by rewrite (filter_none _ _ Hno).
  - rewrite SetExchangeSymbol_healthy by exact Hf. rewrite Hno.
    split; [reflexivity|].
    rewrite GetExchangeSymbolAssetID_healthy by reflexivity.
    cbn [with_pg postgresClient sent tables exchangesymbolTable].
    rewrite List.filter_app, (filter_none _ _ Hno). cbn.
    assert (Hk : es_key symbol exchange (mkExchangeSymbolRow symbol exchange false None) = true)
      by (apply es_key_spec; by split).
    by rewrite Hk.
Qed.

Lemma SetExchangeSymbol_then_lookup_witness :
  fst (GetExchangeSymbolAssetID three_assets "Binance" "BTC") = ("", false, Some ErrNoRows)
  /\ fst (GetExchangeSymbolAssetID (snd (SetExchangeSymbol three_assets "Binance" "BTC"))
            "Binance" "BTC") = ("", false, None).
Proof.
  destruct (SetExchangeSymbol_then_lookup three_assets "Binance" "BTC" eq_refl)
    as [Hbefore Hafter].
  - intros (r & [] & _).
  - split; [exact Hbefore|].
    destruct (SetExchangeSymbol three_assets "Binance" "BTC") as [err rdb1].
    by destruct Hafter.
Defined.

Lemma es_verify_key symbol exchange assetID r :
  es_key symbol exchange (es_verify assetID r) = es_key symbol exchange r.
Proof. reflexivity. Qed.

(** X14.  Verification can be repeated, and the last identifier stays.  On a
    connection without failures, for a pair with a row and two identifiers
    that the engine reads as uuids and that name assets of table asset, two
    calls of [VerifyExchangeSymbol], one with each, both return
    [(true, nil)]; a [SetExchangeSymbol] for the pair after them changes
    nothing; and the lookup then returns the second identifier, in the form
    the engine gives it, and [verified = true]. *)
Theorem VerifyExchangeSymbol_again (rdb : RelDB)
    (exchange symbol assetID1 assetID2 id1 id2 : string) :
  faults (postgresClient rdb) = [] ->
  uuid_in assetID1 = Some id1 -> uuid_in assetID2 = Some id2 ->
  names_asset id1 (assetTable (tables (postgresClient rdb))) ->
  names_asset id2 (assetTable (tables (postgresClient rdb))) ->
  es_present symbol exchange (exchangesymbolTable (tables (postgresClient rdb))) ->
  exists rdb1 rdb2,
    VerifyExchangeSymbol rdb exchange symbol assetID1 = Some (true, None, rdb1)
    /\ VerifyExchangeSymbol rdb1 exchange symbol assetID2 = Some (true, None, rdb2)
    /\ (let '(err, rdb3) := SetExchangeSymbol rdb2 exchange symbol in
        err = None
        /\ tables (postgresClient rdb3) = tables (postgresClient rdb2)
        /\ fst (GetExchangeSymbolAssetID rdb3 exchange symbol) = (id2, true, None)).
Proof.
  intros Hf Hid1 Hid2 _ _ Hp. rewrite es_present_existsb in Hp.
  pose proof (existsb_true_count _ _ Hp) as Hc.
  set (table := exchangesymbolTable (tables (postgresClient rdb))) in *.
  assert (Hfilter : exists r rs, List.filter (es_key symbol exchange) table = r :: rs).
  { unfold count_where in Hc. destruct (List.filter _ table) as [|r rs]; [cbn in Hc; lia|].
    by exists r, rs. }
  destruct Hfilter as (r & rs & Hfilter).
  eexists. eexists.
  rewrite (VerifyExchangeSymbol_healthy _ _ _ _ id1 Hf Hid1). fold table.
  split.
  { destruct (Z.eqb_spec (count_where (es_key symbol exchange) table) 0); [lia|]. reflexivity. }
  rewrite (VerifyExchangeSymbol_healthy _ _ _ _ id2) by (reflexivity || exact Hid2).
  cbn [with_pg postgresClient sent tables exchangesymbolTable assetTable exchangepairTable].
  fold table.
  assert (Hc1 : count_where (es_key symbol exchange)
                  (update_where (es_key symbol exchange) (es_verify id1) table)
                = count_where (es_key symbol exchange) table).
  { apply count_update_where. intros r0. apply es_verify_key. }
  split.
  { rewrite Hc1.
    destruct (Z.eqb_spec (count_where (es_key symbol exchange) table) 0); [lia|]. reflexivity. }
  rewrite SetExchangeSymbol_healthy by reflexivity.
  cbn [with_pg postgresClient sent tables exchangesymbolTable assetTable exchangepairTable].
  assert (Hex : existsb (es_key symbol exchange)
                  (update_where (es_key symbol exchange) (es_verify id2)
                     (update_where (es_key symbol exchange) (es_verify id1) table))
                = true).
  { assert (Hr : es_key symbol exchange r = true).
    { assert (Hin : In r (List.filter (es_key symbol exchange) table))
        by (rewrite Hfilter; by left).
      by apply filter_In in Hin as [_ Hin]. }
    apply existsb_exists. exists (es_verify id2 (es_verify id1 r)).
    split; [|by rewrite !es_verify_key].
    assert (Hin : In (es_verify id2 (es_verify id1 r))
                    (List.filter (es_key symbol exchange)
                       (update_where (es_key symbol exchange) (es_verify id2)
                          (update_where (es_key symbol exchange) (es_verify id1) table)))).
    { rewrite !filter_update_where by (intros; apply es_verify_key).
      rewrite Hfilter. by left. }
    by apply filter_In in Hin as [Hin _]. }
  rewrite Hex. split; [reflexivity|]. split; [reflexivity|].
  rewrite GetExchangeSymbolAssetID_healthy by reflexivity.
  cbn [with_pg postgresClient sent tables exchangesymbolTable].
  rewrite !filter_update_where by (intros; apply es_verify_key).
  by rewrite Hfilter.
Qed.

Lemma VerifyExchangeSymbol_again_witness :
  exists rdb1 rdb2,
    VerifyExchangeSymbol
      (store [row_dai; row_weth] [mkExchangeSymbolRow "DAI" "Binance" false None] [])
      "Binance" "DAI" "c02aaa39-b223-4e8d-8a0e-5c4f27ead908" = Some (true, None, rdb1)
    /\ VerifyExchangeSymbol rdb1 "Binance" "DAI" "6B175474-E890-44C4-8DA9-8B954EEDEAC4"
       = Some (true, None, rdb2)
    /\ fst (GetExchangeSymbolAssetID (snd (SetExchangeSymbol rdb2 "Binance" "DAI"))
              "Binance" "DAI") = ("6b175474-e890-44c4-8da9-8b954eedeac4", true, None).
Proof.
  destruct (VerifyExchangeSymbol_again
              (store [row_dai; row_weth] [mkExchangeSymbolRow "DAI" "Binance" false None] [])
              "Binance" "DAI" "c02aaa39-b223-4e8d-8a0e-5c4f27ead908"
              "6B175474-E890-44C4-8DA9-8B954EEDEAC4"
              "c02aaa39-b223-4e8d-8a0e-5c4f27ead908"
              "6b175474-e890-44c4-8da9-8b954eedeac4" eq_refl eq_refl eq_refl)
    as (rdb1 & rdb2 & H1 & H2 & H3).
  - exists row_weth. split; [right; by left|reflexivity].
  - exists row_dai. split; [by left|reflexivity].
  - eexists. split; [by left|]. by split.
  - exists rdb1, rdb2. split; [exact H1|]. split; [exact H2|].
    destruct (SetExchangeSymbol rdb2 "Binance" "DAI") as [err rdb3].
    by destruct H3 as (_ & _ & H3).
Defined.

Lemma run_keeps_verified (q : Stmt) (t t' : Tables) (rows : list RawRow) (tag : string)
    (symbol exchange : string) :
  run q t = inr (t', rows, tag) ->
  es_verified_pair symbol exchange (exchangesymbolTable t) ->
  es_verified_pair symbol exchange (exchangesymbolTable t').
Proof.
  intros Hrun [Hp Hv]. destruct q; cbn in Hrun.
  - by injection Hrun as <- _ _.
  - destruct conds; [discriminate|]. destruct (literals_ok _); [|discriminate].
    by injection Hrun as <- _ _.
  - destruct (existsb (es_key symbol0 exchange0) (exchangesymbolTable t)) eqn:Hex;
      injection Hrun as <- _ _; [by split|]. cbn.
    destruct Hp as (r & Hin & Hs & He). split.
    + exists r. split; [apply in_or_app; by left|]. by split.
    + intros r' Hin' Hs' He'. apply in_app_or in Hin' as [Hin'|[<-|[]]]; [by apply Hv|].
      cbn in Hs', He'. subst.
      exfalso. apply not_true_iff_false in Hex. apply Hex.
      apply existsb_exists. exists r. split; [exact Hin|]. by apply es_key_spec.
  - destruct (uuid_in assetID) as [id|]; [|discriminate].
    injection Hrun as <- _ _. cbn. destruct Hp as (r & Hin & Hs & He). split.
    + exists (if es_key symbol0 exchange0 r then es_verify id r else r).
      split; [unfold update_where; apply in_map_iff; by exists r|].
      by destruct (es_key symbol0 exchange0 r).
    + intros r' Hin' Hs' He'. unfold update_where in Hin'.
      apply in_map_iff in Hin' as (r0 & <- & Hin0).
      destruct (es_key symbol0 exchange0 r0); [reflexivity|]. by apply Hv.
  - by injection Hrun as <- _ _.
  - by injection Hrun as <- _ _.
  - destruct (existsb _ _); [by injection Hrun as <- _ _|].
    destruct (existsb _ _); [discriminate|]. by injection Hrun as <- _ _.
  - match type of Hrun with (if ?b then _ else _) = _ => destruct b end; [|discriminate].
    by injection Hrun as <- _ _.
Qed.

Lemma send_verified (q : Stmt) (pg : PG) (symbol exchange : string) :
  es_verified_pair symbol exchange (exchangesymbolTable (tables pg)) ->
  es_verified_pair symbol exchange (exchangesymbolTable (tables (snd (send q pg)))).
Proof.
  intros H. unfold send. destruct (next_fault (faults pg)); [exact H|].
  destruct (run q (tables pg)) as [e|[[t rows] tag]] eqn:Hrun; [exact H|].
  cbn. by apply (run_keeps_verified q (tables pg) t rows tag).
Qed.

Lemma Exec_verified (q : Stmt) (rdb : RelDB) (symbol exchange : string) :
  es_verified_pair symbol exchange (exchangesymbolTable (tables (postgresClient rdb))) ->
  es_verified_pair symbol exchange
    (exchangesymbolTable
       (tables (postgresClient (with_pg rdb (snd (Exec q (postgresClient rdb))))))).
Proof.
  intros H. pose proof (send_verified q (postgresClient rdb) symbol exchange H) as H'.
  unfold Exec. by destruct (send q (postgresClient rdb)) as [[[err rows] tag] pg'].
Qed.

Lemma GetAssetID_verified (rdb : RelDB) (asset : Asset) (symbol exchange : string) :
  es_verified_pair symbol exchange (exchangesymbolTable (tables (postgresClient rdb))) ->
  es_verified_pair symbol exchange
    (exchangesymbolTable (tables (postgresClient (snd (GetAssetID rdb asset))))).
Proof. intros H. by rewrite (proj1 (GetAssetID_frame rdb asset)). Qed.

(** X15.  No method of the file that writes takes a verification back.
    When (symbol, exchange) has a row in table exchangesymbol and all its
    rows are verified, this is still so after [SetExchangeSymbol] and after
    [VerifyExchangeSymbol], for any pair and any identifier, and after
    [SetExchangePair] for values that can be printed between quotes,
    whatever the connection does and whether the call returns an error or
    not. *)
Theorem writers_keep_verified (keyExchangePairCache : string) (rdb : RelDB)
    (symbol exchange : string) :
  es_verified_pair symbol exchange (exchangesymbolTable (tables (postgresClient rdb))) ->
  (forall exchange' symbol',
     es_verified_pair symbol exchange
       (exchangesymbolTable
          (tables (postgresClient (snd (SetExchangeSymbol rdb exchange' symbol'))))))
  /\ (forall exchange' symbol' assetID success err rdb',
        VerifyExchangeSymbol rdb exchange' symbol' assetID = Some (success, err, rdb') ->
        es_verified_pair symbol exchange (exchangesymbolTable (tables (postgresClient rdb'))))
  /\ (forall exchange' pair cache,
        plain (ForeignName pair) -> plain exchange' ->
        plain (stored_id (assetTable (tables (postgresClient rdb)))
                 (BaseToken (UnderlyingPair pair))) ->
        plain (stored_id (assetTable (tables (postgresClient rdb)))
                 (QuoteToken (UnderlyingPair pair))) ->
        es_verified_pair symbol exchange
          (exchangesymbolTable
             (tables (postgresClient
                        (snd (SetExchangePair keyExchangePairCache rdb exchange' pair cache)))))).
Proof.
  intros H. split; [|split].
  - intros exchange' symbol'. unfold SetExchangeSymbol.
    pose proof (Exec_verified (InsertExchangeSymbol symbol' exchange') rdb _ _ H) as H'.
    by destruct (Exec _ _) as [[tag err] pg].
  - intros exchange' symbol' assetID success err rdb'. unfold VerifyExchangeSymbol.
    pose proof (Exec_verified (UpdateExchangeSymbol assetID symbol' exchange') rdb _ _ H)
      as H'.
    destruct (Exec _ _) as [[resp [e|]] pg]; cbn [snd] in H'.
    + by intros [= _ _ <-].
    + destruct (Split_space resp !! 1%nat); [|discriminate]. by intros [= _ _ <-].
  - intros exchange' pair cache _ _ _ _. unfold SetExchangePair.
    pose proof (Exec_verified
                  (InsertExchangePair (EP_Symbol pair) (ForeignName pair) exchange')
                  rdb _ _ H) as H0.
    destruct (Exec _ _) as [[tag0 [e0|]] pg0]; cbn [snd] in H0; [exact H0|].
    pose proof (GetAssetID_verified _ (BaseToken (UnderlyingPair pair)) _ _ H0) as H1.
    destruct (GetAssetID _ (BaseToken _)) as [[basetokenID eb] rdb1]; cbn [snd] in H1.
    pose proof (GetAssetID_verified _ (QuoteToken (UnderlyingPair pair)) _ _ H1) as H2.
    destruct (GetAssetID _ (QuoteToken _)) as [[quotetokenID eq] rdb2]; cbn [snd] in H2.
    assert (H3 : es_verified_pair symbol exchange
                   (exchangesymbolTable
                      (tables (postgresClient
                         (snd (if String.eqb basetokenID "" then (None, rdb2)
                               else
                                 let '(_, err, pg) :=
                                   Exec (UpdateExchangePairText (set_id_basetoken basetokenID)
                                           (ForeignName pair) exchange')
                                        (postgresClient rdb2) in
                                 (err, with_pg rdb2 pg))))))).
    { destruct (String.eqb basetokenID ""); [exact H2|].
      pose proof (Exec_verified
                    (UpdateExchangePairText (set_id_basetoken basetokenID)
                       (ForeignName pair) exchange') rdb2 _ _ H2) as H'.
      by destruct (Exec _ _) as [[tag err] pg]. }
    destruct (if String.eqb basetokenID "" then _ else _) as [[e3|] rdb3]; cbn [snd] in H3;
      [exact H3|].
    assert (H4 : es_verified_pair symbol exchange
                   (exchangesymbolTable
                      (tables (postgresClient
                         (snd (if String.eqb quotetokenID "" then (None, rdb3)
                               else
                                 let '(_, err, pg) :=
                                   Exec (UpdateExchangePairText
                                           (set_id_quotetoken quotetokenID)
                                           (ForeignName pair) exchange')
                                        (postgresClient rdb3) in
                                 (err, with_pg rdb3 pg))))))).
    { destruct (String.eqb quotetokenID ""); [exact H3|].
      pose proof (Exec_verified
                    (UpdateExchangePairText (set_id_quotetoken quotetokenID)
                       (ForeignName pair) exchange') rdb3 _ _ H3) as H'.
      by destruct (Exec _ _) as [[tag err] pg]. }
    destruct (if String.eqb quotetokenID "" then _ else _) as [[e4|] rdb4]; cbn [snd] in H4;
      [exact H4|].
    pose proof (Exec_verified
                  (UpdateExchangePairText (set_verified (Verified pair))
                     (ForeignName pair) exchange') rdb4 _ _ H4) as H5.
    destruct (Exec _ _) as [[tag5 [e5|]] pg5]; cbn [snd] in H5; [exact H5|].
    destruct cache; [|exact H5].
    unfold SetExchangePairCache. by destruct (redis_Set _ _ _).
Qed.

Lemma writers_keep_verified_witness :
  es_verified_pair "DAI" "Binance"
    (exchangesymbolTable
       (tables (postgresClient
          (snd (SetExchangePair "exchangepair:"
                  (store [row_dai]
                     [mkExchangeSymbolRow "DAI" "Binance" true
                        (Some "6b175474-e890-44c4-8da9-8b954eedeac4")] [])
                  "Binance" (mkExchangePair "DAI" "DAI-USDT" "Binance" false Pair_zero)
                  true))))).
Proof.
  apply (writers_keep_verified "exchangepair:"
           (store [row_dai]
              [mkExchangeSymbolRow "DAI" "Binance" true
                 (Some "6b175474-e890-44c4-8da9-8b954eedeac4")] [])
           "DAI" "Binance"); try reflexivity.
  split.
  - eexists. split; [by left|]. by split.
  - intros r [<-|[]] _ _. reflexivity.
Defined.

(** ** SetExchangePair and GetExchangePair *)

Lemma GetAssetID_healthy rdb asset :
  faults (postgresClient rdb) = [] ->
  exists err,
    GetAssetID rdb asset
    = (stored_id (assetTable (tables (postgresClient rdb))) asset, err,
       with_pg rdb
         (sent (SelectAsset [col_asset_id]
                  [(col_address, Address asset); (col_blockchain, Blockchain asset)] None)
            (tables (postgresClient rdb)) (postgresClient rdb))).
Proof.
  intros Hf. unfold GetAssetID, QueryRow, stored_id.
  rewrite send_healthy by exact Hf. cbn [run]. unfold select_asset, limit_offset.
  destruct (List.filter _ _) as [|r rs]; cbn; by eexists.
Qed.

Lemma literals_ok_3 a b c :
  plain a -> plain b -> plain c -> literals_ok [a; b; c] = true.
Proof. unfold plain, literals_ok. cbn. intros -> -> ->. reflexivity. Qed.

Lemma ep_key_free_absent symbol foreignname exchange table :
  ep_key_free symbol foreignname exchange table ->
  existsb (ep_triple symbol foreignname exchange) table = false ->
  existsb (ep_key foreignname exchange) table = false.
Proof.
  intros Hfree Ht. apply not_true_is_false. intros H.
  apply existsb_exists in H as (r & Hin & Hk). apply ep_key_spec in Hk as [Hfn Hex].
  apply not_true_iff_false in Ht. apply Ht. apply existsb_exists. exists r.
  split; [exact Hin|]. unfold ep_triple.
  rewrite (Hfree r Hin Hfn Hex), Hfn, Hex. by rewrite !String.eqb_refl.
Qed.

Lemma Exec_insert_pair_healthy symbol foreignname exchange pg :
  faults pg = [] ->
  ep_key_free symbol foreignname exchange (exchangepairTable (tables pg)) ->
  exists tag pg',
    Exec (InsertExchangePair symbol foreignname exchange) pg = (tag, None, pg')
    /\ faults pg' = []
    /\ assetTable (tables pg') = assetTable (tables pg)
    /\ exchangepairTable (tables pg')
       = with_pair symbol foreignname exchange (exchangepairTable (tables pg)).
Proof.
  intros Hf Hfree. unfold Exec. rewrite send_healthy by exact Hf. cbn [run]. unfold with_pair.
  destruct (existsb (ep_triple symbol foreignname exchange) (exchangepairTable (tables pg)))
    eqn:Ht; [eexists; eexists; by repeat split|].
  rewrite (ep_key_free_absent _ _ _ _ Hfree Ht). eexists; eexists; by repeat split.
Qed.

Lemma link_update_healthy (what : string -> PairSet) id foreignname exchange rdb :
  faults (postgresClient rdb) = [] ->
  PairSet_literal (what id) = id ->
  plain id -> plain foreignname -> plain exchange ->
  exists rdb',
    (if String.eqb id "" then (None, rdb)
     else let '(_, err, pg) :=
            Exec (UpdateExchangePairText (what id) foreignname exchange)
                 (postgresClient rdb) in
          (err, with_pg rdb pg)) = (None, rdb')
    /\ faults (postgresClient rdb') = []
    /\ assetTable (tables (postgresClient rdb')) = assetTable (tables (postgresClient rdb))
    /\ exchangepairTable (tables (postgresClient rdb'))
       = (if String.eqb id "" then exchangepairTable (tables (postgresClient rdb))
          else update_where (ep_key foreignname exchange) (ep_set (what id))
                 (exchangepairTable (tables (postgresClient rdb)))).
Proof.
  intros Hf Hl Hi Hn He. destruct (String.eqb id ""); [eexists; by repeat split|].
  unfold Exec. rewrite send_healthy by exact Hf. cbn [run].
  rewrite literals_ok_3 by (rewrite ?Hl; assumption).
  eexists. by repeat split.
Qed.

(** [SetExchangePair] on a connection without failures, for a key that is
    free for the symbol and values that can be printed between quotes: no
    error, and table exchangepair after the
    conditional insert, the updates of the links that were found and the
    update of the verified flag. *)
Lemma SetExchangePair_healthy keyExchangePairCache rdb exchange pair cache :
  faults (postgresClient rdb) = [] ->
  ep_key_free (EP_Symbol pair) (ForeignName pair) exchange
    (exchangepairTable (tables (postgresClient rdb))) ->
  plain (ForeignName pair) -> plain exchange ->
  plain (stored_id (assetTable (tables (postgresClient rdb))) (BaseToken (UnderlyingPair pair))) ->
  plain (stored_id (assetTable (tables (postgresClient rdb))) (QuoteToken (UnderlyingPair pair))) ->
  exists rdb',
    SetExchangePair keyExchangePairCache rdb exchange pair cache = (None, rdb')
    /\ faults (postgresClient rdb') = []
    /\ assetTable (tables (postgresClient rdb')) = assetTable (tables (postgresClient rdb))
    /\ exchangepairTable (tables (postgresClient rdb'))
       = update_where (ep_key (ForeignName pair) exchange)
           (ep_set (set_verified (Verified pair)))
           (with_link set_id_quotetoken
              (stored_id (assetTable (tables (postgresClient rdb)))
                 (QuoteToken (UnderlyingPair pair)))
              (ForeignName pair) exchange
              (with_link set_id_basetoken
                 (stored_id (assetTable (tables (postgresClient rdb)))
                    (BaseToken (UnderlyingPair pair)))
                 (ForeignName pair) exchange
                 (with_pair (EP_Symbol pair) (ForeignName pair) exchange
                    (exchangepairTable (tables (postgresClient rdb)))))).
Proof.
  intros Hf Hfree Hn He Hb Hq. unfold SetExchangePair.
  destruct (Exec_insert_pair_healthy (EP_Symbol pair) (ForeignName pair) exchange
              (postgresClient rdb) Hf Hfree) as (tag0 & pg0 & -> & Hf0 & Ha0 & Ht0).
  cbv beta iota zeta.
  destruct (GetAssetID_healthy (with_pg rdb pg0) (BaseToken (UnderlyingPair pair)) Hf0)
    as (eb & ->).
  cbv beta iota zeta.
  match goal with
  | |- context [GetAssetID ?r (QuoteToken (UnderlyingPair pair))] =>
      destruct (GetAssetID_healthy r (QuoteToken (UnderlyingPair pair)) eq_refl)
        as (eq & ->);
      set (rdb2 := r)
  end.
  cbv beta iota zeta.
  set (bid := stored_id (assetTable (tables (postgresClient rdb)))
                (BaseToken (UnderlyingPair pair))) in *.
  set (qid := stored_id (assetTable (tables (postgresClient rdb)))
                (QuoteToken (UnderlyingPair pair))) in *.
  assert (Eb : stored_id (assetTable (tables (postgresClient (with_pg rdb pg0))))
                 (BaseToken (UnderlyingPair pair)) = bid)
    by (cbn; by rewrite Ha0).
  assert (Eq : stored_id (assetTable (tables (postgresClient rdb2)))
                 (QuoteToken (UnderlyingPair pair)) = qid)
    by (cbn; by rewrite Ha0).
  rewrite Eb, Eq.
  match goal with
  | |- context [if String.eqb bid "" then (None, ?r) else _] =>
      destruct (link_update_healthy set_id_basetoken bid (ForeignName pair) exchange r
                  eq_refl eq_refl Hb Hn He) as (rdb3 & H3 & Hf3 & Ha3 & Ht3)
  end.
  rewrite H3.
  destruct (link_update_healthy set_id_quotetoken qid (ForeignName pair) exchange rdb3
              Hf3 eq_refl Hq Hn He) as (rdb4 & H4 & Hf4 & Ha4 & Ht4).
  rewrite H4.
  assert (Hv : plain (PairSet_literal (set_verified (Verified pair))))
    by (by destruct (Verified pair)).
  unfold Exec. rewrite send_healthy by exact Hf4. cbn [run].
  rewrite literals_ok_3 by assumption.
  assert (Hfinal : exchangepairTable (tables (postgresClient rdb4))
                   = with_link set_id_quotetoken qid (ForeignName pair) exchange
                       (with_link set_id_basetoken bid (ForeignName pair) exchange
                          (with_pair (EP_Symbol pair) (ForeignName pair) exchange
                             (exchangepairTable (tables (postgresClient rdb)))))).
  { rewrite Ht4, Ht3. cbn. rewrite Ht0. reflexivity. }
  assert (Hassets : assetTable (tables (postgresClient rdb4))
                    = assetTable (tables (postgresClient rdb))).
  { rewrite Ha4, Ha3. cbn. exact Ha0. }
  destruct cache.
  - unfold SetExchangePairCache. destruct (redis_Set _ _ _) as [e r].
    eexists. split; [reflexivity|]. cbn. rewrite Hfinal. by repeat split.
  - eexists. split; [reflexivity|]. cbn. rewrite Hfinal. by repeat split.
Qed.






(** Another symbol for a key that has a row: the insert is refused for the
    duplicate key, [SetExchangePair] returns that error and changes no
    table. *)
Example SetExchangePair_duplicate_key :
  let rdb := store [] [] [mkExchangePairRow "DAI" "DAI-USDC" "Uniswap" true None None] in
  let '(err, rdb') :=
    SetExchangePair "exchangepair:" rdb "Uniswap"
      (mkExchangePair "USDC" "DAI-USDC" "Uniswap" true Pair_zero) false in
  err = Some ErrUniqueViolation
  /\ tables (postgresClient rdb') = tables (postgresClient rdb).
Proof. split; reflexivity. Qed.









(** ** IdentifyAsset: what comes back *)

Lemma identified_by_agrees hex candidate id s n a d b v :
  0 <= Decimals candidate < 256 ->
  identified_by hex candidate (mkAssetRow id (Some s) (Some n) (Some a) (Some d) (Some b)) = true ->
  Atoi d = (v, None) ->
  agrees hex candidate (mkAsset s n a (uint8 v) b).
Proof.
  intros Hd H Hv. unfold identified_by, has_symbol, has_name in H. cbn in H.
  rewrite !andb_true_iff, !orb_true_iff, !String.eqb_eq, Z.eqb_eq in H.
  destruct H as ((((Hs & Hn) & Ha) & Hdec) & Hb).
  unfold agrees. cbn. repeat split; intros Hset.
  - destruct Hs; congruence.
  - destruct Hn; congruence.
  - destruct Ha; congruence.
  - destruct Hdec as [|Hdec]; [congruence|]. subst d.
    rewrite (Atoi_Itoa_uint8 _ Hd) in Hv. injection Hv as <-.
    unfold uint8. apply Z.mod_small. lia.
  - destruct Hb; congruence.
Qed.

Lemma IdentifyAsset_rows_agree hex candidate rs :
  0 <= Decimals candidate < 256 ->
  Forall (fun r => identified_by hex candidate r = true) rs ->
  forall decimals assets,
    Forall (agrees hex candidate) assets ->
    Forall (agrees hex candidate)
      (fst (IdentifyAsset_rows (List.map (project asset_columns) rs) decimals assets)).
Proof.
  intros Hd H. induction H as [|r rs Hr _ IH]; intros decimals assets Hassets.
  - exact Hassets.
  - destruct r as [id [s|] [n|] [a|] [d|] [b|]]; try exact Hassets.
    cbn [List.map IdentifyAsset_rows]. cbn.
    destruct (Atoi d) as [v [e|]] eqn:Hv.
    + by apply IH.
    + apply IH. apply Forall_app. split; [exact Hassets|].
      apply Forall_cons. split; [|apply Forall_nil_2].
      by apply (identified_by_agrees hex candidate id s n a d b v).
Qed.

(** X18.  Whatever [IdentifyAsset] returns agrees with the candidate.  For
    a candidate whose values can be printed between quotes, in every state
    of the store and of the connection, and also when the call ends with an
    error after some rows, each asset returned has the symbol, the name, the
    canonical form of the address, the decimals and the blockchain of the
    candidate, for each of these the candidate sets (the decimals of a
    candidate being a [uint8]). *)
Theorem IdentifyAsset_sound (hex : string -> string) (rdb : RelDB) (candidate : Asset) :
  0 <= Decimals candidate < 256 ->
  plain (Symbol candidate) -> plain (Name candidate) ->
  plain (hex (Address candidate)) -> plain (Blockchain candidate) ->
  Forall (agrees hex candidate) (fst (fst (IdentifyAsset hex rdb candidate))).
Proof.
  intros Hd _ _ _ _. unfold IdentifyAsset, Query, send.
  destruct (next_fault (faults (postgresClient rdb))); [apply Forall_nil_2|].
  cbn [run].
  destruct (IdentifyAsset_conds hex candidate) as [|cv conds] eqn:Hconds;
    [apply Forall_nil_2|].
  destruct (literals_ok _); [|apply Forall_nil_2].
  cbn [pending]. unfold select_asset, limit_offset.
  pose proof (IdentifyAsset_rows_agree hex candidate
                (List.filter (asset_where (cv :: conds))
                   (assetTable (tables (postgresClient rdb)))) Hd) as H.
  specialize (H ltac:(rewrite <- Hconds; apply Forall_forall; intros r Hr;
                      apply list_elem_of_In, filter_In in Hr as [_ Hr];
                      by rewrite IdentifyAsset_conds_where in Hr) "" [] (Forall_nil_2 _)).
  destruct (IdentifyAsset_rows _ _ _) as [assets err]. exact H.
Qed.

Lemma IdentifyAsset_sound_witness :
  Forall (agrees (fun a => a) (mkAsset "WBTC" "" "" 8 "Ethereum"))
    (fst (fst (IdentifyAsset (fun a => a) three_assets (mkAsset "WBTC" "" "" 8 "Ethereum"))))
  /\ fst (fst (IdentifyAsset (fun a => a) three_assets (mkAsset "WBTC" "" "" 8 "Ethereum")))
     = [wbtc].
Proof.
  split.
  - apply (IdentifyAsset_sound (fun a => a) three_assets (mkAsset "WBTC" "" "" 8 "Ethereum"));
      [cbn; lia|reflexivity..].
  - reflexivity.
Defined.


(** ** The cache: what is written, and where *)

Lemma asset_stored_found address blockchain table :
  asset_stored address blockchain table ->
  List.filter (asset_where [(col_address, address); (col_blockchain, blockchain)]) table <> [].
Proof.
  intros (r & Hin & Ha & Hb) E.
  assert (Hr : In r (List.filter (asset_where [(col_address, address);
                                               (col_blockchain, blockchain)]) table)).
  { apply filter_In. split; [exact Hin|]. unfold asset_where. cbn.
    rewrite Ha, Hb. cbn. by rewrite !String.eqb_refl. }
  rewrite E in Hr. destruct Hr.
Qed.

(** X19.  A stored asset is cached under the identifier of its row.  On
    connections without failures, for an asset whose (address, blockchain)
    has a row in table asset, [SetAssetCache] returns no error; the cache
    then holds, under [keyAssetCache] followed by the identifier of the first
    such row, the asset as the caller gave it, whatever the other columns of
    the row say, and every other entry is as it was; the tables are not
    changed. *)
Theorem SetAssetCache_stored (keyAssetCache : string) (rdb : RelDB) (asset : Asset) :
  faults (postgresClient rdb) = [] ->
  redis_faults (redisClient rdb) = [] ->
  asset_stored (Address asset) (Blockchain asset)
    (assetTable (tables (postgresClient rdb))) ->
  let key := keyAssetCache +:+ stored_id (assetTable (tables (postgresClient rdb))) asset in
  exists rdb',
    SetAssetCache keyAssetCache rdb asset = (None, rdb')
    /\ kv (redisClient rdb') !! key = Some (RAsset asset)
    /\ (forall k, k <> key -> kv (redisClient rdb') !! k = kv (redisClient rdb) !! k)
    /\ tables (postgresClient rdb') = tables (postgresClient rdb).
Proof.
  intros Hf Hr Hstored key. subst key.
  apply asset_stored_found in Hstored.
  unfold SetAssetCache, GetKeyAsset, GetAssetID, QueryRow, stored_id.
  rewrite send_healthy by exact Hf. cbn [run]. unfold select_asset, limit_offset.
  destruct (List.filter _ _) as [|r rs]; [done|]. cbn.
  unfold redis_Set. rewrite Hr. cbn.
  eexists. split; [reflexivity|]. cbn. split; [apply lookup_insert_eq|].
  split; [|reflexivity]. intros k Hk. by apply lookup_insert_ne.
Qed.

Lemma SetAssetCache_stored_witness :
  exists rdb',
    SetAssetCache "asset:" three_assets (mkAsset "wrong" "" (Address usdc) 0 "Ethereum")
    = (None, rdb')
    /\ kv (redisClient rdb') !! ("asset:" +:+ asset_id row_usdc)
       = Some (RAsset (mkAsset "wrong" "" (Address usdc) 0 "Ethereum")).
Proof.
  destruct (SetAssetCache_stored "asset:" three_assets
              (mkAsset "wrong" "" (Address usdc) 0 "Ethereum") eq_refl eq_refl)
    as (rdb' & Hcall & Hkey & _).
  - exists row_usdc. split; [right; left; reflexivity|]. split; reflexivity.
  - exists rdb'. split; [exact Hcall|exact Hkey].
Defined.

Lemma append_cancel_l p s t : p +:+ s = p +:+ t -> s = t.
Proof.
  induction p as [|c p IH]; intros E;
    repeat (rewrite append_nil_l in E || rewrite append_cons_l in E).
  - exact E.
  - injection E as E. by apply IH.
Qed.

(** X20.  Pairs of exchanges without an underscore in their name do not
    overwrite each other in the cache.  When the cache does not fail and two
    pairs differ in exchange or foreign name, after [SetExchangePairCache]
    for the first and then for the second each of the two is found under its
    own key. *)
Theorem SetExchangePairCache_keeps_other (keyExchangePairCache : string) (rdb : RelDB)
    (exchange1 exchange2 : string) (pair1 pair2 : ExchangePair) :
  redis_faults (redisClient rdb) = [] ->
  has_underscore exchange1 = false -> has_underscore exchange2 = false ->
  (exchange1, ForeignName pair1) <> (exchange2, ForeignName pair2) ->
  let '(err1, rdb1) := SetExchangePairCache keyExchangePairCache rdb exchange1 pair1 in
  let '(err2, rdb2) := SetExchangePairCache keyExchangePairCache rdb1 exchange2 pair2 in
  err1 = None /\ err2 = None
  /\ kv (redisClient rdb2)
       !! (keyExchangePairCache +:+ exchange1 +:+ "_" +:+ ForeignName pair1)
     = Some (RExchangePair pair1)
  /\ kv (redisClient rdb2)
       !! (keyExchangePairCache +:+ exchange2 +:+ "_" +:+ ForeignName pair2)
     = Some (RExchangePair pair2).
Proof.
  intros Hr H1 H2 Hne. unfold SetExchangePairCache, redis_Set. rewrite Hr. cbn.
  split; [reflexivity|]. split; [reflexivity|]. split; [|apply lookup_insert_eq].
  rewrite lookup_insert_ne; [apply lookup_insert_eq|].
  intros E. apply append_cancel_l in E.
  destruct (underscore_split _ _ _ _ H2 H1 E) as [-> Efn]. apply Hne. by rewrite Efn.
Qed.

Lemma SetExchangePairCache_keeps_other_witness :
  let p1 := mkExchangePair "BTC" "BTC-USD" "Kraken" true Pair_zero in
  let p2 := mkExchangePair "BTC" "BTC-USD" "Bitfinex" false Pair_zero in
  let '(err1, rdb1) := SetExchangePairCache "pair:" three_assets "Kraken" p1 in
  let '(err2, rdb2) := SetExchangePairCache "pair:" rdb1 "Bitfinex" p2 in
  err1 = None /\ err2 = None
  /\ kv (redisClient rdb2) !! "pair:Kraken_BTC-USD" = Some (RExchangePair p1)
  /\ kv (redisClient rdb2) !! "pair:Bitfinex_BTC-USD" = Some (RExchangePair p2).
Proof.
  intros p1 p2.
  apply (SetExchangePairCache_keeps_other "pair:" three_assets "Kraken" "Bitfinex" p1 p2);
    try reflexivity.
  discriminate.
Defined.

(** With an underscore in the name of an exchange two different pairs can
    share a key, and the second then replaces the first. *)
Example SetExchangePairCache_collision :
  let p1 := mkExchangePair "A" "B_C" "X" true Pair_zero in
  let p2 := mkExchangePair "D" "C" "X_B" false Pair_zero in
  let '(_, rdb1) := SetExchangePairCache "pair:" three_assets "X" p1 in
  let '(_, rdb2) := SetExchangePairCache "pair:" rdb1 "X_B" p2 in
  kv (redisClient rdb1) !! "pair:X_B_C" = Some (RExchangePair p1)
  /\ kv (redisClient rdb2) !! "pair:X_B_C" = Some (RExchangePair p2).
Proof. split; reflexivity. Qed.


(** ** SetExchangePair, repeated *)

Lemma existsb_update_where {A} (q p : A -> bool) (f : A -> A) (l : list A) :
  (forall r, q (f r) = q r) ->
  existsb q (update_where p f l) = existsb q l.
Proof.
  intros Hq. unfold update_where. induction l as [|r l IH]; [reflexivity|].
  cbn. rewrite IH. destruct (p r); by rewrite ?Hq.
Qed.

Lemma ep_set_triple symbol foreignname exchange what r :
  ep_triple symbol foreignname exchange (ep_set what r) = ep_triple symbol foreignname exchange r.
Proof. by destruct what. Qed.

Lemma existsb_with_link symbol what id foreignname exchange table :
  existsb (ep_triple symbol foreignname exchange) (with_link what id foreignname exchange table)
  = existsb (ep_triple symbol foreignname exchange) table.
Proof.
  unfold with_link. destruct (String.eqb id ""); [reflexivity|].
  apply existsb_update_where. intros r. apply ep_set_triple.
Qed.

Lemma existsb_with_pair symbol foreignname exchange table :
  existsb (ep_triple symbol foreignname exchange) (with_pair symbol foreignname exchange table)
  = true.
Proof.
  unfold with_pair.
  destruct (existsb (ep_triple symbol foreignname exchange) table) eqn:E; [exact E|].
  rewrite existsb_app. cbn. unfold ep_triple. cbn. rewrite !String.eqb_refl.
  by rewrite orb_true_r.
Qed.

Lemma with_pair_present symbol foreignname exchange table :
  existsb (ep_triple symbol foreignname exchange) table = true ->
  with_pair symbol foreignname exchange table = table.
Proof. intros H. unfold with_pair. by rewrite H. Qed.

Lemma pair_updates_idempotent v bid qid foreignname exchange table :
  let updates t :=
    update_where (ep_key foreignname exchange) (ep_set (set_verified v))
      (with_link set_id_quotetoken qid foreignname exchange
         (with_link set_id_basetoken bid foreignname exchange t)) in
  updates (updates table) = updates table.
Proof.
  intros updates. subst updates. cbv beta. unfold with_link, update_where.
  destruct (String.eqb bid ""), (String.eqb qid "");
    rewrite !List.map_map; apply List.map_ext; intros [s f e w q b];
    unfold ep_key; cbn;
    destruct (String.eqb f foreignname && String.eqb e exchange) eqn:E; cbn;
    repeat (rewrite E; cbn); reflexivity.
Qed.

Lemma ep_key_free_update symbol foreignname exchange p what table :
  ep_key_free symbol foreignname exchange table ->
  ep_key_free symbol foreignname exchange (update_where p (ep_set what) table).
Proof.
  intros Hfree r Hin Hfn Hex. unfold update_where in Hin.
  apply in_map_iff in Hin as (r0 & <- & Hin0). destruct (p r0); [|by apply Hfree].
  rewrite ep_set_foreignname in Hfn. rewrite ep_set_exchange in Hex.
  rewrite <- (Hfree r0 Hin0 Hfn Hex). by destruct what.
Qed.

Lemma ep_key_free_with_link symbol what id foreignname exchange table :
  ep_key_free symbol foreignname exchange table ->
  ep_key_free symbol foreignname exchange (with_link what id foreignname exchange table).
Proof.
  intros Hfree. unfold with_link. destruct (String.eqb id ""); [exact Hfree|].
  by apply ep_key_free_update.
Qed.

Lemma ep_key_free_with_pair symbol foreignname exchange table :
  ep_key_free symbol foreignname exchange table ->
  ep_key_free symbol foreignname exchange (with_pair symbol foreignname exchange table).
Proof.
  intros Hfree. unfold with_pair. destruct (existsb _ _); [exact Hfree|].
  intros r Hin Hfn Hex. apply in_app_or in Hin as [Hin|[<-|[]]]; [by apply Hfree|reflexivity].
Qed.

(** X21.  [SetExchangePair] can be repeated.  On a connection without
    failures, when no row has the key (foreignname, exchange) with another
    symbol, with values that can be printed between quotes, a second call
    with the same exchange and pair returns no error as the first does, and
    leaves tables asset and exchangepair as the first call left them: no
    second row, the same links, the same flag. *)
Theorem SetExchangePair_idempotent (keyExchangePairCache : string) (rdb : RelDB)
    (exchange : string) (pair : ExchangePair) (cache : bool) :
  faults (postgresClient rdb) = [] ->
  ep_key_free (EP_Symbol pair) (ForeignName pair) exchange
    (exchangepairTable (tables (postgresClient rdb))) ->
  plain (ForeignName pair) -> plain exchange ->
  plain (stored_id (assetTable (tables (postgresClient rdb)))
           (BaseToken (UnderlyingPair pair))) ->
  plain (stored_id (assetTable (tables (postgresClient rdb)))
           (QuoteToken (UnderlyingPair pair))) ->
  exists rdb1 rdb2,
    SetExchangePair keyExchangePairCache rdb exchange pair cache = (None, rdb1)
    /\ SetExchangePair keyExchangePairCache rdb1 exchange pair cache = (None, rdb2)
    /\ assetTable (tables (postgresClient rdb2)) = assetTable (tables (postgresClient rdb1))
    /\ exchangepairTable (tables (postgresClient rdb2))
       = exchangepairTable (tables (postgresClient rdb1)).
Proof.
  intros Hf Hfree Hn He Hb Hq.
  destruct (SetExchangePair_healthy keyExchangePairCache rdb exchange pair cache
              Hf Hfree Hn He Hb Hq) as (rdb1 & Hcall1 & Hf1 & Ha1 & Ht1).
  rewrite <- Ha1 in Hb, Hq.
  assert (Hfree1 : ep_key_free (EP_Symbol pair) (ForeignName pair) exchange
                     (exchangepairTable (tables (postgresClient rdb1)))).
  { rewrite Ht1. apply ep_key_free_update. do 2 apply ep_key_free_with_link.
    by apply ep_key_free_with_pair. }
  destruct (SetExchangePair_healthy keyExchangePairCache rdb1 exchange pair cache
              Hf1 Hfree1 Hn He Hb Hq) as (rdb2 & Hcall2 & _ & Ha2 & Ht2).
  exists rdb1, rdb2. split; [exact Hcall1|]. split; [exact Hcall2|].
  split; [exact Ha2|]. rewrite Ht2.
  rewrite with_pair_present.
  - rewrite Ht1 at 1. rewrite Ha1. rewrite pair_updates_idempotent. by rewrite Ht1.
  - rewrite Ht1. rewrite existsb_update_where by (intros; apply ep_set_triple).
    rewrite !existsb_with_link. apply existsb_with_pair.
Qed.

Lemma SetExchangePair_idempotent_witness :
  let rdb := store [row_dai; row_weth] [] [] in
  let pair := mkExchangePair "WETH" "WETH-DAI" "Uniswap" true
                (mkPair (mkAsset "" "" "0x6B175474E89094C44Da98b954EedeAC495271d0F" 0 "Ethereum")
                        (mkAsset "" "" "0xC02aaA39b223FE8D0A0e5C4F27eAD9083C756Cc2" 0
                           "Ethereum")) in
  exists rdb1 rdb2,
    SetExchangePair "exchangepair:" rdb "Uniswap" pair true = (None, rdb1)
    /\ SetExchangePair "exchangepair:" rdb1 "Uniswap" pair true = (None, rdb2)
    /\ assetTable (tables (postgresClient rdb2)) = assetTable (tables (postgresClient rdb1))
    /\ exchangepairTable (tables (postgresClient rdb2))
       = exchangepairTable (tables (postgresClient rdb1)).
Proof.
  intros rdb pair.
  apply (SetExchangePair_idempotent "exchangepair:" rdb "Uniswap" pair true);
    try reflexivity.
  intros r [].
Defined.


(** ** GetPage: the page *)

(** X22.  [GetPage] returns no asset.  Column decimals is of type text and
    the driver assigns no text (and no NULL) to a [*uint8] destination; on a
    connection without failures [GetPage] therefore returns no asset and
    [hasNextPage = false] for every page: a nil error when the page has no
    row, and otherwise the error of [Scan] on the first row of the page, at
    column decimals or before it, after one statement and with the tables
    unchanged. *)
Theorem GetPage_returns_no_asset (assign_uint8 : cell -> option Z) (rdb : RelDB)
    (pageNumber : Z) :
  faults (postgresClient rdb) = [] ->
  (forall v : option string, assign_uint8 (text_cell v) = None) ->
  let skip := uint32 (pagesize rdb * pageNumber) in
  let page := window (pagesize rdb) skip (assetTable (tables (postgresClient rdb))) in
  (page = [] ->
     exists rdb', GetPage assign_uint8 rdb pageNumber = ([], false, None, rdb'))
  /\ (page <> [] ->
      exists column rdb',
        GetPage assign_uint8 rdb pageNumber = ([], false, Some (ScanArgError column), rdb')
        /\ (column <= 3)%nat
        /\ issued (postgresClient rdb')
           = issued (postgresClient rdb) ++ [GetPage_query (pagesize rdb) skip]
        /\ tables (postgresClient rdb') = tables (postgresClient rdb)).
Proof.
  intros Hf Hno skip page. unfold GetPage, GetPage_query.
  rewrite Query_select_healthy by exact Hf.
  unfold select_asset, limit_offset. rewrite filter_asset_where_nil.
  fold skip.
  fold (window (pagesize rdb) skip (assetTable (tables (postgresClient rdb)))). fold page.
  cbn [pending values]. split.
  - intros ->. cbn [List.map GetPage_rows RawValues values length].
    destruct (_ <? _); [by eexists|].
    rewrite Query_select_healthy by reflexivity. cbn. by eexists.
  - intros Hpage. destruct page as [|r rest]; [done|].
    cbn [List.map GetPage_rows].
    destruct r as [id [s|] [n|] [a|] d b]; cbn.
    + rewrite (Hno d). exists 3%nat. eexists. by repeat split.
    + exists 2%nat. eexists. split; [reflexivity|]. split; [lia|]. by split.
    + exists 1%nat. eexists. split; [reflexivity|]. split; [lia|]. by split.
    + exists 1%nat. eexists. split; [reflexivity|]. split; [lia|]. by split.
    + exists 0%nat. eexists. split; [reflexivity|]. split; [lia|]. by split.
    + exists 0%nat. eexists. split; [reflexivity|]. split; [lia|]. by split.
    + exists 0%nat. eexists. split; [reflexivity|]. split; [lia|]. by split.
    + exists 0%nat. eexists. split; [reflexivity|]. split; [lia|]. by split.
Qed.

Lemma GetPage_returns_no_asset_witness :
  (exists rdb', GetPage pgx_uint8 three_assets 2 = ([], false, None, rdb'))
  /\ (exists rdb',
        GetPage pgx_uint8 three_assets 1 = ([], false, Some (ScanArgError 3), rdb')
        /\ omap row_asset
             (window 2 2 (assetTable (tables (postgresClient three_assets)))) = [btc]).
Proof.
  split.
  - apply (GetPage_returns_no_asset pgx_uint8 three_assets 2 eq_refl);
      [by intros [v|]|reflexivity].
  - destruct (GetPage_returns_no_asset pgx_uint8 three_assets 1 eq_refl)
      as [_ Hrows]; [by intros [v|]|].
    destruct Hrows as (column & rdb' & Hcall & _); [discriminate|].
    exists rdb'. split; [|reflexivity].
    rewrite Hcall. f_equal. f_equal.
    assert (E : snd (fst (GetPage pgx_uint8 three_assets 1)) = Some (ScanArgError 3))
      by reflexivity.
    rewrite Hcall in E. exact E.
Defined.

(** ** From an asset to its identifier and back *)

Lemma filter_by_id table r :
  NoDup (List.map asset_id table) -> In r table ->
  List.filter (asset_where [(col_asset_id, asset_id r)]) table = [r].
Proof.
  rewrite filter_asset_where_1. cbn [asset_cell cell_is].
  induction table as [|x table IH]; intros Hnd Hin; [destruct Hin|].
  cbn [List.map] in Hnd. apply NoDup_cons in Hnd as [Hx Hnd]. cbn [List.filter].
  destruct Hin as [->|Hin].
  - rewrite String.eqb_refl. f_equal. apply filter_none.
    apply not_true_is_false. intros H. apply existsb_exists in H as (y & Hy & E).
    apply String.eqb_eq in E. apply Hx. rewrite <- E.
    apply list_elem_of_In, in_map, Hy.
  - destruct (String.eqb_spec (asset_id x) (asset_id r)) as [E|_]; [|by apply IH].
    exfalso. apply Hx. rewrite E. apply list_elem_of_In, in_map, Hin.
Qed.

(** X23.  From an asset to its identifier and back.  On a connection
    without failures, when the identifiers of table asset are unique and its
    rows hold assets: for an asset whose (address, blockchain) is stored,
    [GetAssetID] returns an identifier without error, and [GetAssetByID]
    with that identifier returns without error an asset with the same
    address and blockchain, the one held by the first row with them. *)
Theorem GetAssetID_then_GetAssetByID (rdb : RelDB) (asset : Asset) :
  faults (postgresClient rdb) = [] ->
  let table := assetTable (tables (postgresClient rdb)) in
  NoDup (List.map asset_id table) ->
  Forall (fun r => is_Some (row_asset r)) table ->
  asset_stored (Address asset) (Blockchain asset) table ->
  exists ID rdb1 a rdb2,
    GetAssetID rdb asset = (ID, None, rdb1)
    /\ GetAssetByID rdb1 ID = (a, None, rdb2)
    /\ Address a = Address asset /\ Blockchain a = Blockchain asset
    /\ (exists r rest,
          List.filter (asset_where [(col_address, Address asset);
                                    (col_blockchain, Blockchain asset)]) table = r :: rest
          /\ ID = asset_id r /\ row_asset r = Some a).
Proof.
  intros Hf table Hnd Hrows Hstored.
  apply asset_stored_found in Hstored. fold table in Hstored.
  destruct (List.filter _ table) as [|r rest] eqn:Hfilter; [done|].
  assert (Hr : In r table /\ asset_where [(col_address, Address asset);
                                           (col_blockchain, Blockchain asset)] r = true).
  { apply filter_In. rewrite Hfilter. by left. }
  destruct Hr as [Hin Hmatch].
  assert (Ha : is_Some (row_asset r)).
  { rewrite List.Forall_forall in Hrows. by apply Hrows. }
  destruct Ha as [a Ha].
  assert (Hid : GetAssetID rdb asset
                = (asset_id r, None,
                   with_pg rdb
                     (sent (SelectAsset [col_asset_id]
                              [(col_address, Address asset);
                               (col_blockchain, Blockchain asset)] None)
                        (tables (postgresClient rdb)) (postgresClient rdb)))).
  { unfold GetAssetID, QueryRow. rewrite send_healthy by exact Hf. cbn [run].
    unfold select_asset, limit_offset. fold table. rewrite Hfilter. reflexivity. }
  eexists _, _, a, _. split; [exact Hid|]. split.
  - apply GetAssetByID_linked; [reflexivity|].
    cbn. unfold asset_of_id. fold table. by rewrite filter_by_id.
  - unfold asset_where in Hmatch. cbn in Hmatch.
    rewrite !andb_true_iff in Hmatch. destruct Hmatch as (Hadr & Hbc & _).
    apply cell_is_text in Hadr, Hbc. pose proof Ha as Hheld.
    unfold row_asset in Ha. rewrite Hadr, Hbc in Ha.
    destruct (asset_symbol r), (asset_name r), (asset_decimals r) as [d|];
      try discriminate.
    destruct (Atoi d) as [v [e|]]; [discriminate|]. injection Ha as <-.
    split; [reflexivity|]. split; [reflexivity|]. by exists r, rest.
Qed.

Lemma GetAssetID_then_GetAssetByID_witness :
  exists ID rdb1 rdb2,
    GetAssetID three_assets (mkAsset "" "" (Address usdc) 0 "Ethereum") = (ID, None, rdb1)
    /\ GetAssetByID rdb1 ID = (usdc, None, rdb2).
Proof.
  destruct (GetAssetID_then_GetAssetByID three_assets
              (mkAsset "" "" (Address usdc) 0 "Ethereum") eq_refl)
    as (ID & rdb1 & a & rdb2 & Hid & Hget & _ & _ & r & rest & Hfilter & _ & Ha).
  - cbn. repeat constructor; cbn; intros H; repeat (apply elem_of_cons in H as [H|H];
      [discriminate H|]); by apply elem_of_nil in H.
  - repeat constructor; by eexists.
  - exists row_usdc. split; [right; left; reflexivity|]. split; reflexivity.
  - injection Hfilter as <- _. injection Ha as <-.
    exists ID, rdb1, rdb2. split; [exact Hid|exact Hget].
Defined.


(** ** The methods that read *)

Lemma Query_read_only q pg :
  read_only q = true -> tables (snd (Query q pg)) = tables pg.
Proof.
  intros Hq. pose proof (send_read_only q pg Hq) as H. unfold Query.
  by destruct (send q pg) as [[[err rows] tag] pg'].
Qed.

Lemma QueryRow_read_only q pg :
  read_only q = true -> tables (snd (QueryRow q pg)) = tables pg.
Proof.
  intros Hq. pose proof (send_read_only q pg Hq) as H. unfold QueryRow.
  destruct (send q pg) as [[[[e|] rows] tag] pg']; [exact H|].
  by destruct rows.
Qed.

Lemma unchanged_with_pg rdb pg :
  tables pg = tables (postgresClient rdb) -> unchanged rdb (with_pg rdb pg).
Proof. intros H. by split. Qed.

Lemma unchanged_trans rdb1 rdb2 rdb3 :
  unchanged rdb1 rdb2 -> unchanged rdb2 rdb3 -> unchanged rdb1 rdb3.
Proof. intros [H1 H1'] [H2 H2']. split; congruence. Qed.

Ltac settle_reading H :=
  cbn [snd] in H; apply unchanged_with_pg in H;
  repeat match goal with
         | |- context [match ?x with _ => _ end] => destruct x
         end;
  exact H.

Ltac reading_rows q pg :=
  let H := fresh "Hread" in
  pose proof (Query_read_only q pg eq_refl) as H;
  destruct (Query q pg) as [[? ?] ?]; settle_reading H.

Ltac reading_row q pg :=
  let H := fresh "Hread" in
  pose proof (QueryRow_read_only q pg eq_refl) as H;
  destruct (QueryRow q pg) as [[? ?] ?]; settle_reading H.

Lemma GetAssetID_unchanged rdb asset : unchanged rdb (snd (GetAssetID rdb asset)).
Proof.
  unfold GetAssetID.
  reading_row (SelectAsset [col_asset_id]
             [(col_address, Address asset); (col_blockchain, Blockchain asset)] None)
          (postgresClient rdb).
Qed.

Lemma GetAssetByID_unchanged rdb assetID : unchanged rdb (snd (GetAssetByID rdb assetID)).
Proof.
  unfold GetAssetByID.
  reading_row (SelectAsset asset_columns [(col_asset_id, assetID)] None) (postgresClient rdb).
Qed.

Lemma GetAllAssets_unchanged rdb blockchain :
  unchanged rdb (snd (GetAllAssets rdb blockchain)).
Proof.
  unfold GetAllAssets.
  reading_rows (SelectAsset [col_symbol; col_name; col_address; col_decimals]
             [(col_blockchain, blockchain)] None) (postgresClient rdb).
Qed.

Lemma GetAssetsBySymbolName_unchanged rdb symbol name :
  unchanged rdb (snd (GetAssetsBySymbolName rdb symbol name)).
Proof.
  unfold GetAssetsBySymbolName.
  destruct (String.eqb name ""); [|destruct (String.eqb symbol "")].
  - reading_rows (SelectAsset asset_columns [(col_symbol, symbol)] None) (postgresClient rdb).
  - reading_rows (SelectAsset asset_columns [(col_name, name)] None) (postgresClient rdb).
  - reading_rows (SelectAsset asset_columns [(col_symbol, symbol); (col_name, name)] None)
            (postgresClient rdb).
Qed.

Lemma GetAssets_unchanged rdb symbol : unchanged rdb (snd (GetAssets rdb symbol)).
Proof.
  unfold GetAssets.
  reading_rows (SelectAsset asset_columns [(col_symbol, symbol)] None) (postgresClient rdb).
Qed.

Lemma GetFiatAssetBySymbol_unchanged rdb symbol :
  unchanged rdb (snd (GetFiatAssetBySymbol rdb symbol)).
Proof.
  unfold GetFiatAssetBySymbol.
  reading_row (SelectAsset [col_name; col_address; col_decimals]
             [(col_symbol, symbol); (col_blockchain, "Fiat")] None) (postgresClient rdb).
Qed.

Lemma IdentifyAsset_unchanged hex rdb asset :
  unchanged rdb (snd (IdentifyAsset hex rdb asset)).
Proof.
  unfold IdentifyAsset.
  reading_rows (SelectAssetText asset_columns (IdentifyAsset_conds hex asset))
          (postgresClient rdb).
Qed.

Lemma GetExchangeSymbolAssetID_unchanged rdb exchange symbol :
  unchanged rdb (snd (GetExchangeSymbolAssetID rdb exchange symbol)).
Proof.
  unfold GetExchangeSymbolAssetID.
  reading_row (SelectExchangeSymbol symbol exchange) (postgresClient rdb).
Qed.

Lemma GetByLimit_unchanged rdb limit skip :
  unchanged rdb (snd (GetByLimit rdb limit skip)).
Proof.
  unfold GetByLimit.
  reading_rows (SelectAsset (col_asset_id :: asset_columns) [] (Some (limit, skip)))
          (postgresClient rdb).
Qed.

Lemma GetPage_unchanged assign_uint8 rdb pageNumber :
  unchanged rdb (snd (GetPage assign_uint8 rdb pageNumber)).
Proof.
  unfold GetPage, GetPage_query.
  pose proof (Query_read_only
                (SelectAsset asset_columns []
                   (Some (pagesize rdb, uint32 (pagesize rdb * pageNumber))))
                (postgresClient rdb) eq_refl) as H1.
  destruct (Query _ (postgresClient rdb)) as [[rows [e|]] pg]; cbn [snd] in H1;
    apply unchanged_with_pg in H1; [exact H1|].
  destruct (GetPage_rows _ _ _ _) as [[assets [e|]] rows']; [exact H1|].
  destruct (_ <? _); [exact H1|].
  pose proof (Query_read_only
                (SelectAsset asset_columns []
                   (Some (pagesize rdb,
                          uint32 (uint32 (pagesize rdb * pageNumber) + 1))))
                (postgresClient (with_pg rdb pg)) eq_refl) as H2.
  destruct (Query _ (postgresClient (with_pg rdb pg))) as [[nextPageRows err] pg'].
  cbn [snd] in H2. apply unchanged_with_pg in H2.
  assert (H : unchanged rdb (with_pg (with_pg rdb pg) pg'))
    by exact (unchanged_trans _ _ _ H1 H2).
  by destruct (Nat.eqb _ _).
Qed.

Lemma GetExchangePair_unchanged rdb exchange foreignname :
  unchanged rdb (snd (GetExchangePair rdb exchange foreignname)).
Proof.
  unfold GetExchangePair.
  pose proof (QueryRow_read_only (SelectExchangePair exchange foreignname)
                (postgresClient rdb) eq_refl) as H1.
  destruct (QueryRow _ _) as [[vals [e|]] pg]; cbn [snd] in H1;
    apply unchanged_with_pg in H1; [exact H1|].
  destruct vals as [|c0 [|c1 [|c2 [|c3 [|]]]]]; try exact H1.
  destruct (assign_string c0); [|exact H1].
  destruct (assign_bool c1); [|exact H1].
  destruct (assign_UUID c2) as [val1|]; [|exact H1].
  destruct (assign_UUID c3) as [val2|]; [|exact H1].
  assert (H2 : unchanged rdb
                 (snd (match val1 with
                       | Some id => GetAssetByID (with_pg rdb pg) id
                       | None => (Asset_zero, None, with_pg rdb pg)
                       end))).
  { destruct val1 as [id|]; [|exact H1].
    exact (unchanged_trans _ _ _ H1 (GetAssetByID_unchanged _ id)). }
  destruct (match val1 with Some _ => _ | None => _ end) as [[quotetoken [e|]] rdb2];
    cbn [snd] in H2; [exact H2|].
  assert (H3 : unchanged rdb
                 (snd (match val2 with
                       | Some id => GetAssetByID rdb2 id
                       | None => (Asset_zero, None, rdb2)
                       end))).
  { destruct val2 as [id|]; [|exact H2].
    exact (unchanged_trans _ _ _ H2 (GetAssetByID_unchanged _ id)). }
  destruct (match val2 with Some _ => _ | None => _ end) as [[basetoken [e|]] rdb3];
    exact H3.
Qed.

(** X24.  The methods that read write nothing.  Whatever the connection
    does and whatever the store holds, after [GetAssetID], [GetKeyAsset],
    [GetAssetByID], [GetAllAssets], [GetAssetsBySymbolName], [GetAssets],
    [GetFiatAssetBySymbol], [IdentifyAsset], [GetExchangeSymbolAssetID],
    [GetExchangePair], [GetPage] and [GetByLimit] the three tables and the
    cache are as they were before the call, also when the call ends with an
    error or sends more than one statement. *)
Theorem readers_leave_store_unchanged (keyAssetCache : string) (hex : string -> string)
    (assign_uint8 : cell -> option Z) (rdb : RelDB) :
  (forall asset, unchanged rdb (snd (GetAssetID rdb asset)))
  /\ (forall asset, unchanged rdb (snd (GetKeyAsset keyAssetCache rdb asset)))
  /\ (forall assetID, unchanged rdb (snd (GetAssetByID rdb assetID)))
  /\ (forall blockchain, unchanged rdb (snd (GetAllAssets rdb blockchain)))
  /\ (forall symbol name, unchanged rdb (snd (GetAssetsBySymbolName rdb symbol name)))
  /\ (forall symbol, unchanged rdb (snd (GetAssets rdb symbol)))
  /\ (forall symbol, unchanged rdb (snd (GetFiatAssetBySymbol rdb symbol)))
  /\ (forall asset, unchanged rdb (snd (IdentifyAsset hex rdb asset)))
  /\ (forall exchange symbol, unchanged rdb (snd (GetExchangeSymbolAssetID rdb exchange symbol)))
  /\ (forall exchange foreignname,
        unchanged rdb (snd (GetExchangePair rdb exchange foreignname)))
  /\ (forall pageNumber, unchanged rdb (snd (GetPage assign_uint8 rdb pageNumber)))
  /\ (forall limit skip, unchanged rdb (snd (GetByLimit rdb limit skip))).
Proof.
  split; [apply GetAssetID_unchanged|].
  split.
  { intros asset. unfold GetKeyAsset.
    pose proof (GetAssetID_unchanged rdb asset) as H.
    by destruct (GetAssetID rdb asset) as [[ID [e|]] rdb']. }
  split; [apply GetAssetByID_unchanged|].
  split; [apply GetAllAssets_unchanged|].
  split; [apply GetAssetsBySymbolName_unchanged|].
  split; [apply GetAssets_unchanged|].
  split; [apply GetFiatAssetBySymbol_unchanged|].
  split; [apply IdentifyAsset_unchanged|].
  split; [apply GetExchangeSymbolAssetID_unchanged|].
  split; [apply GetExchangePair_unchanged|].
  split; [apply GetPage_unchanged|apply GetByLimit_unchanged].
Qed.


(** ** GetAssetsWithVOLInflux: when it panics *)

Lemma GetAssetsWithVOLInflux_values_panics vals :
  forall asset (uniqueMap : gset Asset) quotedAssets,
    GetAssetsWithVOLInflux_values vals asset uniqueMap quotedAssets = None
    <-> List.Exists (fun val => row_panics val = true) vals.
Proof.
  induction vals as [|val vals IH]; intros asset uniqueMap quotedAssets.
  - cbn. split; [discriminate|]. intros H. inversion H.
  - rewrite List.Exists_cons. cbn [GetAssetsWithVOLInflux_values]. unfold row_panics.
    destruct (val !! 1%nat) as [[|address|n1]|].
    + rewrite IH. split; [tauto|]. by intros [|].
    + destruct (val !! 2%nat) as [[|blockchain|n2]|].
      * rewrite IH. split; [tauto|]. by intros [|].
      * destruct (decide _); rewrite IH; (split; [tauto|]); by intros [|].
      * split; [by left|done].
      * split; [by left|done].
    + destruct (val !! 2%nat) as [[|blockchain|n2]|].
      * rewrite IH. split; [tauto|]. by intros [|].
      * split; [by left|done].
      * split; [by left|done].
      * split; [by left|done].
    + split; [by left|done].
Qed.

(** X25.  When [GetAssetsWithVOLInflux] panics.  When the query itself
    succeeds, the call ends in a run-time panic exactly when some row of the
    first series has no field 1, or a field 1 that is not nil and no
    field 2, or two fields that are not nil and not both strings; in every
    other case it returns. *)
Theorem GetAssetsWithVOLInflux_panics (datastore : DB) (timeInit : Z) (res : list Result) :
  influxClient datastore timeInit = (res, None) ->
  GetAssetsWithVOLInflux datastore timeInit = None
  <-> List.Exists (fun val => row_panics val = true) (volume_values res).
Proof.
  intros Hq. unfold GetAssetsWithVOLInflux, volume_values. rewrite Hq.
  destruct res as [|result rest].
  { split; [discriminate|]. intros H. inversion H. }
  destruct (Series result) as [|series rest'].
  { split; [discriminate|]. intros H. inversion H. }
  destruct (Values series) as [|val vals] eqn:Hv.
  { split; [discriminate|]. intros H. inversion H. }
  rewrite <- (GetAssetsWithVOLInflux_values_panics (val :: vals) Asset_zero ∅ []).
  destruct (GetAssetsWithVOLInflux_values _ _ _ _); split; done.
Qed.

Lemma GetAssetsWithVOLInflux_panics_witness :
  GetAssetsWithVOLInflux
    (mkDB (fun _ => ([mkResult [mkRow [[INumber 1; IString "0xA"; INumber 7]]]], None))) 0
  = None
  /\ GetAssetsWithVOLInflux sample_volumes 0 <> None.
Proof.
  split.
  - apply (GetAssetsWithVOLInflux_panics
             (mkDB (fun _ => ([mkResult [mkRow [[INumber 1; IString "0xA"; INumber 7]]]],
                              None))) 0 _ eq_refl).
    by left.
  - intros H.
    apply (GetAssetsWithVOLInflux_panics sample_volumes 0 _ eq_refl) in H.
    cbn in H. repeat (apply List.Exists_cons in H as [H|H]; [discriminate H|]).
    inversion H.
Defined.
